(** * Referral microservice: referral lifecycle and reward settlement

    A shallow embedding of the models, services, controllers and scheduled
    jobs of the referral microservice, followed by the properties of the
    referral lifecycle and of reward settlement, each proved of that code
    or shown to fail on it.

    Conventions of the embedding.
    - A JavaScript number is a rational ([Q]).  [NaN], which the code only
      meets as the result of [parseFloat] or [parseInt] on a missing
      setting, is [None] of an option.
    - [null] and [undefined] of an optional property are [None].
    - A table is the list of its rows, most recently inserted first, so that
      [ORDER BY created_at DESC] is the order of the list.  An INT column
      is read as a number.  A DECIMAL column is handed out by the driver
      as the text of its value (the code itself applies [parseFloat] to
      one in [getUserRewardAnalytics]); the embedding keeps the value, a
      rational, and writes out the places where the code reads such a
      column as a boolean: the text of a DECIMAL is never empty, so it is
      truthy whatever its value, and a comparison converts it to its
      number.  A JSON column is handed out as text, which is what every
      reader in the models assumes when it calls [JSON.parse] on it.
    - The database compares texts under the collation of db_script.sql,
      utf8mb4_unicode_ci, which takes no account of case.  Identifiers and
      codes are taken in one canonical form, on which that comparison is
      equality.
    - [uuidv4()] draws from a supply that never repeats.
    - An [async] function is a function from the state of the world to a
      completion (a value, or a thrown error) and the next state.  What a
      function wrote before it threw stays written.
    - The time is the world's clock, which stands still while an operation
      runs.
    - A module is what its file exports.  [externalServices] is the
      instance exported by services/externalService.js.  In
      controllers/referralController.js the name [rewardService] is bound
      to that same instance (its line 11 requires
      "../services/externalService"), not to the class [RewardService] of
      services/rewardsService.js.
    - The routes register the handlers as plain functions
      ([router.post("/", auth, ReferralController.createReferral)]), so
      [this] is [undefined] while a handler runs.
    - Calls to the logger have no effect on the world and are left out. *)

From Stdlib Require Import List String Ascii ZArith QArith Qround Bool Lia Lqa.
From Stdlib Require Import DecimalString.
Import ListNotations.
Local Open Scope string_scope.
Local Open Scope Z_scope.

(** ** JavaScript values *)

(** [x || d] on numbers: zero is falsy. *)
Definition num_or (x d : Q) : Q := if Qeq_bool x 0 then d else x.

(** [x || d] where [x] may be [null], [undefined] or [NaN]. *)
Definition optnum_or (x : option Q) (d : Q) : Q :=
  match x with Some q => num_or q d | None => d end.

(** [x || null] and [x || d] on strings: the empty string is falsy. *)
Definition str_truthy (s : string) : bool := negb (String.eqb s "").

Definition optstr_or_null (x : option string) : option string :=
  match x with Some s => if str_truthy s then Some s else None | None => None end.

Definition optstr_or (x : option string) (d : string) : string :=
  match optstr_or_null x with Some s => s | None => d end.

(** Template literals print an integer in decimal. *)
Definition decimal (z : Z) : string := NilZero.string_of_int (Z.to_int z).

(** The flat JSON objects the code stores as metadata. *)
Inductive json_scalar :=
| JNumber (q : Q)
| JString (s : string)
| JBool (b : bool)
| JIsoDate (ms : Z)       (* the text of [new Date(ms).toISOString()] *)
| JNull.

Definition json_object := list (string * json_scalar).

Fixpoint obj_get (k : string) (o : json_object) : option json_scalar :=
  match o with
  | [] => None
  | (k', v) :: o' => if String.eqb k' k then Some v else obj_get k o'
  end.

Fixpoint obj_set (k : string) (v : json_scalar) (o : json_object) : json_object :=
  match o with
  | [] => [(k, v)]
  | (k', v') :: o' => if String.eqb k' k then (k, v) :: o' else (k', v') :: obj_set k v o'
  end.

(** [{ ...o, ...extra }]: the properties of [extra] override those of [o]. *)
Definition obj_spread (o extra : json_object) : json_object :=
  fold_left (fun acc kv => obj_set (fst kv) (snd kv) acc) extra o.

(** What a [metadata] property holds: SQL NULL, the JSON text the store
    keeps in the column, or the object a reader has parsed that text into.
    [MetaText doc] is the string [JSON.stringify(doc)]. *)
Inductive metadata_value :=
| MetaNull
| MetaText (doc : json_object)
| MetaObject (doc : json_object).

Definition meta_truthy (m : metadata_value) : bool :=
  match m with MetaNull => false | _ => true end.

Inductive js_error :=
| TypeError (what : string)
| SyntaxError (what : string)
| RequestFailed (url : string)
| ER_DUP_ENTRY (key : string).

Inductive completion (A : Type) :=
| Normal (a : A)
| Thrown (e : js_error).
Arguments Normal {A} a.
Arguments Thrown {A} e.

(** [JSON.parse(x)] first turns [x] into a string.  A JSON text parses to
    its object; an object turns into the string "[object Object]", which
    is not JSON; [null] turns into "null" and parses to [null]. *)
Definition JSON_parse (x : metadata_value) : completion metadata_value :=
  match x with
  | MetaText doc => Normal (MetaObject doc)
  | MetaObject _ => Thrown (SyntaxError "Unexpected token o in JSON at position 1")
  | MetaNull => Normal MetaNull
  end.

Definition JSON_stringify (o : json_object) : metadata_value := MetaText o.

(** Reading property [k] of a parsed value; [None] is [undefined]. *)
Definition meta_prop (k : string) (m : metadata_value) : option json_scalar :=
  match m with MetaObject doc => obj_get k doc | _ => None end.

(** [v === n] for a property value [v] and a number [n]. *)
Definition prop_is_number (v : option json_scalar) (n : Q) : bool :=
  match v with Some (JNumber q) => Qeq_bool q n | _ => false end.

(** ** The tables (db_script.sql and the createTable of each model) *)

Definition uuid := nat.

Inductive referral_status := RefPending | RefCompleted | RefExpired | RefCancelled.
Inductive completion_condition := first_order | first_delivery | registration.
Inductive reward_status := pending | credited | expired | cancelled.
Inductive reward_type := referral_bonus | milestone_bonus | campaign_bonus | loyalty_bonus.
Inductive source_type := src_referral | src_campaign | src_milestone | src_manual.

Definition referral_status_eqb (a b : referral_status) : bool :=
  match a, b with
  | RefPending, RefPending | RefCompleted, RefCompleted
  | RefExpired, RefExpired | RefCancelled, RefCancelled => true
  | _, _ => false
  end.

Definition reward_status_eqb (a b : reward_status) : bool :=
  match a, b with
  | pending, pending | credited, credited
  | expired, expired | cancelled, cancelled => true
  | _, _ => false
  end.

Definition reward_type_eqb (a b : reward_type) : bool :=
  match a, b with
  | referral_bonus, referral_bonus | milestone_bonus, milestone_bonus
  | campaign_bonus, campaign_bonus | loyalty_bonus, loyalty_bonus => true
  | _, _ => false
  end.

Record referral_code_row := {
  rc_id : uuid;
  rc_owner_id : string;
  rc_owner_type : string;
  rc_code : string;
  rc_usage_count : Z;
  rc_max_usage : Z;
  rc_is_active : bool;
  rc_bonus_amount : Q;
  rc_bonus_type : string;
  rc_minimum_order_amount : Q;
  rc_expiry_date : option Z;
  rc_campaign_id : option uuid
}.

Record referral_row := {
  rf_id : uuid;
  rf_referrer_id : string;
  rf_referee_id : string;
  rf_referrer_type : string;
  rf_referee_type : string;
  rf_referral_code : string;
  rf_status : referral_status;
  rf_completion_condition : completion_condition;
  rf_completion_date : option Z;
  rf_referrer_bonus : Q;
  rf_referee_bonus : Q;
  rf_referrer_bonus_type : string;
  rf_referee_bonus_type : string;
  rf_minimum_order_amount : option Q;
  rf_expiry_date : Z;
  rf_campaign_id : option uuid;
  rf_completion_order_id : option string;
  rf_completion_delivery_id : option string;
  rf_metadata : metadata_value
}.

Record reward_row := {
  rw_id : uuid;
  rw_user_id : string;
  rw_user_type : string;
  rw_reward_type : reward_type;
  rw_amount : Q;
  rw_currency : string;
  rw_status : reward_status;
  rw_credited_date : option Z;
  rw_expiry_date : option Z;
  rw_source_id : option uuid;
  rw_source_type : source_type;
  rw_description : option string;
  rw_metadata : metadata_value
}.

Record campaign_row := {
  cp_id : uuid;
  cp_name : string;
  cp_campaign_type : string;
  cp_target_audience : string;
  cp_bonus_amount : Q;
  cp_bonus_type : string;
  cp_minimum_requirement : Q;
  cp_max_participants : option Z;
  cp_current_participants : Z;
  cp_start_date : Z;
  cp_end_date : Z;
  cp_is_active : bool;
  cp_metadata : metadata_value
}.

(** ** The world an operation runs in *)

(** The settings read from [process.env], each after [parseFloat] or
    [parseInt]: [None] when the variable is missing or not a number. *)
Record process_env := {
  CUSTOMER_REFERRAL_BONUS : option Q;
  DRIVER_REFERRAL_BONUS : option Q;
  RESTAURANT_REFERRAL_BONUS : option Q;
  MILESTONE_BONUS_5 : option Q;
  MILESTONE_BONUS_10 : option Q;
  MILESTONE_BONUS_25 : option Q;
  MILESTONE_BONUS_50 : option Q;
  MILESTONE_BONUS_100 : option Q;
  REFERRAL_EXPIRY_DAYS : option Z
}.

Definition no_env : process_env :=
  {| CUSTOMER_REFERRAL_BONUS := None; DRIVER_REFERRAL_BONUS := None;
     RESTAURANT_REFERRAL_BONUS := None; MILESTONE_BONUS_5 := None;
     MILESTONE_BONUS_10 := None; MILESTONE_BONUS_25 := None;
     MILESTONE_BONUS_50 := None; MILESTONE_BONUS_100 := None;
     REFERRAL_EXPIRY_DAYS := None |}.

(** A request sent to another service. *)
Inductive http_request :=
| PostCredit (user_id : string) (amount : Q) (source : uuid)
| PostNotification (user_id : string) (type : string).

Record world := {
  referral_codes : list referral_code_row;
  referrals : list referral_row;
  rewards : list reward_row;
  campaigns : list campaign_row;
  uuid_supply : nat;                 (* the next identifier [uuidv4()] returns *)
  clock : Z;                         (* the current time, in milliseconds *)
  env : process_env;
  axios : nat -> bool;               (* whether the k-th request sent succeeds *)
  requests : list http_request       (* the requests sent, latest first *)
}.

Definition with_referral_codes (l : list referral_code_row) (w : world) : world :=
  {| referral_codes := l; referrals := referrals w; rewards := rewards w;
     campaigns := campaigns w; uuid_supply := uuid_supply w; clock := clock w;
     env := env w; axios := axios w; requests := requests w |}.

Definition with_referrals (l : list referral_row) (w : world) : world :=
  {| referral_codes := referral_codes w; referrals := l; rewards := rewards w;
     campaigns := campaigns w; uuid_supply := uuid_supply w; clock := clock w;
     env := env w; axios := axios w; requests := requests w |}.

Definition with_rewards (l : list reward_row) (w : world) : world :=
  {| referral_codes := referral_codes w; referrals := referrals w; rewards := l;
     campaigns := campaigns w; uuid_supply := uuid_supply w; clock := clock w;
     env := env w; axios := axios w; requests := requests w |}.

Definition with_campaigns (l : list campaign_row) (w : world) : world :=
  {| referral_codes := referral_codes w; referrals := referrals w; rewards := rewards w;
     campaigns := l; uuid_supply := uuid_supply w; clock := clock w;
     env := env w; axios := axios w; requests := requests w |}.

Definition with_uuid_supply (n : nat) (w : world) : world :=
  {| referral_codes := referral_codes w; referrals := referrals w; rewards := rewards w;
     campaigns := campaigns w; uuid_supply := n; clock := clock w;
     env := env w; axios := axios w; requests := requests w |}.

Definition with_requests (l : list http_request) (w : world) : world :=
  {| referral_codes := referral_codes w; referrals := referrals w; rewards := rewards w;
     campaigns := campaigns w; uuid_supply := uuid_supply w; clock := clock w;
     env := env w; axios := axios w; requests := l |}.

(** ** Asynchronous functions *)

Definition async (A : Type) : Type := world -> completion A * world.

Definition ret {A} (a : A) : async A := fun w => (Normal a, w).

Definition throw {A} (e : js_error) : async A := fun w => (Thrown e, w).

Definition bind {A B} (c : async A) (k : A -> async B) : async B :=
  fun w => match c w with
           | (Normal a, w') => k a w'
           | (Thrown e, w') => (Thrown e, w')
           end.

(** [try { c } catch (error) { h error }] *)
Definition try_catch {A} (c : async A) (h : js_error -> async A) : async A :=
  fun w => match c w with
           | (Normal a, w') => (Normal a, w')
           | (Thrown e, w') => h e w'
           end.

(** Lifting a completion of a synchronous call such as [JSON.parse]. *)
Definition sync {A} (c : completion A) : async A := fun w => (c, w).

Definition gets {A} (f : world -> A) : async A := fun w => (Normal (f w), w).

Definition modify (f : world -> world) : async unit := fun w => (Normal tt, f w).

Declare Scope async_scope.
Delimit Scope async_scope with async.
Notation "x <- c ;; k" := (bind c (fun x => k))
  (at level 61, c at next level, right associativity) : async_scope.
Notation "c ;;; k" := (bind c (fun _ => k))
  (at level 61, right associativity) : async_scope.
Local Open Scope async_scope.

(** [for (const x of xs) { await body x }] *)
Fixpoint for_of {A} (xs : list A) (body : A -> async unit) : async unit :=
  match xs with
  | [] => ret tt
  | x :: xs' => body x ;;; for_of xs' body
  end.

(** [xs.map(f)] where [f] may throw. *)
Fixpoint map_sync {A B} (f : A -> completion B) (xs : list A) : completion (list B) :=
  match xs with
  | [] => Normal []
  | x :: xs' =>
      match f x with
      | Thrown e => Thrown e
      | Normal y =>
          match map_sync f xs' with
          | Thrown e => Thrown e
          | Normal ys => Normal (y :: ys)
          end
      end
  end.

(** [xs.some(p)] where [p] may throw: the scan stops at the first element
    on which [p] holds or throws. *)
Fixpoint some_sync {A} (p : A -> completion bool) (xs : list A) : completion bool :=
  match xs with
  | [] => Normal false
  | x :: xs' =>
      match p x with
      | Thrown e => Thrown e
      | Normal true => Normal true
      | Normal false => some_sync p xs'
      end
  end.

Definition uuidv4 : async uuid :=
  fun w => (Normal (uuid_supply w), with_uuid_supply (S (uuid_supply w)) w).

Definition now : async Z := gets clock.

(** ** The calendar of [Date] (UTC)

    [Referral.create] moves a date with [getDate] and [setDate], so the
    civil calendar is needed: days since the epoch to and from
    (year, month, day). *)

Definition ms_per_day : Z := 86400000.

Definition civil_from_days (z0 : Z) : Z * Z * Z :=
  let z := z0 + 719468 in
  let era := z / 146097 in
  let doe := z - era * 146097 in
  let yoe := (doe - doe / 1460 + doe / 36524 - doe / 146096) / 365 in
  let doy := doe - (365 * yoe + yoe / 4 - yoe / 100) in
  let mp := (5 * doy + 2) / 153 in
  let d := doy - (153 * mp + 2) / 5 + 1 in
  let m := if mp <? 10 then mp + 3 else mp - 9 in
  let y := yoe + era * 400 in
  ((if m <=? 2 then y + 1 else y), m, d).

Definition days_from_civil (y0 m d : Z) : Z :=
  let y := if m <=? 2 then y0 - 1 else y0 in
  let era := y / 400 in
  let yoe := y - era * 400 in
  let doy := (153 * (if 2 <? m then m - 3 else m + 9) + 2) / 5 + d - 1 in
  let doe := yoe * 365 + yoe / 4 - yoe / 100 + doy in
  era * 146097 + doe - 719468.

(** [date.getDate()]: the day of the month. *)
Definition Date_getDate (ms : Z) : Z :=
  let '(_, _, d) := civil_from_days (ms / ms_per_day) in d.

(** [date.setDate(day)]: the same month and time of day, on day [day] of
    the month, running over into the neighbouring months when [day] is not
    a day of this one. *)
Definition Date_setDate (ms day : Z) : Z :=
  let '(y, m, _) := civil_from_days (ms / ms_per_day) in
  (days_from_civil y m 1 + (day - 1)) * ms_per_day + ms mod ms_per_day.

(** ** services/externalService.js *)

(** What awaiting a call to the credit ledger gives its caller: an object
    with a [success] property, or [undefined]. *)
Inductive credit_result :=
| Undefined
| CreditObject (success : bool).

Module ExternalServices.

Definition notificationUrl : string := "/api/notifications".
Definition creditUrl : string := "/api/credits".

Definition url_of (r : http_request) : string :=
  match r with
  | PostCredit _ _ _ => creditUrl
  | PostNotification _ _ => notificationUrl
  end.

(** [makeRequest]: the request is sent; a failure of [axios] is logged and
    thrown again.  The response data is not used by any caller below. *)
Definition makeRequest (r : http_request) : async unit :=
  fun w =>
    let w' := with_requests (r :: requests w) w in
    if axios w (List.length (requests w))
    then (Normal tt, w')
    else (Thrown (RequestFailed (url_of r)), w').

(** [sendNotification]: failures are logged and swallowed. *)
Definition sendNotification (userId type : string) : async unit :=
  try_catch (makeRequest (PostNotification userId type))
            (fun _ => ret tt).

(** [creditUserAccount]: failures are logged and thrown again; on success
    the function ends without a return statement. *)
Definition creditUserAccount (userId : string) (amount : Q) (source_id : uuid)
  : async credit_result :=
  try_catch (makeRequest (PostCredit userId amount source_id) ;;; ret Undefined)
            (fun error => throw error).

End ExternalServices.

(** ** models/ReferralCode.js *)

Module ReferralCode.

Definition findById (id : uuid) : async (option referral_code_row) :=
  gets (fun w => find (fun c => Nat.eqb (rc_id c) id) (referral_codes w)).

(** [is_active = TRUE AND usage_count < max_usage AND (expiry_date IS NULL
    OR expiry_date > CURRENT_TIMESTAMP)]: the code is returned only while
    it is active, not used up and not past its expiry date. *)
Definition usable (t : Z) (c : referral_code_row) : bool :=
  rc_is_active c
  && (rc_usage_count c <? rc_max_usage c)
  && match rc_expiry_date c with None => true | Some e => t <? e end.

(** [WHERE code = ?] and the conditions of [usable]; the first row, or
    [null].  The comparison is the one of the column's collation, which
    on codes in canonical form is equality of the texts; on other texts
    it also matches a code that differs in case only, so that the
    properties of this read are stated for codes the store holds and for
    rows it returns, not for texts it holds no row of. *)
Definition validateCode (code : string) : async (option referral_code_row) :=
  gets (fun w =>
    find (fun c => String.eqb (rc_code c) code && usable (clock w) c)
         (referral_codes w)).

Definition bump_usage (c : referral_code_row) : referral_code_row :=
  {| rc_id := rc_id c; rc_owner_id := rc_owner_id c; rc_owner_type := rc_owner_type c;
     rc_code := rc_code c; rc_usage_count := rc_usage_count c + 1;
     rc_max_usage := rc_max_usage c; rc_is_active := rc_is_active c;
     rc_bonus_amount := rc_bonus_amount c; rc_bonus_type := rc_bonus_type c;
     rc_minimum_order_amount := rc_minimum_order_amount c;
     rc_expiry_date := rc_expiry_date c; rc_campaign_id := rc_campaign_id c |}.

Definition incrementUsage (codeId : uuid) : async (option referral_code_row) :=
  modify (fun w =>
    with_referral_codes
      (map (fun c => if Nat.eqb (rc_id c) codeId then bump_usage c else c)
           (referral_codes w)) w) ;;;
  findById codeId.

Definition getDefaultBonus (e : process_env) (ownerType : string) : Q :=
  if String.eqb ownerType "customer" then optnum_or (CUSTOMER_REFERRAL_BONUS e) 10
  else if String.eqb ownerType "driver" then optnum_or (DRIVER_REFERRAL_BONUS e) 25
  else if String.eqb ownerType "restaurant" then optnum_or (RESTAURANT_REFERRAL_BONUS e) 50
  else 10%Q.

Definition findByCode (code : string) : async (option referral_code_row) :=
  gets (fun w => find (fun c => String.eqb (rc_code c) code) (referral_codes w)).

Definition findByOwner (ownerId ownerType : string) : async (list referral_code_row) :=
  gets (fun w =>
    filter (fun c => String.eqb (rc_owner_id c) ownerId
                     && String.eqb (rc_owner_type c) ownerType)
           (referral_codes w)).

Definition switch_off (c : referral_code_row) : referral_code_row :=
  {| rc_id := rc_id c; rc_owner_id := rc_owner_id c; rc_owner_type := rc_owner_type c;
     rc_code := rc_code c; rc_usage_count := rc_usage_count c;
     rc_max_usage := rc_max_usage c; rc_is_active := false;
     rc_bonus_amount := rc_bonus_amount c; rc_bonus_type := rc_bonus_type c;
     rc_minimum_order_amount := rc_minimum_order_amount c;
     rc_expiry_date := rc_expiry_date c; rc_campaign_id := rc_campaign_id c |}.

(** [UPDATE referral_codes SET is_active = FALSE WHERE id = ?]; the answer
    is whether a row had that id. *)
Definition deactivateCode (codeId : uuid) : async bool :=
  affectedRows <- gets (fun w =>
    List.length (filter (fun c => Nat.eqb (rc_id c) codeId) (referral_codes w))) ;;
  modify (fun w =>
    with_referral_codes
      (map (fun c => if Nat.eqb (rc_id c) codeId then switch_off c else c)
           (referral_codes w)) w) ;;;
  ret (Nat.ltb 0 affectedRows).

(** [generateCode]: the prefix of the role, then the six characters drawn
    from [Math.random()], here the argument [suffix]. *)
Definition generateCode (ownerType suffix : string) : string :=
  (if String.eqb ownerType "customer" then "CUS"
   else if String.eqb ownerType "driver" then "DRV"
   else if String.eqb ownerType "restaurant" then "REST"
   else "REF") ++ suffix.

(** The argument of [ReferralCode.create]. *)
Record code_data := {
  cd_owner_id : string;
  cd_owner_type : string;
  cd_code : option string;
  cd_max_usage : option Z;
  cd_bonus_amount : option Q;
  cd_bonus_type : option string;
  cd_minimum_order_amount : option Q;
  cd_expiry_date : option Z;
  cd_campaign_id : option uuid
}.

(** The row [create] inserts; [usage_count] and [is_active] are left to
    the defaults of their columns, 0 and TRUE. *)
Definition new_row (id : uuid) (e : process_env) (suffix : string) (codeData : code_data)
  : referral_code_row :=
  {| rc_id := id;
     rc_owner_id := cd_owner_id codeData;
     rc_owner_type := cd_owner_type codeData;
     rc_code :=
       match optstr_or_null (cd_code codeData) with
       | Some code => code
       | None => generateCode (cd_owner_type codeData) suffix
       end;
     rc_usage_count := 0;
     rc_max_usage :=
       match cd_max_usage codeData with
       | Some m => if m =? 0 then 50 else m
       | None => 50
       end;
     rc_is_active := true;
     rc_bonus_amount :=
       optnum_or (cd_bonus_amount codeData) (getDefaultBonus e (cd_owner_type codeData));
     rc_bonus_type := optstr_or (cd_bonus_type codeData) "credit";
     rc_minimum_order_amount := optnum_or (cd_minimum_order_amount codeData) 0;
     rc_expiry_date := cd_expiry_date codeData;
     rc_campaign_id := cd_campaign_id codeData |}.

(** [INSERT INTO referral_codes]: refused when the code, a UNIQUE column,
    is taken.  The key compares as [validateCode] does: a stored row of
    the same text always refuses the insert, and the store may also
    refuse a text that differs from a stored one in case only; the
    properties of [create] say what a creation that returned has done,
    and which creations are refused for certain. *)
Definition insert (c : referral_code_row) : async unit :=
  fun w =>
    if existsb (fun c' => String.eqb (rc_code c') (rc_code c)) (referral_codes w)
    then (Thrown (ER_DUP_ENTRY "code"), w)
    else (Normal tt, with_referral_codes (c :: referral_codes w) w).

(** [create], with the draw of [Math.random()] that [generateCode] would
    make as the argument [suffix]. *)
Definition create (suffix : string) (codeData : code_data)
  : async (option referral_code_row) :=
  id <- uuidv4 ;;
  e <- gets env ;;
  insert (new_row id e suffix codeData) ;;;
  findById id.

End ReferralCode.

(** ** models/Referral.js *)

(** The argument of [Referral.create]. *)
Record referral_data := {
  rd_referrer_id : string;
  rd_referee_id : string;
  rd_referrer_type : string;
  rd_referee_type : string;
  rd_referral_code : string;
  rd_completion_condition : completion_condition;
  rd_referrer_bonus : Q;
  rd_referee_bonus : Q;
  rd_referrer_bonus_type : option string;
  rd_referee_bonus_type : option string;
  rd_minimum_order_amount : Q;
  rd_campaign_id : option uuid;
  rd_metadata : option json_object
}.

(** The argument of [Referral.completeReferral]; the trigger payload is
    passed as such, so it also carries what the trigger matcher reads. *)
Record trigger_data := {
  td_order_id : option string;
  td_delivery_id : option string;
  td_customer_id : option string;
  td_driver_id : option string;
  td_user_id : option string;
  td_amount : option Q
}.

Record referral_stats := {
  total_referrals : Z;
  completed_referrals : Z;
  pending_referrals : Z;
  expired_referrals : Z
}.

Module Referral.

Definition set_metadata (m : metadata_value) (r : referral_row) : referral_row :=
  {| rf_id := rf_id r; rf_referrer_id := rf_referrer_id r; rf_referee_id := rf_referee_id r;
     rf_referrer_type := rf_referrer_type r; rf_referee_type := rf_referee_type r;
     rf_referral_code := rf_referral_code r; rf_status := rf_status r;
     rf_completion_condition := rf_completion_condition r;
     rf_completion_date := rf_completion_date r;
     rf_referrer_bonus := rf_referrer_bonus r; rf_referee_bonus := rf_referee_bonus r;
     rf_referrer_bonus_type := rf_referrer_bonus_type r;
     rf_referee_bonus_type := rf_referee_bonus_type r;
     rf_minimum_order_amount := rf_minimum_order_amount r;
     rf_expiry_date := rf_expiry_date r; rf_campaign_id := rf_campaign_id r;
     rf_completion_order_id := rf_completion_order_id r;
     rf_completion_delivery_id := rf_completion_delivery_id r;
     rf_metadata := m |}.

Definition set_status (s : referral_status) (r : referral_row) : referral_row :=
  {| rf_id := rf_id r; rf_referrer_id := rf_referrer_id r; rf_referee_id := rf_referee_id r;
     rf_referrer_type := rf_referrer_type r; rf_referee_type := rf_referee_type r;
     rf_referral_code := rf_referral_code r; rf_status := s;
     rf_completion_condition := rf_completion_condition r;
     rf_completion_date := rf_completion_date r;
     rf_referrer_bonus := rf_referrer_bonus r; rf_referee_bonus := rf_referee_bonus r;
     rf_referrer_bonus_type := rf_referrer_bonus_type r;
     rf_referee_bonus_type := rf_referee_bonus_type r;
     rf_minimum_order_amount := rf_minimum_order_amount r;
     rf_expiry_date := rf_expiry_date r; rf_campaign_id := rf_campaign_id r;
     rf_completion_order_id := rf_completion_order_id r;
     rf_completion_delivery_id := rf_completion_delivery_id r;
     rf_metadata := rf_metadata r |}.

Definition set_completed (t : Z) (order_id delivery_id : option string)
  (r : referral_row) : referral_row :=
  {| rf_id := rf_id r; rf_referrer_id := rf_referrer_id r; rf_referee_id := rf_referee_id r;
     rf_referrer_type := rf_referrer_type r; rf_referee_type := rf_referee_type r;
     rf_referral_code := rf_referral_code r; rf_status := RefCompleted;
     rf_completion_condition := rf_completion_condition r;
     rf_completion_date := Some t;
     rf_referrer_bonus := rf_referrer_bonus r; rf_referee_bonus := rf_referee_bonus r;
     rf_referrer_bonus_type := rf_referrer_bonus_type r;
     rf_referee_bonus_type := rf_referee_bonus_type r;
     rf_minimum_order_amount := rf_minimum_order_amount r;
     rf_expiry_date := rf_expiry_date r; rf_campaign_id := rf_campaign_id r;
     rf_completion_order_id := order_id;
     rf_completion_delivery_id := delivery_id;
     rf_metadata := rf_metadata r |}.

(** [if (referral.metadata) referral.metadata = JSON.parse(referral.metadata)] *)
Definition parse_row (r : referral_row) : completion referral_row :=
  if meta_truthy (rf_metadata r)
  then match JSON_parse (rf_metadata r) with
       | Normal m => Normal (set_metadata m r)
       | Thrown e => Thrown e
       end
  else Normal r.

Definition findById (id : uuid) : async (option referral_row) :=
  results <- gets (fun w => filter (fun r => Nat.eqb (rf_id r) id) (referrals w)) ;;
  match results with
  | [] => ret None
  | referral :: _ => r <- sync (parse_row referral) ;; ret (Some r)
  end.

(** The columns of [UNIQUE KEY unique_referral]. *)
Definition unique_referral (r : referral_row) : string * string * string * string :=
  (rf_referrer_id r, rf_referee_id r, rf_referrer_type r, rf_referee_type r).

Definition same_unique_referral (a b : referral_row) : bool :=
  String.eqb (rf_referrer_id a) (rf_referrer_id b)
  && String.eqb (rf_referee_id a) (rf_referee_id b)
  && String.eqb (rf_referrer_type a) (rf_referrer_type b)
  && String.eqb (rf_referee_type a) (rf_referee_type b).

(** [INSERT INTO referrals]: refused when the unique key is taken. *)
Definition insert (r : referral_row) : async unit :=
  fun w =>
    if existsb (same_unique_referral r) (referrals w)
    then (Thrown (ER_DUP_ENTRY "unique_referral"), w)
    else (Normal tt, with_referrals (r :: referrals w) w).

(** [expiryDate.getDate() + parseInt(process.env.REFERRAL_EXPIRY_DAYS) || 30]:
    the sum is taken first, and 30 replaces it when it is [NaN] or zero. *)
Definition expiry_day (e : process_env) (t : Z) : Z :=
  match REFERRAL_EXPIRY_DAYS e with
  | Some n => let d := Date_getDate t + n in if d =? 0 then 30 else d
  | None => 30
  end.

(** The row [create] inserts.  [status] is not among the inserted columns:
    the table gives it [DEFAULT 'pending']. *)
Definition new_row (id : uuid) (t : Z) (e : process_env) (referralData : referral_data)
  : referral_row :=
  {| rf_id := id;
     rf_referrer_id := rd_referrer_id referralData;
     rf_referee_id := rd_referee_id referralData;
     rf_referrer_type := rd_referrer_type referralData;
     rf_referee_type := rd_referee_type referralData;
     rf_referral_code := rd_referral_code referralData;
     rf_status := RefPending;
     rf_completion_condition := rd_completion_condition referralData;
     rf_completion_date := None;
     rf_referrer_bonus := num_or (rd_referrer_bonus referralData) 0;
     rf_referee_bonus := num_or (rd_referee_bonus referralData) 0;
     rf_referrer_bonus_type := optstr_or (rd_referrer_bonus_type referralData) "credit";
     rf_referee_bonus_type := optstr_or (rd_referee_bonus_type referralData) "credit";
     rf_minimum_order_amount := Some (num_or (rd_minimum_order_amount referralData) 0);
     rf_expiry_date := Date_setDate t (expiry_day e t);
     rf_campaign_id := rd_campaign_id referralData;
     rf_completion_order_id := None;
     rf_completion_delivery_id := None;
     rf_metadata :=
       JSON_stringify (match rd_metadata referralData with Some o => o | None => [] end)
  |}.

Definition create (referralData : referral_data) : async (option referral_row) :=
  id <- uuidv4 ;;
  t <- now ;;
  e <- gets env ;;
  insert (new_row id t e referralData) ;;;
  findById id.

Definition findByReferee (refereeId : string) : async (list referral_row) :=
  results <- gets (fun w =>
    filter (fun r => String.eqb (rf_referee_id r) refereeId) (referrals w)) ;;
  sync (map_sync parse_row results).

(** [UPDATE ... WHERE id = ? AND status = 'pending'] *)
Definition completeReferral (id : uuid) (completionData : trigger_data)
  : async (option referral_row) :=
  t <- now ;;
  affectedRows <- gets (fun w =>
    List.length (filter (fun r => Nat.eqb (rf_id r) id
                                  && referral_status_eqb (rf_status r) RefPending)
                        (referrals w))) ;;
  modify (fun w =>
    with_referrals
      (map (fun r =>
              if Nat.eqb (rf_id r) id && referral_status_eqb (rf_status r) RefPending
              then set_completed t (optstr_or_null (td_order_id completionData))
                                   (optstr_or_null (td_delivery_id completionData)) r
              else r)
           (referrals w)) w) ;;;
  if Nat.ltb 0 affectedRows then findById id else ret None.

(** [UPDATE referrals SET status = ? WHERE id = ?] *)
Definition updateStatus (id : uuid) (status : referral_status)
  : async (option referral_row) :=
  modify (fun w =>
    with_referrals
      (map (fun r => if Nat.eqb (rf_id r) id then set_status status r else r)
           (referrals w)) w) ;;;
  findById id.

(** The rows come back as the store holds them. *)
Definition getExpiredReferrals : async (list referral_row) :=
  gets (fun w =>
    filter (fun r => referral_status_eqb (rf_status r) RefPending
                     && (rf_expiry_date r <? clock w))
           (referrals w)).

Definition count_status (s : referral_status) (l : list referral_row) : Z :=
  Z.of_nat (List.length (filter (fun r => referral_status_eqb (rf_status r) s) l)).

(** The counts of [getReferralStats(referrerId)]; the callers below pass
    no date bounds.  A falsy [referrerId] selects every referral. *)
Definition getReferralStats (referrerId : string) : async referral_stats :=
  gets (fun w =>
    let rows :=
      if str_truthy referrerId
      then filter (fun r => String.eqb (rf_referrer_id r) referrerId) (referrals w)
      else referrals w in
    {| total_referrals := Z.of_nat (List.length rows);
       completed_referrals := count_status RefCompleted rows;
       pending_referrals := count_status RefPending rows;
       expired_referrals := count_status RefExpired rows |}).

End Referral.

(** ** models/Reward.js *)

(** The argument of [Reward.create]. *)
Record reward_data := {
  wd_user_id : string;
  wd_user_type : string;
  wd_reward_type : reward_type;
  wd_amount : Q;
  wd_currency : option string;
  wd_expiry_date : option Z;
  wd_source_id : option uuid;
  wd_source_type : source_type;
  wd_description : option string;
  wd_metadata : option json_object
}.

Module Reward.

Definition set_metadata (m : metadata_value) (r : reward_row) : reward_row :=
  {| rw_id := rw_id r; rw_user_id := rw_user_id r; rw_user_type := rw_user_type r;
     rw_reward_type := rw_reward_type r; rw_amount := rw_amount r;
     rw_currency := rw_currency r; rw_status := rw_status r;
     rw_credited_date := rw_credited_date r; rw_expiry_date := rw_expiry_date r;
     rw_source_id := rw_source_id r; rw_source_type := rw_source_type r;
     rw_description := rw_description r; rw_metadata := m |}.

Definition set_status (s : reward_status) (r : reward_row) : reward_row :=
  {| rw_id := rw_id r; rw_user_id := rw_user_id r; rw_user_type := rw_user_type r;
     rw_reward_type := rw_reward_type r; rw_amount := rw_amount r;
     rw_currency := rw_currency r; rw_status := s;
     rw_credited_date := rw_credited_date r; rw_expiry_date := rw_expiry_date r;
     rw_source_id := rw_source_id r; rw_source_type := rw_source_type r;
     rw_description := rw_description r; rw_metadata := rw_metadata r |}.

Definition set_credited (t : Z) (r : reward_row) : reward_row :=
  {| rw_id := rw_id r; rw_user_id := rw_user_id r; rw_user_type := rw_user_type r;
     rw_reward_type := rw_reward_type r; rw_amount := rw_amount r;
     rw_currency := rw_currency r; rw_status := credited;
     rw_credited_date := Some t; rw_expiry_date := rw_expiry_date r;
     rw_source_id := rw_source_id r; rw_source_type := rw_source_type r;
     rw_description := rw_description r; rw_metadata := rw_metadata r |}.

(** [if (reward.metadata) reward.metadata = JSON.parse(reward.metadata)] *)
Definition parse_row (r : reward_row) : completion reward_row :=
  if meta_truthy (rw_metadata r)
  then match JSON_parse (rw_metadata r) with
       | Normal m => Normal (set_metadata m r)
       | Thrown e => Thrown e
       end
  else Normal r.

Definition findById (id : uuid) : async (option reward_row) :=
  results <- gets (fun w => filter (fun r => Nat.eqb (rw_id r) id) (rewards w)) ;;
  match results with
  | [] => ret None
  | reward :: _ => r <- sync (parse_row reward) ;; ret (Some r)
  end.

Definition thirty_days : Z := 30 * 24 * 60 * 60 * 1000.

(** The row [create] inserts.  [status] and [credited_date] are not among
    the inserted columns: the table gives them [DEFAULT 'pending'] and
    NULL. *)
Definition new_row (id : uuid) (t : Z) (rewardData : reward_data) : reward_row :=
  {| rw_id := id;
     rw_user_id := wd_user_id rewardData;
     rw_user_type := wd_user_type rewardData;
     rw_reward_type := wd_reward_type rewardData;
     rw_amount := wd_amount rewardData;
     rw_currency := optstr_or (wd_currency rewardData) "USD";
     rw_status := pending;
     rw_credited_date := None;
     rw_expiry_date :=
       Some (match wd_expiry_date rewardData with
             | Some d => d
             | None => t + thirty_days
             end);
     rw_source_id := wd_source_id rewardData;
     rw_source_type := wd_source_type rewardData;
     rw_description := optstr_or_null (wd_description rewardData);
     rw_metadata :=
       JSON_stringify (match wd_metadata rewardData with Some o => o | None => [] end) |}.

Definition create (rewardData : reward_data) : async (option reward_row) :=
  id <- uuidv4 ;;
  t <- now ;;
  modify (fun w => with_rewards (new_row id t rewardData :: rewards w) w) ;;;
  findById id.

(** [SELECT ... WHERE user_id = ? (AND status = ?) ORDER BY created_at DESC
    LIMIT ? OFFSET ?], then the metadata of each row is parsed. *)
Definition findByUser (userId : string) (status : option reward_status)
  (limit offset : nat) : async (list reward_row) :=
  results <- gets (fun w =>
    firstn limit (skipn offset
      (filter (fun r =>
                 String.eqb (rw_user_id r) userId
                 && match status with
                    | Some s => reward_status_eqb (rw_status r) s
                    | None => true
                    end)
              (rewards w)))) ;;
  sync (map_sync parse_row results).

(** [UPDATE ... SET status = 'credited' WHERE id = ? AND status = 'pending'] *)
Definition creditReward (id : uuid) : async (option reward_row) :=
  t <- now ;;
  affectedRows <- gets (fun w =>
    List.length (filter (fun r => Nat.eqb (rw_id r) id
                                  && reward_status_eqb (rw_status r) pending)
                        (rewards w))) ;;
  modify (fun w =>
    with_rewards
      (map (fun r =>
              if Nat.eqb (rw_id r) id && reward_status_eqb (rw_status r) pending
              then set_credited t r else r)
           (rewards w)) w) ;;;
  if Nat.ltb 0 affectedRows then findById id else ret None.

(** [UPDATE rewards SET status = ? WHERE id = ?] *)
Definition updateStatus (id : uuid) (status : reward_status)
  : async (option reward_row) :=
  modify (fun w =>
    with_rewards
      (map (fun r => if Nat.eqb (rw_id r) id then set_status status r else r)
           (rewards w)) w) ;;;
  findById id.

Definition getExpiredRewards : async (list reward_row) :=
  gets (fun w =>
    filter (fun r => reward_status_eqb (rw_status r) pending
                     && match rw_expiry_date r with
                        | Some e => e <? clock w
                        | None => false
                        end)
           (rewards w)).

End Reward.

(** ** models/Campaign.js *)

Module Campaign.

Definition findById (id : uuid) : async (option campaign_row) :=
  gets (fun w => find (fun c => Nat.eqb (cp_id c) id) (campaigns w)).

Definition bump_participants (c : campaign_row) : campaign_row :=
  {| cp_id := cp_id c; cp_name := cp_name c; cp_campaign_type := cp_campaign_type c;
     cp_target_audience := cp_target_audience c; cp_bonus_amount := cp_bonus_amount c;
     cp_bonus_type := cp_bonus_type c; cp_minimum_requirement := cp_minimum_requirement c;
     cp_max_participants := cp_max_participants c;
     cp_current_participants := cp_current_participants c + 1;
     cp_start_date := cp_start_date c; cp_end_date := cp_end_date c;
     cp_is_active := cp_is_active c; cp_metadata := cp_metadata c |}.

Definition incrementParticipants (id : uuid) : async (option campaign_row) :=
  modify (fun w =>
    with_campaigns
      (map (fun c => if Nat.eqb (cp_id c) id then bump_participants c else c)
           (campaigns w)) w) ;;;
  findById id.

(** [Campaign.findActive(audience)], which [createReferral] calls.  The
    class [Campaign] defines no such method (its reads are [findById],
    [findAll], [findActiveCampaigns], [findByType] and [findByAudience]),
    so the property is [undefined] and the call throws. *)
Definition findActive (audience : string) : async (list campaign_row) :=
  throw (TypeError "Campaign.findActive is not a function").

(** The argument of [Campaign.create].  The text columns [description],
    [terms_conditions] and [created_by], which no operation reads, are
    not part of the rows of this embedding. *)
Record campaign_data := {
  pd_name : string;
  pd_campaign_type : string;
  pd_target_audience : option string;
  pd_bonus_amount : Q;
  pd_bonus_type : option string;
  pd_minimum_requirement : option Q;
  pd_max_participants : option Z;
  pd_start_date : Z;
  pd_end_date : Z;
  pd_metadata : option json_object
}.

(** The row [create] inserts; [current_participants] and [is_active] are
    left to the defaults of their columns, 0 and TRUE. *)
Definition new_row (id : uuid) (campaignData : campaign_data) : campaign_row :=
  {| cp_id := id;
     cp_name := pd_name campaignData;
     cp_campaign_type := pd_campaign_type campaignData;
     cp_target_audience := optstr_or (pd_target_audience campaignData) "all";
     cp_bonus_amount := pd_bonus_amount campaignData;
     cp_bonus_type := optstr_or (pd_bonus_type campaignData) "credit";
     cp_minimum_requirement := optnum_or (pd_minimum_requirement campaignData) 0;
     cp_max_participants :=
       match pd_max_participants campaignData with
       | Some m => if m =? 0 then None else Some m
       | None => None
       end;
     cp_current_participants := 0;
     cp_start_date := pd_start_date campaignData;
     cp_end_date := pd_end_date campaignData;
     cp_is_active := true;
     cp_metadata :=
       JSON_stringify (match pd_metadata campaignData with Some o => o | None => [] end)
  |}.

Definition create (campaignData : campaign_data) : async (option campaign_row) :=
  id <- uuidv4 ;;
  modify (fun w => with_campaigns (new_row id campaignData :: campaigns w) w) ;;;
  findById id.

Definition set_participants (n : Z) (c : campaign_row) : campaign_row :=
  {| cp_id := cp_id c; cp_name := cp_name c; cp_campaign_type := cp_campaign_type c;
     cp_target_audience := cp_target_audience c; cp_bonus_amount := cp_bonus_amount c;
     cp_bonus_type := cp_bonus_type c; cp_minimum_requirement := cp_minimum_requirement c;
     cp_max_participants := cp_max_participants c;
     cp_current_participants := n;
     cp_start_date := cp_start_date c; cp_end_date := cp_end_date c;
     cp_is_active := cp_is_active c; cp_metadata := cp_metadata c |}.

Definition set_active (b : bool) (c : campaign_row) : campaign_row :=
  {| cp_id := cp_id c; cp_name := cp_name c; cp_campaign_type := cp_campaign_type c;
     cp_target_audience := cp_target_audience c; cp_bonus_amount := cp_bonus_amount c;
     cp_bonus_type := cp_bonus_type c; cp_minimum_requirement := cp_minimum_requirement c;
     cp_max_participants := cp_max_participants c;
     cp_current_participants := cp_current_participants c;
     cp_start_date := cp_start_date c; cp_end_date := cp_end_date c;
     cp_is_active := b; cp_metadata := cp_metadata c |}.

(** [UPDATE campaigns SET ... WHERE id = ?] with the change [f], then the
    row is read back. *)
Definition update_where_id (id : uuid) (f : campaign_row -> campaign_row)
  : async (option campaign_row) :=
  modify (fun w =>
    with_campaigns
      (map (fun c => if Nat.eqb (cp_id c) id then f c else c) (campaigns w)) w) ;;;
  findById id.

(** [current_participants = GREATEST(current_participants - 1, 0)] *)
Definition decrementParticipants (id : uuid) : async (option campaign_row) :=
  update_where_id id (fun c =>
    set_participants (Z.max (cp_current_participants c - 1) 0) c).

Definition activateCampaign (id : uuid) : async (option campaign_row) :=
  update_where_id id (set_active true).

Definition deactivateCampaign (id : uuid) : async (option campaign_row) :=
  update_where_id id (set_active false).

(** [DELETE FROM campaigns WHERE id = ?]; the object it returns, which
    is the same whatever was deleted, is left out. *)
Definition delete (id : uuid) : async unit :=
  modify (fun w =>
    with_campaigns (filter (fun c => negb (Nat.eqb (cp_id c) id)) (campaigns w)) w).

(** The row [update] leaves: the columns of the request replace those of
    the row; its id, its count of participants and whether it is active
    stay. *)
Definition updated_row (campaignData : campaign_data) (c : campaign_row) : campaign_row :=
  {| cp_id := cp_id c;
     cp_name := pd_name campaignData;
     cp_campaign_type := pd_campaign_type campaignData;
     cp_target_audience := optstr_or (pd_target_audience campaignData) "all";
     cp_bonus_amount := pd_bonus_amount campaignData;
     cp_bonus_type := optstr_or (pd_bonus_type campaignData) "credit";
     cp_minimum_requirement := optnum_or (pd_minimum_requirement campaignData) 0;
     cp_max_participants :=
       match pd_max_participants campaignData with
       | Some m => if m =? 0 then None else Some m
       | None => None
       end;
     cp_current_participants := cp_current_participants c;
     cp_start_date := pd_start_date campaignData;
     cp_end_date := pd_end_date campaignData;
     cp_is_active := cp_is_active c;
     cp_metadata :=
       JSON_stringify (match pd_metadata campaignData with Some o => o | None => [] end)
  |}.

(** [UPDATE campaigns SET ... WHERE id = ?], then [findById(id)]. *)
Definition update (id : uuid) (campaignData : campaign_data) : async (option campaign_row) :=
  update_where_id id (updated_row campaignData).

End Campaign.

(** ** validators/referralValidator.js

    The Joi schemas, with the rules of Joi written out.  A request body is
    a record of optional properties, each already of the type its schema
    asks for; a property of another type is refused by Joi before any rule
    below applies.  A date is the instant it denotes, in milliseconds. *)

Module Validator.

(** The first error Joi reports: the key and the code of the rule. *)
Inductive joi_result (A : Type) :=
| JoiError (key rule : string)
| JoiValue (value : A).
Arguments JoiError {A} key rule.
Arguments JoiValue {A} value.

Definition jbind {A B} (c : joi_result A) (k : A -> joi_result B) : joi_result B :=
  match c with
  | JoiError key rule => JoiError key rule
  | JoiValue a => k a
  end.

Notation "x <-- c ;; k" := (jbind c (fun x => k))
  (at level 61, c at next level, right associativity).

Definition rule (key name : string) (holds : bool) : joi_result unit :=
  if holds then JoiValue tt else JoiError key name.

Definition required {A} (key : string) (x : option A) : joi_result A :=
  match x with
  | Some a => JoiValue a
  | None => JoiError key "any.required"
  end.

(** An optional key: absent, or checked by [k]. *)
Definition optional {A B} (x : option A) (k : A -> joi_result B) : joi_result (option B) :=
  match x with
  | None => JoiValue None
  | Some a => b <-- k a ;; JoiValue (Some b)
  end.

(** [Joi.string().max(n)]: the empty string is not a string for Joi. *)
Definition string_max (key : string) (n : nat) (s : string) : joi_result string :=
  _ <-- rule key "string.empty" (str_truthy s) ;;
  _ <-- rule key "string.max" (Nat.leb (String.length s) n) ;;
  JoiValue s.

Definition is_hex (c : ascii) : bool :=
  let n := nat_of_ascii c in
  (Nat.leb 48 n && Nat.leb n 57) || (Nat.leb 65 n && Nat.leb n 70)
  || (Nat.leb 97 n && Nat.leb n 102).

Fixpoint take_hex (n : nat) (s : string) : option string :=
  match n with
  | O => Some s
  | S n' =>
      match s with
      | String c s' => if is_hex c then take_hex n' s' else None
      | EmptyString => None
      end
  end.

Definition take_opt (p : ascii -> bool) (s : string) : option ascii * string :=
  match s with
  | String c s' => if p c then (Some c, s') else (None, s)
  | EmptyString => (None, s)
  end.

Definition one_of (cs : string) (c : ascii) : bool :=
  existsb (Ascii.eqb c) (list_ascii_of_string cs).

Definition brackets_match (o c : option ascii) : bool :=
  match o, c with
  | None, None => true
  | Some a, Some b =>
      (Ascii.eqb a "{" && Ascii.eqb b "}") || (Ascii.eqb a "[" && Ascii.eqb b "]")
      || (Ascii.eqb a "(" && Ascii.eqb b ")")
  | _, _ => false
  end.

(** The test of [Joi.string().uuid()]: 8-4-4-4-12 hexadecimal digits, the
    groups joined by nothing, [-] or [:], the same separator being
    optional after the first time, within optional matching brackets. *)
Definition is_guid (s : string) : bool :=
  let '(o, s1) := take_opt (one_of "[{(") s in
  match take_hex 8 s1 with
  | None => false
  | Some s2 =>
      let '(sep, s3) := take_opt (one_of ":-") s2 in
      let again (x : string) :=
        match sep with
        | None => x
        | Some c => snd (take_opt (Ascii.eqb c) x)
        end in
      match take_hex 4 s3 with
      | None => false
      | Some s4 =>
          match take_hex 4 (again s4) with
          | None => false
          | Some s5 =>
              match take_hex 4 (again s5) with
              | None => false
              | Some s6 =>
                  match take_hex 12 (again s6) with
                  | None => false
                  | Some s7 =>
                      let '(c, s8) := take_opt (one_of "]})") s7 in
                      String.eqb s8 "" && brackets_match o c
                  end
              end
          end
      end
  end.

Definition string_uuid (key : string) (s : string) : joi_result string :=
  _ <-- rule key "string.empty" (str_truthy s) ;;
  _ <-- rule key "string.guid" (is_guid s) ;;
  JoiValue s.

Definition string_valid (key : string) (allowed : list string) (s : string)
  : joi_result string :=
  _ <-- rule key "any.only" (existsb (String.eqb s) allowed) ;;
  JoiValue s.

Record referral_body := {
  rb_referral_code : option string;
  rb_referee_id : option string;
  rb_referee_type : option string
}.

Record referral_value := {
  rv_referral_code : string;
  rv_referee_id : string;
  rv_referee_type : string
}.

Definition validateReferral (data : referral_body) : joi_result referral_value :=
  code <-- (s <-- required "referral_code" (rb_referral_code data) ;;
            string_max "referral_code" 20 s) ;;
  referee <-- (s <-- required "referee_id" (rb_referee_id data) ;;
               string_uuid "referee_id" s) ;;
  type <-- (s <-- required "referee_type" (rb_referee_type data) ;;
            string_valid "referee_type" ["customer"; "driver"; "restaurant"] s) ;;
  JoiValue {| rv_referral_code := code; rv_referee_id := referee;
              rv_referee_type := type |}.

(** [Joi.number()]: a number outside the safe integers is refused. *)
Definition max_safe_integer : Q := 9007199254740991.

Definition number_safe (key : string) (q : Q) : joi_result Q :=
  _ <-- rule key "number.unsafe"
        (Qle_bool q max_safe_integer && Qle_bool (- max_safe_integer) q) ;;
  JoiValue q.

(** [precision(2)] while converting: [Math.round(value * 100) / 100], on
    the rational a number stands for.  On doubles the product can fall
    on the other side of a half (1.005 is rounded down there), so the
    result may differ in its last place: the properties below rest on
    the order between the result and 0 only. *)
Definition round2 (q : Q) : Q := (inject_Z (Qfloor (q * 100 + (1 # 2))) / 100)%Q.

Definition number_precision2 (key : string) (q : Q) : joi_result Q :=
  _ <-- number_safe key q ;;
  JoiValue (round2 q).

Definition is_integer (q : Q) : bool := Qeq_bool (inject_Z (Qfloor q)) q.

Definition Qlt_bool (a b : Q) : bool := negb (Qle_bool b a).

Record code_body := {
  cb_code : option string;
  cb_max_usage : option Q;
  cb_bonus_amount : option Q;
  cb_bonus_type : option string;
  cb_minimum_order_amount : option Q;
  cb_expiry_date : option Z;
  cb_campaign_id : option string;
  cb_allow_multiple : option bool
}.

Record code_value := {
  cv_code : option string;
  cv_max_usage : Q;
  cv_bonus_amount : option Q;
  cv_bonus_type : string;
  cv_minimum_order_amount : Q;
  cv_expiry_date : option Z;
  cv_campaign_id : option string;
  cv_allow_multiple : bool
}.

Definition default {A} (d : A) (x : option A) : A :=
  match x with Some a => a | None => d end.

(** [t] is the time of the call, against which [greater("now")] compares. *)
Definition validateReferralCode (t : Z) (data : code_body) : joi_result code_value :=
  code <-- optional (cb_code data) (string_max "code" 20) ;;
  max_usage <-- optional (cb_max_usage data) (fun q =>
      q <-- number_safe "max_usage" q ;;
      _ <-- rule "max_usage" "number.integer" (is_integer q) ;;
      _ <-- rule "max_usage" "number.min" (Qle_bool 1 q) ;;
      _ <-- rule "max_usage" "number.max" (Qle_bool q 1000) ;;
      JoiValue q) ;;
  bonus_amount <-- optional (cb_bonus_amount data) (fun q =>
      q <-- number_precision2 "bonus_amount" q ;;
      _ <-- rule "bonus_amount" "number.positive" (Qlt_bool 0 q) ;;
      JoiValue q) ;;
  bonus_type <-- optional (cb_bonus_type data)
      (string_valid "bonus_type" ["cash"; "credit"; "percentage"]) ;;
  minimum_order_amount <-- optional (cb_minimum_order_amount data) (fun q =>
      q <-- number_precision2 "minimum_order_amount" q ;;
      _ <-- rule "minimum_order_amount" "number.min" (Qle_bool 0 q) ;;
      JoiValue q) ;;
  expiry_date <-- optional (cb_expiry_date data) (fun d =>
      _ <-- rule "expiry_date" "date.greater" (t <? d) ;;
      JoiValue d) ;;
  campaign_id <-- optional (cb_campaign_id data) (string_uuid "campaign_id") ;;
  JoiValue {| cv_code := code;
              cv_max_usage := default 50%Q max_usage;
              cv_bonus_amount := bonus_amount;
              cv_bonus_type := default "credit" bonus_type;
              cv_minimum_order_amount := default 0%Q minimum_order_amount;
              cv_expiry_date := expiry_date;
              cv_campaign_id := campaign_id;
              cv_allow_multiple := default false (cb_allow_multiple data) |}.

(** [Joi.number().integer().positive()] *)
Definition number_positive_integer (key : string) (q : Q) : joi_result Q :=
  q <-- number_safe key q ;;
  _ <-- rule key "number.integer" (is_integer q) ;;
  _ <-- rule key "number.positive" (Qlt_bool 0 q) ;;
  JoiValue q.

Record campaign_body := {
  mb_name : option string;
  mb_description : option string;
  mb_campaign_type : option string;
  mb_target_audience : option string;
  mb_bonus_amount : option Q;
  mb_bonus_type : option string;
  mb_minimum_requirement : option Q;
  mb_max_participants : option Q;
  mb_start_date : option Z;
  mb_end_date : option Z;
  mb_terms_conditions : option string
}.

Record campaign_value := {
  mv_name : string;
  mv_description : option string;
  mv_campaign_type : string;
  mv_target_audience : string;
  mv_bonus_amount : Q;
  mv_bonus_type : string;
  mv_minimum_requirement : Q;
  mv_max_participants : option Q;
  mv_start_date : Z;
  mv_end_date : Z;
  mv_terms_conditions : option string
}.

Definition validateCampaign (data : campaign_body) : joi_result campaign_value :=
  name <-- (s <-- required "name" (mb_name data) ;; string_max "name" 100 s) ;;
  description <-- optional (mb_description data) (string_max "description" 1000) ;;
  campaign_type <-- (s <-- required "campaign_type" (mb_campaign_type data) ;;
                     string_valid "campaign_type"
                       ["referral"; "milestone"; "seasonal"; "promotional"] s) ;;
  target_audience <-- optional (mb_target_audience data)
      (string_valid "target_audience" ["customer"; "driver"; "restaurant"; "all"]) ;;
  bonus_amount <-- (q <-- required "bonus_amount" (mb_bonus_amount data) ;;
                    q <-- number_precision2 "bonus_amount" q ;;
                    _ <-- rule "bonus_amount" "number.positive" (Qlt_bool 0 q) ;;
                    JoiValue q) ;;
  bonus_type <-- optional (mb_bonus_type data)
      (string_valid "bonus_type" ["cash"; "credit"; "percentage"]) ;;
  minimum_requirement <-- optional (mb_minimum_requirement data) (fun q =>
      q <-- number_precision2 "minimum_requirement" q ;;
      _ <-- rule "minimum_requirement" "number.min" (Qle_bool 0 q) ;;
      JoiValue q) ;;
  max_participants <-- optional (mb_max_participants data)
      (number_positive_integer "max_participants") ;;
  start_date <-- required "start_date" (mb_start_date data) ;;
  end_date <-- (d <-- required "end_date" (mb_end_date data) ;;
                _ <-- rule "end_date" "date.greater" (start_date <? d) ;;
                JoiValue d) ;;
  terms_conditions <-- optional (mb_terms_conditions data)
      (string_max "terms_conditions" 2000) ;;
  JoiValue {| mv_name := name;
              mv_description := description;
              mv_campaign_type := campaign_type;
              mv_target_audience := default "all" target_audience;
              mv_bonus_amount := bonus_amount;
              mv_bonus_type := default "credit" bonus_type;
              mv_minimum_requirement := default 0%Q minimum_requirement;
              mv_max_participants := max_participants;
              mv_start_date := start_date;
              mv_end_date := end_date;
              mv_terms_conditions := terms_conditions |}.

End Validator.

(** ** services/rewardsService.js *)

(** The text of an identifier, where one is written into metadata. *)
Definition uuid_text (id : uuid) : string := decimal (Z.of_nat id).

Module RewardService.

(** [creditResult.success]: reading a property of [undefined] throws. *)
Definition read_success (creditResult : credit_result) : completion bool :=
  match creditResult with
  | CreditObject success => Normal success
  | Undefined =>
      Thrown (TypeError "Cannot read properties of undefined (reading 'success')")
  end.

(** [reward.id] where [reward] may be [null]. *)
Definition read_id (reward : option reward_row) : completion uuid :=
  match reward with
  | Some r => Normal (rw_id r)
  | None => Thrown (TypeError "Cannot read properties of null (reading 'id')")
  end.

Definition creditReward (rewardId : uuid) : async (option reward_row) :=
  try_catch
    (reward <- Reward.findById rewardId ;;
     match reward with
     | None => ret None
     | Some reward =>
         if negb (reward_status_eqb (rw_status reward) pending)
         then ret (Some reward)
         else
           creditResult <- ExternalServices.creditUserAccount
                             (rw_user_id reward) (rw_amount reward) (rw_id reward) ;;
           success <- sync (read_success creditResult) ;;
           if success
           then
             creditedReward <- Reward.creditReward rewardId ;;
             ExternalServices.sendNotification (rw_user_id reward) "reward_credited" ;;;
             ret creditedReward
           else ret None
     end)
    (fun error => throw error).

(** [milestoneAmounts[milestone]]; [None] is [undefined]. *)
Definition milestoneAmounts (e : process_env) (milestone : Z) : option Q :=
  if milestone =? 5 then Some (optnum_or (MILESTONE_BONUS_5 e) 15)
  else if milestone =? 10 then Some (optnum_or (MILESTONE_BONUS_10 e) 30)
  else if milestone =? 25 then Some (optnum_or (MILESTONE_BONUS_25 e) 75)
  else if milestone =? 50 then Some (optnum_or (MILESTONE_BONUS_50 e) 150)
  else if milestone =? 100 then Some (optnum_or (MILESTONE_BONUS_100 e) 300)
  else None.

(** The test of the scan for an existing milestone reward:
    [r.reward_type === 'milestone_bonus' && r.metadata &&
     JSON.parse(r.metadata || '{}').milestone === milestone]. *)
Definition is_milestone_reward (milestone : Z) (r : reward_row) : completion bool :=
  if reward_type_eqb (rw_reward_type r) milestone_bonus
  then
    if meta_truthy (rw_metadata r)
    then match JSON_parse (rw_metadata r) with
         | Normal m => Normal (prop_is_number (meta_prop "milestone" m) (inject_Z milestone))
         | Thrown e => Thrown e
         end
    else Normal false
  else Normal false.

Definition processMilestoneReward (userId userType : string) (milestone : Z)
  (metadata : json_object) : async (option reward_row) :=
  try_catch
    (e <- gets env ;;
     match milestoneAmounts e milestone with
     | None => ret None
     | Some amount =>
         if Qeq_bool amount 0 then ret None
         else
           existingRewards <- Reward.findByUser userId None 1000 0 ;;
           hasMilestoneReward <-
             sync (some_sync (is_milestone_reward milestone) existingRewards) ;;
           if hasMilestoneReward then ret None
           else
             t <- now ;;
             reward <- Reward.create
               {| wd_user_id := userId;
                  wd_user_type := userType;
                  wd_reward_type := milestone_bonus;
                  wd_amount := amount;
                  wd_currency := None;
                  wd_expiry_date := None;
                  wd_source_id := None;
                  wd_source_type := src_milestone;
                  wd_description :=
                    Some ("Milestone bonus for reaching " ++ decimal milestone
                          ++ " successful referrals!");
                  wd_metadata :=
                    Some (obj_spread
                            [("milestone", JNumber (inject_Z milestone));
                             ("achievement_date", JIsoDate t)]
                            metadata) |} ;;
             id <- sync (read_id reward) ;;
             creditReward id ;;;
             ExternalServices.sendNotification userId "milestone_achieved" ;;;
             ret reward
     end)
    (fun error => throw error).

Definition milestones : list Z := [5; 10; 25; 50; 100].

(** The loop over the thresholds, collecting the rewards granted. *)
Fixpoint milestone_loop (userId userType : string) (completedReferrals : Z)
  (todo : list Z) (achievedMilestones : list reward_row) : async (list reward_row) :=
  match todo with
  | [] => ret achievedMilestones
  | milestone :: todo' =>
      if milestone <=? completedReferrals
      then
        reward <- processMilestoneReward userId userType milestone [] ;;
        milestone_loop userId userType completedReferrals todo'
          (match reward with
           | Some r => achievedMilestones ++ [r]
           | None => achievedMilestones
           end)
      else milestone_loop userId userType completedReferrals todo' achievedMilestones
  end.

Definition checkMilestoneAchievements (userId userType : string)
  : async (list reward_row) :=
  try_catch
    (stats <- Referral.getReferralStats userId ;;
     (* [stats.completed_referrals || 0]: a count is a number already *)
     let completedReferrals := completed_referrals stats in
     milestone_loop userId userType completedReferrals milestones [])
    (fun _ => ret []).

Definition processCampaignReward (userId userType : string) (campaignId : uuid)
  (customAmount : option Q) (customDescription : option string)
  : async (option reward_row) :=
  try_catch
    (campaign <- Campaign.findById campaignId ;;
     match campaign with
     | None => ret None
     | Some campaign =>
         if negb (cp_is_active campaign) then ret None
         else
           t <- now ;;
           if (t <? cp_start_date campaign) || (cp_end_date campaign <? t) then ret None
           else if match cp_max_participants campaign with
                   | Some m => negb (m =? 0) && (m <=? cp_current_participants campaign)
                   | None => false
                   end
           then ret None
           else
             let amount := optnum_or customAmount (cp_bonus_amount campaign) in
             let description :=
               optstr_or customDescription ("Campaign bonus: " ++ cp_name campaign) in
             reward <- Reward.create
               {| wd_user_id := userId;
                  wd_user_type := userType;
                  wd_reward_type := campaign_bonus;
                  wd_amount := amount;
                  wd_currency := None;
                  wd_expiry_date := None;
                  wd_source_id := Some campaignId;
                  wd_source_type := src_campaign;
                  wd_description := Some description;
                  wd_metadata :=
                    Some [("campaign_id", JString (uuid_text campaignId));
                          ("campaign_name", JString (cp_name campaign));
                          ("campaign_type", JString (cp_campaign_type campaign))] |} ;;
             Campaign.incrementParticipants campaignId ;;;
             _ <- sync (read_id reward) ;;
             ret reward
     end)
    (fun error => throw error).

(** The name of a completion condition, as metadata carries it. *)
Definition condition_name (c : completion_condition) : string :=
  match c with
  | first_order => "first_order"
  | first_delivery => "first_delivery"
  | registration => "registration"
  end.

(** [reward.user_id] where [reward] may be [null]. *)
Definition read_user_id (reward : option reward_row) : completion string :=
  match reward with
  | Some r => Normal (rw_user_id r)
  | None => Thrown (TypeError "Cannot read properties of null (reading 'user_id')")
  end.

Definition sendRewardNotifications (referrerReward refereeReward : option reward_row)
  : async unit :=
  try_catch
    (referrer <- sync (read_user_id referrerReward) ;;
     ExternalServices.sendNotification referrer "referral_reward_earned" ;;;
     referee <- sync (read_user_id refereeReward) ;;
     ExternalServices.sendNotification referee "welcome_bonus_credited")
    (fun _ => ret tt).

(** What [processReferralRewards] returns. *)
Record referral_rewards := {
  rr_referrer_reward : option reward_row;
  rr_referee_reward : option reward_row;
  rr_milestone_rewards : list reward_row
}.

Definition referrer_reward_data (referral : referral_row) : reward_data :=
  {| wd_user_id := rf_referrer_id referral;
     wd_user_type := rf_referrer_type referral;
     wd_reward_type := referral_bonus;
     wd_amount := rf_referrer_bonus referral;
     wd_currency := None;
     wd_expiry_date := None;
     wd_source_id := Some (rf_id referral);
     wd_source_type := src_referral;
     wd_description :=
       Some ("Referral bonus for successfully referring a " ++ rf_referee_type referral);
     wd_metadata :=
       Some [("referral_id", JString (uuid_text (rf_id referral)));
             ("referee_id", JString (rf_referee_id referral));
             ("referee_type", JString (rf_referee_type referral));
             ("completion_condition",
              JString (condition_name (rf_completion_condition referral)))] |}.

Definition referee_reward_data (referral : referral_row) : reward_data :=
  {| wd_user_id := rf_referee_id referral;
     wd_user_type := rf_referee_type referral;
     wd_reward_type := referral_bonus;
     wd_amount := rf_referee_bonus referral;
     wd_currency := None;
     wd_expiry_date := None;
     wd_source_id := Some (rf_id referral);
     wd_source_type := src_referral;
     wd_description :=
       Some ("Welcome bonus for being referred by a " ++ rf_referrer_type referral);
     wd_metadata :=
       Some [("referral_id", JString (uuid_text (rf_id referral)));
             ("referrer_id", JString (rf_referrer_id referral));
             ("referrer_type", JString (rf_referrer_type referral));
             ("completion_condition",
              JString (condition_name (rf_completion_condition referral)))] |}.

Definition processReferralRewards (referral : referral_row) : async referral_rewards :=
  try_catch
    (referrerReward <- Reward.create (referrer_reward_data referral) ;;
     refereeReward <- Reward.create (referee_reward_data referral) ;;
     id <- sync (read_id refereeReward) ;;
     creditReward id ;;;
     milestoneRewards <-
       checkMilestoneAchievements (rf_referrer_id referral) (rf_referrer_type referral) ;;
     sendRewardNotifications referrerReward refereeReward ;;;
     _ <- sync (read_id referrerReward) ;;
     ret {| rr_referrer_reward := referrerReward;
            rr_referee_reward := refereeReward;
            rr_milestone_rewards := milestoneRewards |})
    (fun error => throw error).

(** [processFirstTimeBonus]; [FIRST_ORDER_BONUS] is the setting of that
    name after [parseFloat].  The description is written without the
    emoji that ends it. *)
Definition processFirstTimeBonus (FIRST_ORDER_BONUS : option Q)
  (userId userType triggerType : string) : async (option reward_row) :=
  try_catch
    (existingRewards <- Reward.findByUser userId None 100 0 ;;
     let hasFirstTimeBonus :=
       existsb (fun r => reward_type_eqb (rw_reward_type r) loyalty_bonus)
               existingRewards in
     if hasFirstTimeBonus then ret None
     else
       let bonusAmount := optnum_or FIRST_ORDER_BONUS 5 in
       reward <- Reward.create
         {| wd_user_id := userId;
            wd_user_type := userType;
            wd_reward_type := loyalty_bonus;
            wd_amount := bonusAmount;
            wd_currency := None;
            wd_expiry_date := None;
            wd_source_id := None;
            wd_source_type := src_manual;
            wd_description := Some "Welcome bonus for joining our platform!";
            wd_metadata :=
              Some [("trigger_type", JString triggerType);
                    ("first_time_bonus", JBool true)] |} ;;
       id <- sync (read_id reward) ;;
       creditReward id ;;;
       ret reward)
    (fun error => throw error).

(** The loop of [expireOldRewards] over the rewards it has read. *)
Definition expireEach (expiredRewards : list reward_row) : async unit :=
  for_of expiredRewards (fun reward =>
    Reward.updateStatus (rw_id reward) expired ;;;
    ExternalServices.sendNotification (rw_user_id reward) "reward_expired").

Definition expireOldRewards : async nat :=
  try_catch
    (expiredRewards <- Reward.getExpiredRewards ;;
     expireEach expiredRewards ;;;
     ret (List.length expiredRewards))
    (fun error => throw error).

(** A request of a batch: its [type] and the properties the types read. *)
Record reward_request := {
  rq_type : string;
  rq_data : option referral_row;
  rq_user_id : string;
  rq_user_type : string;
  rq_milestone : Z;
  rq_campaign_id : uuid;
  rq_amount : option Q;
  rq_description : option string;
  rq_trigger_type : option string
}.

(** The [reward] of a result: the bundle of a referral, or a reward or
    [null].  The [error] of a result is the error caught, of which the
    code keeps the message. *)
Inductive processed :=
| ProcessedReferral (rewardData : referral_rewards)
| ProcessedReward (reward : option reward_row).

Record bulk_result := {
  br_success : bool;
  br_request : reward_request;
  br_reward : option processed;
  br_error : option js_error
}.

(** [processReferralRewards(request.data)]: with no [data], reading the id
    of the referral throws. *)
Definition processReferralRequest (data : option referral_row) : async referral_rewards :=
  match data with
  | Some referral => processReferralRewards referral
  | None => throw (TypeError "Cannot read properties of undefined (reading 'id')")
  end.

(** The [switch] on the type of a request; [None] is the [default] branch,
    which goes on to the next request. *)
Definition processRequest (FIRST_ORDER_BONUS : option Q) (request : reward_request)
  : option (async processed) :=
  if String.eqb (rq_type request) "referral" then
    Some (rewardData <- processReferralRequest (rq_data request) ;;
          ret (ProcessedReferral rewardData))
  else if String.eqb (rq_type request) "milestone" then
    Some (reward <- processMilestoneReward (rq_user_id request) (rq_user_type request)
                      (rq_milestone request) [] ;;
          ret (ProcessedReward reward))
  else if String.eqb (rq_type request) "campaign" then
    Some (reward <- processCampaignReward (rq_user_id request) (rq_user_type request)
                      (rq_campaign_id request) (rq_amount request)
                      (rq_description request) ;;
          ret (ProcessedReward reward))
  else if String.eqb (rq_type request) "first_time" then
    Some (reward <- processFirstTimeBonus FIRST_ORDER_BONUS (rq_user_id request)
                      (rq_user_type request)
                      (match rq_trigger_type request with
                       | Some t => t
                       | None => "registration"
                       end) ;;
          ret (ProcessedReward reward))
  else None.

(** The loop of [bulkProcessRewards]: each request is processed inside its
    own [try]; a failure is recorded and the loop goes on. *)
Fixpoint bulkLoop (FIRST_ORDER_BONUS : option Q) (rewardRequests : list reward_request)
  (results : list bulk_result) : async (list bulk_result) :=
  match rewardRequests with
  | [] => ret results
  | request :: rest =>
      match processRequest FIRST_ORDER_BONUS request with
      | None => bulkLoop FIRST_ORDER_BONUS rest results
      | Some process =>
          result <- try_catch
            (reward <- process ;;
             ret {| br_success := true; br_request := request;
                    br_reward := Some reward; br_error := None |})
            (fun error =>
               ret {| br_success := false; br_request := request;
                      br_reward := None; br_error := Some error |}) ;;
          bulkLoop FIRST_ORDER_BONUS rest (results ++ [result])
      end
  end.

Definition bulkProcessRewards (FIRST_ORDER_BONUS : option Q)
  (rewardRequests : list reward_request) : async (list bulk_result) :=
  try_catch (bulkLoop FIRST_ORDER_BONUS rewardRequests [])
            (fun error => throw error).

End RewardService.

(** ** The controllers *)

(** What a handler sends back: [res.status(code).json({ success, message,
    data })]. *)
Record response (D : Type) := {
  status_code : Z;
  success : bool;
  message : string;
  data : option D
}.
Arguments status_code {D} r.
Arguments success {D} r.
Arguments message {D} r.
Arguments data {D} r.

Definition refuse {D} (code : Z) (msg : string) : response D :=
  {| status_code := code; success := false; message := msg; data := None |}.

Definition accept {D} (code : Z) (msg : string) (d : D) : response D :=
  {| status_code := code; success := true; message := msg; data := Some d |}.

(** *** controllers/referralController.js *)

Module ReferralController.

Definition getCompletionCondition (refereeType : string) : completion_condition :=
  if String.eqb refereeType "customer" then first_order
  else if String.eqb refereeType "driver" then first_delivery
  else if String.eqb refereeType "restaurant" then registration
  else first_order.

Definition getRefereeBonus (e : process_env) (refereeType : string) : Q :=
  if String.eqb refereeType "customer" then optnum_or (CUSTOMER_REFERRAL_BONUS e) 10
  else if String.eqb refereeType "driver" then optnum_or (DRIVER_REFERRAL_BONUS e) 25
  else if String.eqb refereeType "restaurant" then optnum_or (RESTAURANT_REFERRAL_BONUS e) 50
  else 10%Q.

(** [payload.key === referral.referee_id] *)
Definition is_referee (key : option string) (referral : referral_row) : bool :=
  match key with
  | Some s => String.eqb s (rf_referee_id referral)
  | None => false
  end.

(** [!referral.minimum_order_amount].  The column is a DECIMAL, which the
    referral carries as text: [null] is falsy, and a text such as "0.00"
    is truthy, whatever its value. *)
Definition no_minimum (referral : referral_row) : bool :=
  match rf_minimum_order_amount referral with
  | None => true
  | Some _ => false
  end.

(** [triggerData.amount >= referral.minimum_order_amount], reached only
    when the minimum is not [null]: the text of the minimum is converted
    to its number; a missing amount compares as [NaN]. *)
Definition amount_reaches_minimum (triggerData : trigger_data)
  (referral : referral_row) : bool :=
  match td_amount triggerData, rf_minimum_order_amount referral with
  | Some a, Some m => Qle_bool m a
  | _, _ => false
  end.

(** The [switch] on the completion condition; the condition is a value of
    the column's ENUM, so the [default] branch (no match) has no case
    here. *)
Definition shouldCompleteReferral (referral : referral_row) (triggerType : string)
  (triggerData : trigger_data) : bool :=
  match rf_completion_condition referral with
  | first_order =>
      String.eqb triggerType "order_completed"
      && is_referee (td_customer_id triggerData) referral
      && (no_minimum referral || amount_reaches_minimum triggerData referral)
  | first_delivery =>
      String.eqb triggerType "delivery_completed"
      && is_referee (td_driver_id triggerData) referral
  | registration =>
      String.eqb triggerType "user_verified"
      && is_referee (td_user_id triggerData) referral
  end.

(** [this.m(...)] in a handler: [this] is [undefined] there, so reading
    the method [m] off it throws before anything is called; [call] is
    the call on the class that is not made. *)
Definition on_this {A} (m : string) (call : completion A) : completion A :=
  Thrown (TypeError ("Cannot read properties of undefined (reading '" ++ m ++ "')")).

(** [rewardService.processReferralRewards(referral)] in this file, where
    [rewardService] is the instance of [ExternalServices]: the instance
    has no such method, and the call throws. *)
Definition rewardService_processReferralRewards (referral : referral_row)
  : async RewardService.referral_rewards :=
  throw (TypeError "rewardService.processReferralRewards is not a function").

Definition sendReferralNotifications (referral : referral_row) : async unit :=
  try_catch
    (ExternalServices.sendNotification (rf_referrer_id referral) "referral_created" ;;;
     ExternalServices.sendNotification (rf_referee_id referral) "referral_received")
    (fun _ => ret tt).

(** [referral.id] and the like, where [Referral.create] may have returned
    [null]. *)
Definition read_referral (referral : option referral_row) : completion referral_row :=
  match referral with
  | Some r => Normal r
  | None => Thrown (TypeError "Cannot read properties of null (reading 'id')")
  end.

(** [const referralData = { ... }], built from the validated request,
    the referral code, the campaign if one applies, and the settings. *)
Definition referralData (value : Validator.referral_value)
  (referralCode : referral_code_row) (campaign : option campaign_row)
  (e : process_env) : referral_data :=
  {| rd_referrer_id := rc_owner_id referralCode;
     rd_referee_id := Validator.rv_referee_id value;
     rd_referrer_type := rc_owner_type referralCode;
     rd_referee_type := Validator.rv_referee_type value;
     rd_referral_code := Validator.rv_referral_code value;
     rd_completion_condition := getCompletionCondition (Validator.rv_referee_type value);
     rd_referrer_bonus :=
       match campaign with
       | Some c => cp_bonus_amount c
       | None => rc_bonus_amount referralCode
       end;
     rd_referee_bonus := getRefereeBonus e (Validator.rv_referee_type value);
     rd_referrer_bonus_type := None;
     rd_referee_bonus_type := None;
     rd_minimum_order_amount := rc_minimum_order_amount referralCode;
     rd_campaign_id :=
       match campaign with
       | Some c => Some (cp_id c)
       | None => None
       end;
     rd_metadata := None |}.

(** [createReferral].  After the checks that refuse a request, the handler
    calls [Campaign.findActive]; the object [referralData] is built with
    [this.getCompletionCondition] and [this.getRefereeBonus], and the
    notifications go through [this.sendReferralNotifications]. *)
Definition createReferral (body : Validator.referral_body)
  : async (response referral_row) :=
  try_catch
    (match Validator.validateReferral body with
     | Validator.JoiError _ _ => ret (refuse 400 "Validation error")
     | Validator.JoiValue value =>
         referralCode <- ReferralCode.validateCode (Validator.rv_referral_code value) ;;
         match referralCode with
         | None => ret (refuse 400 "Invalid or expired referral code")
         | Some referralCode =>
             if String.eqb (rc_owner_id referralCode) (Validator.rv_referee_id value)
             then ret (refuse 400 "Cannot refer yourself")
             else
               existingReferrals <- Referral.findByReferee (Validator.rv_referee_id value) ;;
               match find (fun r =>
                             String.eqb (rf_referrer_id r) (rc_owner_id referralCode)
                             && String.eqb (rf_referrer_type r) (rc_owner_type referralCode))
                          existingReferrals with
               | Some _ => ret (refuse 409 "Referral already exists between these users")
               | None =>
                   activeCampaigns <- Campaign.findActive (rc_owner_type referralCode) ;;
                   let campaign := hd_error activeCampaigns in
                   e <- gets env ;;
                   data <- sync (on_this "getCompletionCondition"
                                   (Normal (referralData value referralCode campaign e))) ;;
                   referral <- Referral.create data ;;
                   ReferralCode.incrementUsage (rc_id referralCode) ;;;
                   match campaign with
                   | Some c => Campaign.incrementParticipants (cp_id c) ;;; ret tt
                   | None => ret tt
                   end ;;;
                   sync (on_this "sendReferralNotifications" (Normal tt)) ;;;
                   r <- sync (read_referral referral) ;;
                   ret (accept 201 "Referral created successfully" r)
               end
         end
     end)
    (fun _ => ret (refuse 500 "Internal server error")).

Definition sendCompletionNotifications (referral : referral_row) : async unit :=
  try_catch
    (ExternalServices.sendNotification (rf_referrer_id referral) "referral_completed" ;;;
     ExternalServices.sendNotification (rf_referee_id referral) "referral_bonus_earned")
    (fun _ => ret tt).

(** The body of a request to complete a referral. *)
Record completion_body := {
  cm_referral_id : option uuid;
  cm_order_id : option string;
  cm_delivery_id : option string
}.

(** [{ order_id, delivery_id }] *)
Definition completion_evidence (body : completion_body) : trigger_data :=
  {| td_order_id := cm_order_id body;
     td_delivery_id := cm_delivery_id body;
     td_customer_id := None;
     td_driver_id := None;
     td_user_id := None;
     td_amount := None |}.

Definition completeReferral (body : completion_body) : async (response referral_row) :=
  try_catch
    (match cm_referral_id body with
     | None => ret (refuse 400 "Referral ID is required")
     | Some referral_id =>
         referral <- Referral.findById referral_id ;;
         match referral with
         | None => ret (refuse 404 "Referral not found")
         | Some referral =>
             if negb (referral_status_eqb (rf_status referral) RefPending)
             then ret (refuse 400 "Referral is not in pending status")
             else
               completedReferral <-
                 Referral.completeReferral referral_id (completion_evidence body) ;;
               match completedReferral with
               | Some completedReferral =>
                   rewardService_processReferralRewards completedReferral ;;;
                   sync (on_this "sendCompletionNotifications" (Normal tt)) ;;;
                   ret (accept 200 "Referral completed successfully" completedReferral)
               | None => ret (refuse 400 "Failed to complete referral")
               end
         end
     end)
    (fun _ => ret (refuse 500 "Internal server error")).

(** The body of a trigger sent by another service; [trigger_data] may be
    missing. *)
Record trigger_body := {
  tb_referee_id : string;
  tb_referee_type : string;
  tb_trigger_type : string;
  tb_trigger_data : option trigger_data
}.

Record trigger_report := {
  completed_count : nat;
  completed_referrals_list : list referral_row
}.

(** The trigger type each completion condition waits for. *)
Definition awaited_trigger (c : completion_condition) : string :=
  match c with
  | first_order => "order_completed"
  | first_delivery => "delivery_completed"
  | registration => "user_verified"
  end.

(** [shouldCompleteReferral] on a payload that may be [undefined]: the
    payload is read only once the trigger type is the awaited one, and
    reading a property of [undefined] throws. *)
Definition shouldCompleteWith (referral : referral_row) (triggerType : string)
  (triggerData : option trigger_data) : completion bool :=
  match triggerData with
  | Some payload => Normal (shouldCompleteReferral referral triggerType payload)
  | None =>
      if String.eqb triggerType (awaited_trigger (rf_completion_condition referral))
      then Thrown (TypeError "Cannot read properties of undefined")
      else Normal false
  end.

(** [completionData.order_id] where the payload may be [undefined]. *)
Definition read_payload (triggerData : option trigger_data) : completion trigger_data :=
  match triggerData with
  | Some payload => Normal payload
  | None => Thrown (TypeError "Cannot read properties of undefined (reading 'order_id')")
  end.

(** The loop of [processReferralTrigger] over the pending referrals read. *)
Fixpoint triggerLoop (pendingReferrals : list referral_row) (triggerType : string)
  (triggerData : option trigger_data) (completedReferrals : list referral_row)
  : async (list referral_row) :=
  match pendingReferrals with
  | [] => ret completedReferrals
  | referral :: rest =>
      shouldComplete <-
        sync (on_this "shouldCompleteReferral"
                (shouldCompleteWith referral triggerType triggerData)) ;;
      if shouldComplete
      then
        payload <- sync (read_payload triggerData) ;;
        completed <- Referral.completeReferral (rf_id referral) payload ;;
        match completed with
        | Some completed =>
            rewardService_processReferralRewards completed ;;;
            sync (on_this "sendCompletionNotifications" (Normal tt)) ;;;
            triggerLoop rest triggerType triggerData (completedReferrals ++ [completed])
        | None => triggerLoop rest triggerType triggerData completedReferrals
        end
      else triggerLoop rest triggerType triggerData completedReferrals
  end.

Definition processReferralTrigger (body : trigger_body) : async (response trigger_report) :=
  try_catch
    (refereeReferrals <- Referral.findByReferee (tb_referee_id body) ;;
     let pendingReferrals :=
       filter (fun r => referral_status_eqb (rf_status r) RefPending) refereeReferrals in
     completedReferrals <-
       triggerLoop pendingReferrals (tb_trigger_type body) (tb_trigger_data body) [] ;;
     ret (accept 200
            ("Processed " ++ decimal (Z.of_nat (List.length completedReferrals))
             ++ " referrals")
            {| completed_count := List.length completedReferrals;
               completed_referrals_list := completedReferrals |}))
    (fun _ => ret (refuse 500 "Internal server error")).

End ReferralController.

(** *** controllers/referralController.js, second class: ReferralCodeController *)

(** [req.user]: who calls. *)
Record user := {
  user_id : string;
  user_role : string
}.

Module ReferralCodeController.

(** What the validation of a code shows of it. *)
Record code_summary := {
  cs_valid : bool;
  cs_code : string;
  cs_bonus_amount : Q;
  cs_bonus_type : string;
  cs_minimum_order_amount : Q;
  cs_usage_count : Z;
  cs_max_usage : Z
}.

(** [validateReferralCode] with [req.params.code]; the answer to a valid
    code carries no message. *)
Definition validateReferralCode (code : string) : async (response code_summary) :=
  try_catch
    (validCode <- ReferralCode.validateCode code ;;
     match validCode with
     | None => ret (refuse 404 "Invalid or expired referral code")
     | Some validCode =>
         ret (accept 200 ""
                {| cs_valid := true;
                   cs_code := rc_code validCode;
                   cs_bonus_amount := rc_bonus_amount validCode;
                   cs_bonus_type := rc_bonus_type validCode;
                   cs_minimum_order_amount := rc_minimum_order_amount validCode;
                   cs_usage_count := rc_usage_count validCode;
                   cs_max_usage := rc_max_usage validCode |})
     end)
    (fun _ => ret (refuse 500 "Internal server error")).

(** [["admin", "sales"].includes(req.user.role)] *)
Definition is_staff (u : user) : bool :=
  String.eqb (user_role u) "admin" || String.eqb (user_role u) "sales".

(** [deactivateReferralCode] with [req.params.id] and [req.user]; the
    answer carries no data. *)
Definition deactivateReferralCode (id : uuid) (u : user) : async (response unit) :=
  try_catch
    (code <- ReferralCode.findById id ;;
     match code with
     | None => ret (refuse 404 "Referral code not found")
     | Some code =>
         if negb (String.eqb (rc_owner_id code) (user_id u)) && negb (is_staff u)
         then ret (refuse 403 "Access denied")
         else
           ReferralCode.deactivateCode id ;;;
           ret {| status_code := 200; success := true;
                  message := "Referral code deactivated successfully";
                  data := None |}
     end)
    (fun _ => ret (refuse 500 "Internal server error")).

(** [getUserReferralCodes] with [req.user]. *)
Definition getUserReferralCodes (u : user)
  : async (response (list referral_code_row)) :=
  try_catch
    (codes <- ReferralCode.findByOwner (user_id u) (user_role u) ;;
     ret (accept 200 "" codes))
    (fun _ => ret (refuse 500 "Internal server error")).

End ReferralCodeController.

(** *** controllers/rewardController.js *)

Module RewardController.

(** [claimReward] with [req.params.id] and [req.user.id]. *)
Definition claimReward (id : uuid) (user_id : string)
  : async (response reward_row) :=
  try_catch
    (reward <- Reward.findById id ;;
     match reward with
     | None => ret (refuse 404 "Reward not found")
     | Some reward =>
         if negb (String.eqb (rw_user_id reward) user_id)
         then ret (refuse 403 "Access denied")
         else if negb (reward_status_eqb (rw_status reward) pending)
         then ret (refuse 400 "Reward cannot be claimed")
         else
           creditedReward <- Reward.creditReward id ;;
           match creditedReward with
           | Some credited_row =>
               ExternalServices.creditUserAccount
                 (rw_user_id reward) (rw_amount reward) (rw_id reward) ;;;
               ExternalServices.sendNotification (rw_user_id reward) "reward_credited" ;;;
               ret (accept 200 "Reward claimed successfully" credited_row)
           | None => ret (refuse 400 "Failed to claim reward")
           end
     end)
    (fun _ => ret (refuse 500 "Internal server error")).

End RewardController.

(** ** The scheduled jobs *)

Module CronJobService.

(** The loop of the referral expiry job over the rows it has read. *)
Definition expireReferrals (expiredReferrals : list referral_row) : async unit :=
  for_of expiredReferrals (fun referral =>
    Referral.updateStatus (rf_id referral) RefExpired ;;; ret tt).

(** The job scheduled daily at 2 AM. *)
Definition referralExpiryJob : async unit :=
  try_catch
    (expiredReferrals <- Referral.getExpiredReferrals ;;
     expireReferrals expiredReferrals)
    (fun _ => ret tt).

Definition expireRewards (expiredRewards : list reward_row) : async unit :=
  for_of expiredRewards (fun reward =>
    Reward.updateStatus (rw_id reward) expired ;;; ret tt).

(** The job scheduled daily at 3 AM. *)
Definition rewardExpiryJob : async unit :=
  try_catch
    (expiredRewards <- Reward.getExpiredRewards ;;
     expireRewards expiredRewards)
    (fun _ => ret tt).

End CronJobService.

(** ** Sample worlds

    Concrete states and requests on which the properties below are run. *)

(** Two users. *)
Definition alice : string := "0b9e6a52-7c1d-4f3a-8e21-5d4c3b2a1f00".
Definition bob : string := "6f1c2a4e-0b7d-4c1e-9a56-3d2f8e7b1c90".

Definition sample_reward_data (type : reward_type) : reward_data :=
  {| wd_user_id := bob;
     wd_user_type := "customer";
     wd_reward_type := type;
     wd_amount := 10;
     wd_currency := None;
     wd_expiry_date := None;
     wd_source_id := None;
     wd_source_type := src_manual;
     wd_description := None;
     wd_metadata := None |}.

Definition empty_world : world :=
  {| referral_codes := []; referrals := []; rewards := []; campaigns := [];
     uuid_supply := 0; clock := 1767225600000; env := no_env;
     axios := fun _ => true; requests := [] |}.

(** A pending first_order referral of one customer by another, made with
    the given code. *)
Definition sample_referral_via (code : string) (minimum : option Q) : referral_row :=
  {| rf_id := 1%nat;
     rf_referrer_id := alice;
     rf_referee_id := bob;
     rf_referrer_type := "customer";
     rf_referee_type := "customer";
     rf_referral_code := code;
     rf_status := RefPending;
     rf_completion_condition := first_order;
     rf_completion_date := None;
     rf_referrer_bonus := 10;
     rf_referee_bonus := 10;
     rf_referrer_bonus_type := "credit";
     rf_referee_bonus_type := "credit";
     rf_minimum_order_amount := minimum;
     rf_expiry_date := 1769817600000;
     rf_campaign_id := None;
     rf_completion_order_id := None;
     rf_completion_delivery_id := None;
     rf_metadata := MetaText [] |}.

Definition sample_referral (minimum : option Q) : referral_row :=
  sample_referral_via "CUS7F3K2A" minimum.

Definition sample_order (customer : string) (amount : option Q) : trigger_data :=
  {| td_order_id := Some "order-1";
     td_delivery_id := None;
     td_customer_id := Some customer;
     td_driver_id := None;
     td_user_id := None;
     td_amount := amount |}.

Definition sample_code_request : Validator.code_body :=
  {| Validator.cb_code := None;
     Validator.cb_max_usage := Some 25%Q;
     Validator.cb_bonus_amount := Some (25 # 2)%Q;
     Validator.cb_bonus_type := None;
     Validator.cb_minimum_order_amount := None;
     Validator.cb_expiry_date := Some 1769817600000;
     Validator.cb_campaign_id := None;
     Validator.cb_allow_multiple := None |}.

Definition bare_code_request : Validator.code_body :=
  {| Validator.cb_code := None;
     Validator.cb_max_usage := None;
     Validator.cb_bonus_amount := None;
     Validator.cb_bonus_type := None;
     Validator.cb_minimum_order_amount := None;
     Validator.cb_expiry_date := None;
     Validator.cb_campaign_id := None;
     Validator.cb_allow_multiple := None |}.


(** A pending referral bonus owed to [bob]. *)
Definition sample_pending_reward : reward_row :=
  {| rw_id := 0%nat;
     rw_user_id := bob;
     rw_user_type := "customer";
     rw_reward_type := referral_bonus;
     rw_amount := 10;
     rw_currency := "USD";
     rw_status := pending;
     rw_credited_date := None;
     rw_expiry_date := Some 1769817600000;
     rw_source_id := Some 7%nat;
     rw_source_type := src_referral;
     rw_description := Some "Welcome bonus for being referred by a customer";
     rw_metadata := MetaText [("referrer_id", JString alice)] |}.

(** The store holds that reward only; every request sent is answered. *)
Definition pending_reward_world : world :=
  {| referral_codes := []; referrals := []; rewards := [sample_pending_reward];
     campaigns := []; uuid_supply := 8; clock := 1767225600000; env := no_env;
     axios := fun _ => true; requests := [] |}.

(** [RewardService.creditReward] invoked [n] times in a row on one reward:
    what each call completed with, and the world after the last. *)
Fixpoint credit_repeatedly (n : nat) (rewardId : uuid) (w : world)
  : list (completion (option reward_row)) * world :=
  match n with
  | O => ([], w)
  | S n' =>
      let '(r, w1) := RewardService.creditReward rewardId w in
      let '(rs, w2) := credit_repeatedly n' rewardId w1 in
      (r :: rs, w2)
  end.

(** A pending referral of [bob] by [alice] whose expiry date has passed. *)
Definition overdue_referral : referral_row :=
  {| rf_id := 1%nat;
     rf_referrer_id := alice;
     rf_referee_id := bob;
     rf_referrer_type := "customer";
     rf_referee_type := "customer";
     rf_referral_code := "CUS7F3K2A";
     rf_status := RefPending;
     rf_completion_condition := first_order;
     rf_completion_date := None;
     rf_referrer_bonus := 10;
     rf_referee_bonus := 10;
     rf_referrer_bonus_type := "credit";
     rf_referee_bonus_type := "credit";
     rf_minimum_order_amount := Some 0%Q;
     rf_expiry_date := 1767139200000;
     rf_campaign_id := None;
     rf_completion_order_id := None;
     rf_completion_delivery_id := None;
     rf_metadata := MetaText [] |}.

Definition overdue_world : world :=
  {| referral_codes := []; referrals := [overdue_referral]; rewards := [];
     campaigns := []; uuid_supply := 2; clock := 1767225600000; env := no_env;
     axios := fun _ => true; requests := [] |}.

(** A running campaign for customers, with the given capacity and count
    of participants. *)
Definition sample_campaign (max_participants : option Z) (current : Z) : campaign_row :=
  {| cp_id := 3%nat;
     cp_name := "Spring drive";
     cp_campaign_type := "referral";
     cp_target_audience := "customer";
     cp_bonus_amount := 20;
     cp_bonus_type := "credit";
     cp_minimum_requirement := 0;
     cp_max_participants := max_participants;
     cp_current_participants := current;
     cp_start_date := 1764547200000;
     cp_end_date := 1769817600000;
     cp_is_active := true;
     cp_metadata := MetaText [] |}.

Definition campaign_world (max_participants : option Z) (current : Z) : world :=
  {| referral_codes := []; referrals := []; rewards := [];
     campaigns := [sample_campaign max_participants current];
     uuid_supply := 4; clock := 1767225600000; env := no_env;
     axios := fun _ => true; requests := [] |}.

(** The milestone reward the first check grants [alice] at five completed
    referrals, as [processMilestoneReward] stores it. *)
Definition milestone_5_reward : reward_row :=
  {| rw_id := 0%nat;
     rw_user_id := alice;
     rw_user_type := "customer";
     rw_reward_type := milestone_bonus;
     rw_amount := 15;
     rw_currency := "USD";
     rw_status := pending;
     rw_credited_date := None;
     rw_expiry_date := Some 1769817600000;
     rw_source_id := None;
     rw_source_type := src_milestone;
     rw_description := Some "Milestone bonus for reaching 5 successful referrals!";
     rw_metadata :=
       MetaText [("milestone", JNumber 5); ("achievement_date", JIsoDate 1767225600000)] |}.

(** A campaign bonus owed to [alice]. *)
Definition campaign_reward_of (id : uuid) : reward_row :=
  {| rw_id := id;
     rw_user_id := alice;
     rw_user_type := "customer";
     rw_reward_type := campaign_bonus;
     rw_amount := 20;
     rw_currency := "USD";
     rw_status := pending;
     rw_credited_date := None;
     rw_expiry_date := Some 1769817600000;
     rw_source_id := Some 3%nat;
     rw_source_type := src_campaign;
     rw_description := Some "Campaign bonus: Spring drive";
     rw_metadata := MetaText [("campaign_id", JString "3")] |}.

(** A completed referral by [alice]. *)
Definition completed_referral_of (id : uuid) : referral_row :=
  {| rf_id := id;
     rf_referrer_id := alice;
     rf_referee_id := uuid_text id;
     rf_referrer_type := "customer";
     rf_referee_type := "customer";
     rf_referral_code := "CUS7F3K2A";
     rf_status := RefCompleted;
     rf_completion_condition := first_order;
     rf_completion_date := Some 1767139200000;
     rf_referrer_bonus := 10;
     rf_referee_bonus := 10;
     rf_referrer_bonus_type := "credit";
     rf_referee_bonus_type := "credit";
     rf_minimum_order_amount := Some 0%Q;
     rf_expiry_date := 1769817600000;
     rf_campaign_id := None;
     rf_completion_order_id := None;
     rf_completion_delivery_id := None;
     rf_metadata := MetaText [] |}.

Definition five_completed : list referral_row :=
  map completed_referral_of [2005; 2004; 2003; 2002; 2001]%nat.

(** [alice] has five completed referrals and her milestone reward for
    them. *)
Definition milestone_world : world :=
  {| referral_codes := []; referrals := five_completed;
     rewards := [milestone_5_reward];
     campaigns := []; uuid_supply := 3000; clock := 1767312000000; env := no_env;
     axios := fun _ => true; requests := [] |}.

(** The same, after [alice] has been granted a thousand campaign bonuses:
    the milestone reward is now the oldest of her 1001 rewards. *)
Definition crowded_world : world :=
  {| referral_codes := []; referrals := five_completed;
     rewards := (map campaign_reward_of (rev (seq 1 1000)) ++ [milestone_5_reward])%list;
     campaigns := []; uuid_supply := 3000; clock := 1767312000000; env := no_env;
     axios := fun _ => true; requests := [] |}.

(** Whether a stored reward is the milestone reward of a user for a
    threshold: the dedup key is the [milestone] property of its metadata. *)
Definition tagged_milestone (userId : string) (milestone : Z) (r : reward_row) : bool :=
  String.eqb (rw_user_id r) userId
  && reward_type_eqb (rw_reward_type r) milestone_bonus
  && match rw_metadata r with
     | MetaText doc | MetaObject doc =>
         prop_is_number (obj_get "milestone" doc) (inject_Z milestone)
     | MetaNull => false
     end.

Definition milestone_rewards (userId : string) (milestone : Z) (w : world)
  : list reward_row :=
  filter (tagged_milestone userId milestone) (rewards w).

(** The code of the scenario: CUS7F3K2A, owned by [alice], a customer,
    with a bonus of 10.00 in credit, unused out of 50 uses. *)
Definition sample_code : referral_code_row :=
  {| rc_id := 9%nat;
     rc_owner_id := alice;
     rc_owner_type := "customer";
     rc_code := "CUS7F3K2A";
     rc_usage_count := 0;
     rc_max_usage := 50;
     rc_is_active := true;
     rc_bonus_amount := 10;
     rc_bonus_type := "credit";
     rc_minimum_order_amount := 0;
     rc_expiry_date := None;
     rc_campaign_id := None |}.

Definition code_world (cs : list campaign_row) (rs : list referral_row) : world :=
  {| referral_codes := [sample_code]; referrals := rs; rewards := [];
     campaigns := cs; uuid_supply := 10; clock := 1767225600000; env := no_env;
     axios := fun _ => true; requests := [] |}.

(** [bob], a customer, presents the code. *)
Definition sample_referral_request : Validator.referral_body :=
  {| Validator.rb_referral_code := Some "CUS7F3K2A";
     Validator.rb_referee_id := Some bob;
     Validator.rb_referee_type := Some "customer" |}.

(** What a reader's parsing makes of a row the store holds: the JSON text
    of its metadata becomes the object, the other columns stay. *)
Definition parsed_referral (r : referral_row) : referral_row :=
  match rf_metadata r with
  | MetaText doc => Referral.set_metadata (MetaObject doc) r
  | _ => r
  end.

(** The request of [bob], validated. *)
Definition sample_referral_value : Validator.referral_value :=
  {| Validator.rv_referral_code := "CUS7F3K2A";
     Validator.rv_referee_id := bob;
     Validator.rv_referee_type := "customer" |}.

(** The store holds the metadata of a referral as JSON text or NULL; the
    object is what readers make of it. *)
Definition held_as_text (r : referral_row) : Prop :=
  match rf_metadata r with MetaObject _ => False | _ => True end.

Definition reward_held_as_text (r : reward_row) : Prop :=
  match rw_metadata r with MetaObject _ => False | _ => True end.

(** [status = 'pending' AND expiry_date < CURRENT_TIMESTAMP] at time [t]. *)
Definition overdue_reward (t : Z) (r : reward_row) : bool :=
  reward_status_eqb (rw_status r) pending
  && match rw_expiry_date r with Some e => e <? t | None => false end.

(** What a sweep over [rows] writes: expired, on every stored reward whose
    id is the id of one of the rows. *)
Definition swept_reward (rows : list reward_row) (r : reward_row) : reward_row :=
  if existsb (fun row => Nat.eqb (rw_id r) (rw_id row)) rows
  then Reward.set_status expired r else r.

Definition sample_overdue_reward : reward_row :=
  {| rw_id := 1%nat;
     rw_user_id := alice;
     rw_user_type := "customer";
     rw_reward_type := referral_bonus;
     rw_amount := 10;
     rw_currency := "USD";
     rw_status := pending;
     rw_credited_date := None;
     rw_expiry_date := Some 1767139200000;
     rw_source_id := Some 7%nat;
     rw_source_type := src_referral;
     rw_description := None;
     rw_metadata := MetaText [] |}.

(** One reward overdue, one pending with time left, one credited; the
    notification service is down. *)
Definition sweep_world : world :=
  {| referral_codes := []; referrals := [];
     rewards := [sample_overdue_reward; sample_pending_reward;
                 Reward.set_credited 1767000000000
                   (Reward.set_status pending (campaign_reward_of 2%nat))];
     campaigns := []; uuid_supply := 8; clock := 1767225600000; env := no_env;
     axios := fun _ => false; requests := [] |}.

(** The code of the scenario one use short of its cap. *)
Definition nearly_used_code : referral_code_row :=
  {| rc_id := 9%nat;
     rc_owner_id := alice;
     rc_owner_type := "customer";
     rc_code := "CUS7F3K2A";
     rc_usage_count := 49;
     rc_max_usage := 50;
     rc_is_active := true;
     rc_bonus_amount := 10;
     rc_bonus_type := "credit";
     rc_minimum_order_amount := 0;
     rc_expiry_date := None;
     rc_campaign_id := None |}.

Definition last_use_world : world :=
  with_referral_codes [nearly_used_code] (code_world [] []).

(** A code [alice] asks for, with her own text and the defaults
    otherwise. *)
Definition sample_code_data : ReferralCode.code_data :=
  {| ReferralCode.cd_owner_id := alice;
     ReferralCode.cd_owner_type := "customer";
     ReferralCode.cd_code := Some "ALICE2026";
     ReferralCode.cd_max_usage := None;
     ReferralCode.cd_bonus_amount := None;
     ReferralCode.cd_bonus_type := None;
     ReferralCode.cd_minimum_order_amount := None;
     ReferralCode.cd_expiry_date := None;
     ReferralCode.cd_campaign_id := None |}.

Definition alice_user : user := {| user_id := alice; user_role := "customer" |}.
Definition bob_user : user := {| user_id := bob; user_role := "customer" |}.

Definition sample_campaign_data (max_participants : option Z) : Campaign.campaign_data :=
  {| Campaign.pd_name := "Spring drive";
     Campaign.pd_campaign_type := "referral";
     Campaign.pd_target_audience := None;
     Campaign.pd_bonus_amount := 20;
     Campaign.pd_bonus_type := None;
     Campaign.pd_minimum_requirement := None;
     Campaign.pd_max_participants := max_participants;
     Campaign.pd_start_date := 1764547200000;
     Campaign.pd_end_date := 1769817600000;
     Campaign.pd_metadata := None |}.

Definition sample_campaign_request : Validator.campaign_body :=
  {| Validator.mb_name := Some "Spring drive";
     Validator.mb_description := None;
     Validator.mb_campaign_type := Some "referral";
     Validator.mb_target_audience := None;
     Validator.mb_bonus_amount := Some 20%Q;
     Validator.mb_bonus_type := None;
     Validator.mb_minimum_requirement := None;
     Validator.mb_max_participants := Some 100%Q;
     Validator.mb_start_date := Some 1764547200000;
     Validator.mb_end_date := Some 1769817600000;
     Validator.mb_terms_conditions := None |}.

(** The types of request [bulkProcessRewards] knows. *)
Definition known_type (request : RewardService.reward_request) : bool :=
  existsb (String.eqb (RewardService.rq_type request))
          ["referral"; "milestone"; "campaign"; "first_time"].

(** Whether the days from the epoch to the first of a month and the day of
    the month add up to the day they were computed from. *)
Definition civil_round_trip (z : Z) : bool :=
  let '(y, m, d) := civil_from_days z in
  days_from_civil y m 1 + (d - 1) =? z.

(** [p] holds of the [n] days from day [z] on. *)
Fixpoint all_days_from (n : nat) (z : Z) (p : Z -> bool) : bool :=
  match n with
  | O => true
  | S n' => p z && all_days_from n' (z + 1) p
  end.

(** The days from 1970-01-01 to 2100-01-01. *)
Definition days_to_2100 : Z := 47482.

(** Noon of 2026-01-31, with an empty store. *)
Definition month_end_world : world :=
  {| referral_codes := []; referrals := []; rewards := []; campaigns := [];
     uuid_supply := 0; clock := 1769860800000; env := no_env;
     axios := fun _ => true; requests := [] |}.

Definition sample_referral_data : referral_data :=
  {| rd_referrer_id := alice;
     rd_referee_id := bob;
     rd_referrer_type := "customer";
     rd_referee_type := "customer";
     rd_referral_code := "CUS7F3K2A";
     rd_completion_condition := first_order;
     rd_referrer_bonus := 10;
     rd_referee_bonus := 10;
     rd_referrer_bonus_type := None;
     rd_referee_bonus_type := None;
     rd_minimum_order_amount := 0;
     rd_campaign_id := None;
     rd_metadata := None |}.

Definition sample_requests : list RewardService.reward_request :=
  map (fun type =>
         {| RewardService.rq_type := type;
            RewardService.rq_data := Some (completed_referral_of 2001%nat);
            RewardService.rq_user_id := alice;
            RewardService.rq_user_type := "customer";
            RewardService.rq_milestone := 5;
            RewardService.rq_campaign_id := 3%nat;
            RewardService.rq_amount := None;
            RewardService.rq_description := None;
            RewardService.rq_trigger_type := None |})
      ["referral"; "loyalty"; "campaign"].

(** A pending referral of [carol], a driver, by [alice], with the
    completion condition and the referee bonus of her role, and a minimum
    order amount. *)
Definition carol : string := "3c5d7e9f-1a2b-4c3d-8e4f-5a6b7c8d9e0f".

Definition driver_referral : referral_row :=
  {| rf_id := 4%nat;
     rf_referrer_id := alice;
     rf_referee_id := carol;
     rf_referrer_type := "customer";
     rf_referee_type := "driver";
     rf_referral_code := "CUS7F3K2A";
     rf_status := RefPending;
     rf_completion_condition := ReferralController.getCompletionCondition "driver";
     rf_completion_date := None;
     rf_referrer_bonus := 10;
     rf_referee_bonus := ReferralController.getRefereeBonus no_env "driver";
     rf_referrer_bonus_type := "credit";
     rf_referee_bonus_type := "credit";
     rf_minimum_order_amount := Some 15%Q;
     rf_expiry_date := 1769817600000;
     rf_campaign_id := None;
     rf_completion_order_id := None;
     rf_completion_delivery_id := None;
     rf_metadata := MetaText [] |}.

(** The delivery [carol] has made, as the trigger carries it: no amount. *)
Definition sample_delivery : trigger_data :=
  {| td_order_id := None;
     td_delivery_id := Some "delivery-1";
     td_customer_id := None;
     td_driver_id := Some carol;
     td_user_id := None;
     td_amount := None |}.

(** [SUM(CASE WHEN status = 'cancelled' ...)] is not among the columns of
    the statistics; the count is what is left of the total. *)
Definition cancelled_referrals (referrerId : string) (w : world) : Z :=
  Referral.count_status RefCancelled
    (if str_truthy referrerId
     then filter (fun r => String.eqb (rf_referrer_id r) referrerId) (referrals w)
     else referrals w).

(** The same world at another time. *)
Definition at_time (t : Z) (w : world) : world :=
  {| referral_codes := referral_codes w; referrals := referrals w; rewards := rewards w;
     campaigns := campaigns w; uuid_supply := uuid_supply w; clock := t;
     env := env w; axios := axios w; requests := requests w |}.

(** The campaigns the program writes never have a maximum of 0
    participants: [Campaign.create] and [Campaign.update] store
    [max_participants || null], the schema of a campaign request asks for
    a positive maximum, and no other write touches the column. *)
Definition no_zero_maximum (w : world) : Prop :=
  Forall (fun c => cp_max_participants c <> Some 0) (campaigns w).

(** * Properties *)

(** ** Stepping through asynchronous code *)

Ltac unfold_async :=
  cbv beta delta [bind ret throw try_catch sync gets modify now uuidv4] in *.

Lemma num_or_eq (x d : Q) : ~ x == 0 -> num_or x d = x.
Proof.
  intros H. unfold num_or. destruct (Qeq_bool x 0) eqn:E; [|reflexivity].
  apply Qeq_bool_eq in E. contradiction.
Qed.

Lemma num_or_zero (x : Q) : num_or x 0 == x.
Proof.
  unfold num_or. destruct (Qeq_bool x 0) eqn:E; [|reflexivity].
  apply Qeq_bool_eq in E. symmetry. exact E.
Qed.

Lemma optnum_or_nonzero (x : option Q) (d : Q) : ~ d == 0 -> ~ optnum_or x d == 0.
Proof.
  intros Hd. destruct x as [q|]; simpl; [|exact Hd].
  unfold num_or. destruct (Qeq_bool q 0) eqn:E; [exact Hd|].
  apply Qeq_bool_neq in E. exact E.
Qed.

Lemma reward_status_eqb_eq (a b : reward_status) :
  reward_status_eqb a b = true <-> a = b.
Proof. destruct a, b; simpl; split; intros H; try reflexivity; discriminate. Qed.

Lemma referral_status_eqb_eq (a b : referral_status) :
  referral_status_eqb a b = true <-> a = b.
Proof. destruct a, b; simpl; split; intros H; try reflexivity; discriminate. Qed.

(** ** Reward.create *)

(** What [Reward.create] does, whatever its argument: one row is added at
    the head of the table, and the row returned is that row with its
    metadata parsed. *)
Lemma Reward_create_spec (rewardData : reward_data) (w : world) :
  let row := Reward.new_row (uuid_supply w) (clock w) rewardData in
  Reward.create rewardData w =
    (Normal (Some (Reward.set_metadata
                     (MetaObject (match wd_metadata rewardData with
                                  | Some o => o | None => [] end)) row)),
     with_rewards (row :: rewards w) (with_uuid_supply (S (uuid_supply w)) w)).
Proof.
  unfold Reward.create, Reward.findById. unfold_async. simpl.
  rewrite Nat.eqb_refl. reflexivity.
Qed.

(** C9. A reward created without a currency is stored with currency USD,
    and every reward is stored with status pending, whatever its type; the
    row handed back to the caller says the same. *)
Theorem reward_created_in_usd_and_pending :
  forall (rewardData : reward_data) (w : world),
    wd_currency rewardData = None ->
    exists stored returned,
      rewards (snd (Reward.create rewardData w)) = stored :: rewards w
      /\ fst (Reward.create rewardData w) = Normal (Some returned)
      /\ rw_reward_type stored = wd_reward_type rewardData
      /\ rw_currency stored = "USD" /\ rw_status stored = pending
      /\ rw_id returned = rw_id stored
      /\ rw_currency returned = "USD" /\ rw_status returned = pending.
Proof.
  intros rewardData w Hcur.
  rewrite Reward_create_spec. simpl.
  eexists. eexists. split; [reflexivity|]. split; [reflexivity|].
  simpl. rewrite Hcur. simpl. repeat split; reflexivity.
Qed.

Lemma reward_created_in_usd_and_pending_witness :
  exists stored returned,
    rewards (snd (Reward.create (sample_reward_data loyalty_bonus) empty_world))
      = stored :: rewards empty_world
    /\ fst (Reward.create (sample_reward_data loyalty_bonus) empty_world)
       = Normal (Some returned)
    /\ rw_reward_type stored = loyalty_bonus
    /\ rw_currency stored = "USD" /\ rw_status stored = pending
    /\ rw_id returned = rw_id stored
    /\ rw_currency returned = "USD" /\ rw_status returned = pending.
Proof.
  apply (reward_created_in_usd_and_pending (sample_reward_data loyalty_bonus) empty_world).
  reflexivity.
Defined.

(** ** The trigger matcher *)

Lemma Qle_bool_false (a b : Q) : Qle_bool a b = false <-> (b < a)%Q.
Proof.
  split; intros H.
  - apply Qnot_le_lt. intros Hle. apply Qle_bool_iff in Hle. congruence.
  - destruct (Qle_bool a b) eqn:E; [|reflexivity].
    apply Qle_bool_iff in E. apply Qlt_not_le in H. contradiction.
Qed.



(** ** Validation of a referral-code request *)

Lemma jbind_value {A B} (c : Validator.joi_result A) (k : A -> Validator.joi_result B) v :
  Validator.jbind c k = Validator.JoiValue v ->
  exists a, c = Validator.JoiValue a /\ k a = Validator.JoiValue v.
Proof.
  destruct c as [key r|a]; simpl; intros H; [discriminate|].
  exists a. split; [reflexivity|exact H].
Qed.

Lemma rule_value key name b u :
  Validator.rule key name b = Validator.JoiValue u -> b = true.
Proof. unfold Validator.rule. destruct b; [reflexivity|discriminate]. Qed.

Lemma optional_value {A B} (x : option A) (k : A -> Validator.joi_result B) o :
  Validator.optional x k = Validator.JoiValue o ->
  match x with
  | None => o = None
  | Some a => exists b, k a = Validator.JoiValue b /\ o = Some b
  end.
Proof.
  destruct x as [a|]; simpl; intros H.
  - apply jbind_value in H. destruct H as [b [Hk Hb]].
    exists b. split; [exact Hk|]. now injection Hb as <-.
  - now injection H as <-.
Qed.

Lemma is_integer_spec (q : Q) :
  Validator.is_integer q = true -> exists z : Z, q == inject_Z z.
Proof.
  unfold Validator.is_integer. intros H. apply Qeq_bool_eq in H.
  exists (Qfloor q). symmetry. exact H.
Qed.

(** Rounding to two decimals cannot make a positive number of one that is
    not. *)
Lemma round2_positive (q : Q) : (0 < Validator.round2 q)%Q -> (0 < q)%Q.
Proof.
  unfold Validator.round2. intros H.
  destruct (Qlt_le_dec 0 q) as [Hpos|Hle]; [exact Hpos|exfalso].
  assert (Hf : (Qfloor (q * 100 + (1 # 2)) <= 0)%Z).
  { assert (Hlt : (inject_Z (Qfloor (q * 100 + (1 # 2))) < inject_Z 1)%Q).
    { apply Qle_lt_trans with (q * 100 + (1 # 2))%Q; [apply Qfloor_le|].
      change (inject_Z 1) with 1%Q. lra. }
    rewrite <- Zlt_Qlt in Hlt. lia. }
  assert (Hq : (inject_Z (Qfloor (q * 100 + (1 # 2))) <= 0)%Q).
  { change 0%Q with (inject_Z 0). rewrite <- Zle_Qle. exact Hf. }
  revert H Hq. generalize (inject_Z (Qfloor (q * 100 + (1 # 2)))). intros x H Hq.
  assert (Hx : (x / 100 <= 0)%Q).
  { unfold Qdiv. setoid_replace 0%Q with (0 * / 100)%Q by reflexivity.
    apply Qmult_le_compat_r; [exact Hq|]. discriminate. }
  apply Qlt_not_le in H. contradiction.
Qed.

(** C10. A referral-code request that validation accepts has, when it
    carries them, a max_usage that is an integer between 1 and 1000 and a
    strictly positive bonus_amount, and an expiry_date later than the time
    of the call; the value handed on has max_usage 50, bonus_type credit
    and minimum_order_amount 0 where the request left them out. *)
Theorem referral_code_request_accepted :
  forall (t : Z) (data : Validator.code_body) (value : Validator.code_value),
    Validator.validateReferralCode t data = Validator.JoiValue value ->
    (forall m, Validator.cb_max_usage data = Some m ->
       (exists z : Z, m == inject_Z z) /\ (1 <= m)%Q /\ (m <= 1000)%Q)
    /\ (forall b, Validator.cb_bonus_amount data = Some b -> (0 < b)%Q)
    /\ (forall d, Validator.cb_expiry_date data = Some d -> t < d)
    /\ (Validator.cb_max_usage data = None -> Validator.cv_max_usage value = 50%Q)
    /\ (Validator.cb_bonus_type data = None -> Validator.cv_bonus_type value = "credit")
    /\ (Validator.cb_minimum_order_amount data = None ->
        Validator.cv_minimum_order_amount value = 0%Q).
Proof.
  intros t data value H. unfold Validator.validateReferralCode in H.
  apply jbind_value in H. destruct H as [code [_ H]].
  apply jbind_value in H. destruct H as [max_usage [Hmax H]].
  apply jbind_value in H. destruct H as [bonus_amount [Hbonus H]].
  apply jbind_value in H. destruct H as [bonus_type [Htype H]].
  apply jbind_value in H. destruct H as [minimum [Hmin H]].
  apply jbind_value in H. destruct H as [expiry [Hexp H]].
  apply jbind_value in H. destruct H as [campaign_id [_ H]].
  injection H as <-. simpl.
  apply optional_value in Hmax, Hbonus, Htype, Hmin, Hexp.
  split; [|split; [|split; [|split; [|split]]]].
  - intros m Hm. rewrite Hm in Hmax. destruct Hmax as [b [Hk _]].
    apply jbind_value in Hk. destruct Hk as [q [Hsafe Hk]].
    unfold Validator.number_safe in Hsafe.
    apply jbind_value in Hsafe. destruct Hsafe as [? [_ Hsafe]].
    injection Hsafe as Hq. subst q.
    apply jbind_value in Hk. destruct Hk as [? [Hint Hk]].
    apply jbind_value in Hk. destruct Hk as [? [Hlo Hk]].
    apply jbind_value in Hk. destruct Hk as [? [Hhi _]].
    apply rule_value in Hint, Hlo, Hhi.
    split; [now apply is_integer_spec|].
    split; now apply Qle_bool_iff.
  - intros b Hb. rewrite Hb in Hbonus. destruct Hbonus as [b' [Hk _]].
    apply jbind_value in Hk. destruct Hk as [q [Hround Hk]].
    unfold Validator.number_precision2 in Hround.
    apply jbind_value in Hround. destruct Hround as [? [_ Hround]].
    injection Hround as Hq. subst q.
    apply jbind_value in Hk. destruct Hk as [? [Hpos _]].
    apply rule_value in Hpos. unfold Validator.Qlt_bool in Hpos.
    apply negb_true_iff, Qle_bool_false in Hpos.
    now apply round2_positive.
  - intros d Hd. rewrite Hd in Hexp. destruct Hexp as [d' [Hk _]].
    apply jbind_value in Hk. destruct Hk as [? [Hgt _]].
    apply rule_value in Hgt. now apply Z.ltb_lt.
  - intros Hnone. rewrite Hnone in Hmax. now subst.
  - intros Hnone. rewrite Hnone in Htype. now subst.
  - intros Hnone. rewrite Hnone in Hmin. now subst.
Qed.

Lemma referral_code_request_accepted_witness :
  exists value,
    Validator.validateReferralCode 1767225600000 sample_code_request
      = Validator.JoiValue value
    /\ (forall m, Validator.cb_max_usage sample_code_request = Some m ->
          (exists z : Z, m == inject_Z z) /\ (1 <= m)%Q /\ (m <= 1000)%Q)
    /\ (forall b, Validator.cb_bonus_amount sample_code_request = Some b -> (0 < b)%Q)
    /\ (forall d, Validator.cb_expiry_date sample_code_request = Some d ->
          1767225600000 < d)
    /\ (Validator.cb_max_usage sample_code_request = None ->
        Validator.cv_max_usage value = 50%Q)
    /\ (Validator.cb_bonus_type sample_code_request = None ->
        Validator.cv_bonus_type value = "credit")
    /\ (Validator.cb_minimum_order_amount sample_code_request = None ->
        Validator.cv_minimum_order_amount value = 0%Q).
Proof.
  eexists. split; [vm_compute; reflexivity|].
  apply (referral_code_request_accepted 1767225600000 sample_code_request).
  vm_compute. reflexivity.
Defined.

(** The defaults, on a request that supplies nothing. *)
Example bare_code_request_defaults :
  exists value,
    Validator.validateReferralCode 1767225600000 bare_code_request
      = Validator.JoiValue value
    /\ Validator.cv_max_usage value = 50%Q
    /\ Validator.cv_bonus_type value = "credit"
    /\ Validator.cv_minimum_order_amount value = 0%Q
    /\ Validator.cv_allow_multiple value = false.
Proof. eexists. split; [reflexivity|]. repeat split. Qed.

(** ** Claiming a reward *)

Lemma Reward_findById_reads (id : uuid) (w : world) :
  snd (Reward.findById id w) = w.
Proof.
  unfold Reward.findById. unfold_async.
  destruct (filter (fun r => Nat.eqb (rw_id r) id) (rewards w)) as [|r l]; [reflexivity|].
  destruct (Reward.parse_row r); reflexivity.
Qed.

Lemma Reward_findById_run (id : uuid) (w : world) :
  Reward.findById id w = (fst (Reward.findById id w), w).
Proof.
  rewrite <- (Reward_findById_reads id w) at 3.
  destruct (Reward.findById id w); reflexivity.
Qed.

(** C8. When the reward exists and belongs to another user, the claim is
    answered 403 Access denied and the world is left as it was: the
    reward keeps its status and no request is sent to the credit ledger
    or to the notification service.  A claim that changes the rewards or
    sends a request is one whose caller is the recipient of a pending
    reward. *)
Theorem claim_reward_only_by_recipient :
  forall (id : uuid) (caller : string) (w : world) (reward : reward_row),
    fst (Reward.findById id w) = Normal (Some reward) ->
    (rw_user_id reward <> caller ->
     RewardController.claimReward id caller w
       = (Normal (refuse 403 "Access denied"), w))
    /\ (rewards (snd (RewardController.claimReward id caller w)) <> rewards w
        \/ requests (snd (RewardController.claimReward id caller w)) <> requests w ->
        rw_user_id reward = caller /\ rw_status reward = pending).
Proof.
  intros id caller w reward Hfind.
  assert (Hother : rw_user_id reward <> caller ->
            RewardController.claimReward id caller w
              = (Normal (refuse 403 "Access denied"), w)).
  { intros Hne. unfold RewardController.claimReward, try_catch, bind.
    rewrite Reward_findById_run, Hfind.
    apply String.eqb_neq in Hne. rewrite Hne. reflexivity. }
  assert (Hsettled : rw_user_id reward = caller -> rw_status reward <> pending ->
            RewardController.claimReward id caller w
              = (Normal (refuse 400 "Reward cannot be claimed"), w)).
  { intros Heq Hst. unfold RewardController.claimReward, try_catch, bind.
    rewrite Reward_findById_run, Hfind.
    apply String.eqb_eq in Heq. rewrite Heq. simpl.
    destruct (reward_status_eqb (rw_status reward) pending) eqn:E.
    - apply reward_status_eqb_eq in E. contradiction.
    - reflexivity. }
  split; [exact Hother|].
  intros Hchanged.
  destruct (String.eqb_spec (rw_user_id reward) caller) as [Heq|Hne].
  - split; [exact Heq|].
    destruct (reward_status_eqb (rw_status reward) pending) eqn:E.
    + now apply reward_status_eqb_eq.
    + exfalso. rewrite Hsettled in Hchanged.
      * destruct Hchanged as [H|H]; apply H; reflexivity.
      * exact Heq.
      * intros Hp. rewrite Hp in E. discriminate.
  - exfalso. rewrite (Hother Hne) in Hchanged.
    destruct Hchanged as [H|H]; apply H; reflexivity.
Qed.

Lemma claim_reward_only_by_recipient_witness :
  RewardController.claimReward 0%nat alice pending_reward_world
    = (Normal (refuse 403 "Access denied"), pending_reward_world)
  /\ rw_user_id (Reward.set_metadata (MetaObject [("referrer_id", JString alice)])
                   sample_pending_reward) = bob
  /\ rw_status (Reward.set_metadata (MetaObject [("referrer_id", JString alice)])
                  sample_pending_reward) = pending.
Proof.
  split.
  - apply (proj1 (claim_reward_only_by_recipient 0%nat alice pending_reward_world
                    (Reward.set_metadata (MetaObject [("referrer_id", JString alice)])
                       sample_pending_reward) eq_refl)).
    vm_compute. discriminate.
  - apply (proj2 (claim_reward_only_by_recipient 0%nat bob pending_reward_world
                    (Reward.set_metadata (MetaObject [("referrer_id", JString alice)])
                       sample_pending_reward) eq_refl)).
    left. vm_compute. discriminate.
Defined.

(** The recipient's claim on that world: the reward is credited by the
    compare-and-set, then the ledger and the notification service are
    called. *)
Example claim_by_recipient_credits :
  let '(result, w') := RewardController.claimReward 0%nat bob pending_reward_world in
  (exists r, result = Normal (accept 200 "Reward claimed successfully" r)
             /\ rw_status r = credited)
  /\ map rw_status (rewards w') = [credited]
  /\ requests w' = [PostNotification bob "reward_credited"; PostCredit bob 10 0%nat].
Proof. vm_compute. split; [eexists; split; reflexivity|]. split; reflexivity. Qed.

(** ** Crediting a reward *)

Lemma Reward_findById_rewards (id : uuid) (w1 w2 : world) :
  rewards w1 = rewards w2 ->
  fst (Reward.findById id w1) = fst (Reward.findById id w2).
Proof.
  intros H. unfold Reward.findById. unfold_async. rewrite H.
  destruct (filter (fun r => Nat.eqb (rw_id r) id) (rewards w2)) as [|r l]; [reflexivity|].
  destruct (Reward.parse_row r); reflexivity.
Qed.

(** One call on a pending reward: the ledger is asked to credit, the call
    throws, and nothing but the list of requests sent has changed.  When
    the ledger answers, [creditUserAccount] resolves to [undefined] and
    reading [creditResult.success] throws; when it does not, the failure
    of the request is thrown. *)
Lemma creditReward_pending (rewardId : uuid) (w : world) (reward : reward_row) :
  fst (Reward.findById rewardId w) = Normal (Some reward) ->
  rw_status reward = pending ->
  exists e,
    RewardService.creditReward rewardId w
      = (Thrown e,
         with_requests
           (PostCredit (rw_user_id reward) (rw_amount reward) (rw_id reward)
              :: requests w) w).
Proof.
  intros Hfind Hst.
  unfold RewardService.creditReward, try_catch, bind.
  rewrite Reward_findById_run, Hfind, Hst. simpl.
  unfold ExternalServices.creditUserAccount, ExternalServices.makeRequest,
    try_catch, bind, throw, ret, sync. simpl.
  destruct (axios w (List.length (requests w))); simpl; eexists; reflexivity.
Qed.

(** On a reward that is no longer pending the call is a no-op: the reward
    is returned as read, nothing is written and no request is sent. *)
Lemma creditReward_settled (rewardId : uuid) (w : world) (reward : reward_row) :
  fst (Reward.findById rewardId w) = Normal (Some reward) ->
  rw_status reward <> pending ->
  RewardService.creditReward rewardId w = (Normal (Some reward), w).
Proof.
  intros Hfind Hst.
  unfold RewardService.creditReward, try_catch, bind.
  rewrite Reward_findById_run, Hfind.
  destruct (reward_status_eqb (rw_status reward) pending) eqn:E.
  - apply reward_status_eqb_eq in E. contradiction.
  - reflexivity.
Qed.

(** C1 (the code departs from the claim). However often [creditReward] is
    invoked on a pending reward, every call sends a credit request to the
    ledger and throws, and the reward is never moved to credited: [n]
    calls leave [n] credit requests and the rewards table as it was. *)
Theorem credit_reward_never_settles :
  forall (n : nat) (rewardId : uuid) (w : world) (reward : reward_row),
    fst (Reward.findById rewardId w) = Normal (Some reward) ->
    rw_status reward = pending ->
    rewards (snd (credit_repeatedly n rewardId w)) = rewards w
    /\ requests (snd (credit_repeatedly n rewardId w))
       = (repeat (PostCredit (rw_user_id reward) (rw_amount reward) (rw_id reward)) n
            ++ requests w)%list
    /\ List.length (fst (credit_repeatedly n rewardId w)) = n
    /\ Forall (fun r => exists e, r = Thrown e) (fst (credit_repeatedly n rewardId w)).
Proof.
  induction n as [|n IH]; intros rewardId w reward Hfind Hst.
  - simpl. repeat split. constructor.
  - destruct (creditReward_pending rewardId w reward Hfind Hst) as [e He].
    simpl. rewrite He.
    set (w1 := with_requests _ w).
    assert (Hfind1 : fst (Reward.findById rewardId w1) = Normal (Some reward)).
    { rewrite <- Hfind. apply Reward_findById_rewards. reflexivity. }
    specialize (IH rewardId w1 reward Hfind1 Hst).
    destruct (credit_repeatedly n rewardId w1) as [rs w2].
    simpl in *. destruct IH as [Hrw [Hrq [Hlen Hall]]].
    split; [exact Hrw|]. split.
    + rewrite Hrq. subst w1. simpl.
      clear. induction n as [|n IHn]; simpl; [reflexivity|]. now rewrite IHn.
    + split; [now rewrite Hlen|].
      constructor; [now exists e|exact Hall].
Qed.

Lemma credit_reward_never_settles_witness :
  rewards (snd (credit_repeatedly 2 0%nat pending_reward_world))
    = [sample_pending_reward]
  /\ requests (snd (credit_repeatedly 2 0%nat pending_reward_world))
     = [PostCredit bob 10 0%nat; PostCredit bob 10 0%nat]
  /\ List.length (fst (credit_repeatedly 2 0%nat pending_reward_world)) = 2%nat
  /\ Forall (fun r => exists e, r = Thrown e)
       (fst (credit_repeatedly 2 0%nat pending_reward_world)).
Proof.
  apply (credit_reward_never_settles 2 0%nat pending_reward_world
           (Reward.set_metadata (MetaObject [("referrer_id", JString alice)])
              sample_pending_reward)); reflexivity.
Defined.

(** The two calls, run: both end in the TypeError of reading [success]
    off [undefined], after the ledger has credited each time. *)
Example credit_twice_run :
  fst (credit_repeatedly 2 0%nat pending_reward_world)
    = [Thrown (TypeError "Cannot read properties of undefined (reading 'success')");
       Thrown (TypeError "Cannot read properties of undefined (reading 'success')")]
  /\ map rw_status (rewards (snd (credit_repeatedly 2 0%nat pending_reward_world)))
     = [pending].
Proof. vm_compute. split; reflexivity. Qed.

(** ** The expiry sweep of referrals *)

(** [Referral.updateStatus] writes the status it is given on the row with
    the given id, whatever status that row has. *)
Lemma Referral_updateStatus_writes (id : uuid) (status : referral_status) (w : world) :
  referrals (snd (Referral.updateStatus id status w))
    = map (fun r => if Nat.eqb (rf_id r) id then Referral.set_status status r else r)
          (referrals w).
Proof.
  unfold Referral.updateStatus, bind, modify. simpl.
  unfold Referral.findById, bind, gets, ret, sync. simpl.
  match goal with
  | |- context [filter ?f ?l] => destruct (filter f l) as [|r l']
  end; [reflexivity|].
  destruct (Referral.parse_row r); reflexivity.
Qed.

(** [Referral.completeReferral], by contrast, writes only on a pending
    row. *)
Lemma Referral_completeReferral_writes (id : uuid) (completionData : trigger_data)
  (w : world) :
  referrals (snd (Referral.completeReferral id completionData w))
    = map (fun r =>
             if Nat.eqb (rf_id r) id && referral_status_eqb (rf_status r) RefPending
             then Referral.set_completed (clock w)
                    (optstr_or_null (td_order_id completionData))
                    (optstr_or_null (td_delivery_id completionData)) r
             else r)
          (referrals w).
Proof.
  unfold Referral.completeReferral, bind, modify, gets, now. simpl.
  match goal with
  | |- context [Nat.ltb 0 ?n] => destruct (Nat.ltb 0 n)
  end; [|reflexivity].
  unfold Referral.findById, bind, gets, ret, sync. simpl.
  match goal with
  | |- context [filter ?f ?l] => destruct (filter f l) as [|r l']
  end; [reflexivity|].
  destruct (Referral.parse_row r); reflexivity.
Qed.

Lemma parse_row_held (r : referral_row) :
  held_as_text r -> exists r', Referral.parse_row r = Normal r'.
Proof.
  unfold held_as_text, Referral.parse_row.
  destruct (rf_metadata r); simpl; intros H; [eexists; reflexivity..|contradiction].
Qed.

Lemma Referral_updateStatus_run (id : uuid) (status : referral_status) (w : world) :
  Forall held_as_text (referrals w) ->
  exists r,
    Referral.updateStatus id status w
    = (Normal r,
       with_referrals
         (map (fun r => if Nat.eqb (rf_id r) id then Referral.set_status status r else r)
              (referrals w)) w).
Proof.
  intros Hheld.
  unfold Referral.updateStatus, bind, modify. simpl.
  unfold Referral.findById, bind, gets, ret, sync. simpl.
  match goal with
  | |- context [filter ?f ?l] => destruct (filter f l) as [|r l'] eqn:Hf
  end; [eexists; reflexivity|].
  assert (Hr : In r (filter (fun r => Nat.eqb (rf_id r) id)
                        (map (fun r => if Nat.eqb (rf_id r) id
                                       then Referral.set_status status r else r)
                             (referrals w)))).
  { rewrite Hf. now left. }
  apply filter_In in Hr. destruct Hr as [Hr _].
  apply in_map_iff in Hr. destruct Hr as [r0 [Hr0 Hin]].
  rewrite Forall_forall in Hheld. specialize (Hheld r0 Hin).
  assert (Hheld' : held_as_text r).
  { subst r. destruct (Nat.eqb (rf_id r0) id); exact Hheld. }
  destruct (parse_row_held r Hheld') as [r' Hr']. rewrite Hr'.
  eexists. reflexivity.
Qed.

(** The loop of the expiry job writes expired on every stored referral
    whose id is among the rows it was given, whatever the status of that
    referral has become since the rows were read. *)
Lemma expireReferrals_overwrites (rows : list referral_row) (w : world) :
  Forall held_as_text (referrals w) ->
  fst (CronJobService.expireReferrals rows w) = Normal tt
  /\ referrals (snd (CronJobService.expireReferrals rows w))
     = map (fun r => if existsb (fun row => Nat.eqb (rf_id r) (rf_id row)) rows
                     then Referral.set_status RefExpired r else r)
           (referrals w).
Proof.
  revert w. induction rows as [|row rows IH]; intros w Hheld.
  - simpl. split; [reflexivity|]. symmetry. apply map_id.
  - destruct (Referral_updateStatus_run (rf_id row) RefExpired w Hheld) as [r Hrun].
    set (w1 := with_referrals _ w) in Hrun.
    assert (Hstep : CronJobService.expireReferrals (row :: rows) w
                    = CronJobService.expireReferrals rows w1).
    { unfold CronJobService.expireReferrals. simpl. unfold bind.
      rewrite Hrun. reflexivity. }
    assert (Hheld1 : Forall held_as_text (referrals w1)).
    { subst w1. simpl. rewrite Forall_forall in *. intros x Hx.
      apply in_map_iff in Hx. destruct Hx as [x0 [Hx0 Hin]]. subst x.
      specialize (Hheld x0 Hin).
      destruct (Nat.eqb (rf_id x0) (rf_id row)); exact Hheld. }
    rewrite Hstep.
    destruct (IH w1 Hheld1) as [Hok Hrefs]. split; [exact Hok|].
    rewrite Hrefs. subst w1. simpl. rewrite map_map. apply map_ext.
    intros x. destruct (Nat.eqb (rf_id x) (rf_id row)) eqn:E; simpl.
    + destruct (existsb _ rows); reflexivity.
    + reflexivity.
Qed.

(** Run on its own, with nothing happening between its read and its
    writes, the job leaves alone every referral that is not pending. *)
Lemma referralExpiryJob_alone (w : world) (r : referral_row) :
  Forall held_as_text (referrals w) ->
  NoDup (map rf_id (referrals w)) ->
  In r (referrals w) ->
  rf_status r <> RefPending ->
  In r (referrals (snd (CronJobService.referralExpiryJob w))).
Proof.
  intros Hheld Hids Hin Hst.
  unfold CronJobService.referralExpiryJob, try_catch, bind.
  unfold Referral.getExpiredReferrals at 1. unfold gets at 1.
  set (rows := filter _ (referrals w)).
  destruct (expireReferrals_overwrites rows w Hheld) as [Hok Hrefs].
  destruct (CronJobService.expireReferrals rows w) as [c w'].
  simpl in Hok, Hrefs. subst c. simpl. rewrite Hrefs.
  apply in_map_iff. exists r. split; [|exact Hin].
  destruct (existsb _ rows) eqn:E; [exfalso|reflexivity].
  apply existsb_exists in E. destruct E as [row [Hrow Hid]].
  apply Nat.eqb_eq in Hid.
  subst rows. apply filter_In in Hrow. destruct Hrow as [Hrow Hsel].
  apply andb_true_iff in Hsel. destruct Hsel as [Hpending _].
  apply referral_status_eqb_eq in Hpending.
  assert (Hsame : r = row).
  { clear - Hids Hin Hrow Hid. induction (referrals w) as [|x l IH]; [contradiction|].
    simpl in Hids. inversion Hids as [|? ? Hnotin Hnodup]; subst.
    destruct Hin as [Hx|Hin], Hrow as [Hy|Hrow].
    - congruence.
    - subst x. exfalso. apply Hnotin. rewrite Hid. now apply in_map.
    - subst x. exfalso. apply Hnotin. rewrite <- Hid. now apply in_map.
    - now apply IH. }
  subst row. contradiction.
Qed.

(** C2 (the code departs from the claim). The expiry job reads the
    overdue pending referrals, and then writes expired on each of them by
    id alone.  Here the referral is completed by its referee's first order
    after the job has read it and before the job writes: the job's write
    moves the completed referral to expired. *)
Theorem expiry_sweep_overwrites_completed :
  let read := fst (Referral.getExpiredReferrals overdue_world) in
  let completed :=
    Referral.completeReferral 1%nat (sample_order bob (Some 20%Q)) overdue_world in
  let swept := CronJobService.expireReferrals [overdue_referral] (snd completed) in
  read = Normal [overdue_referral]
  /\ (exists r, fst completed = Normal (Some r) /\ rf_status r = RefCompleted)
  /\ map rf_status (referrals (snd completed)) = [RefCompleted]
  /\ fst swept = Normal tt
  /\ map rf_status (referrals (snd swept)) = [RefExpired].
Proof.
  vm_compute. split; [reflexivity|]. split; [eexists; split; reflexivity|].
  split; [reflexivity|]. split; reflexivity.
Qed.

(** ** Settling a campaign reward *)

Lemma find_bumped_campaign (id : uuid) (l : list campaign_row) :
  find (fun c => Nat.eqb (cp_id c) id)
       (map (fun c => if Nat.eqb (cp_id c) id then Campaign.bump_participants c else c) l)
  = option_map Campaign.bump_participants (find (fun c => Nat.eqb (cp_id c) id) l).
Proof.
  induction l as [|c l IH]; [reflexivity|]. simpl.
  destruct (Nat.eqb (cp_id c) id) eqn:E; simpl; rewrite E; [reflexivity|exact IH].
Qed.

(** The settlement of a campaign reward, as a function of the world. *)
Lemma processCampaignReward_run (userId userType : string) (campaignId : uuid)
  (customAmount : option Q) (customDescription : option string) (w : world) :
  RewardService.processCampaignReward userId userType campaignId
    customAmount customDescription w
  = match find (fun c => Nat.eqb (cp_id c) campaignId) (campaigns w) with
    | None => (Normal None, w)
    | Some c =>
        if negb (cp_is_active c)
           || (clock w <? cp_start_date c) || (cp_end_date c <? clock w)
           || match cp_max_participants c with
              | Some m => negb (m =? 0) && (m <=? cp_current_participants c)
              | None => false
              end
        then (Normal None, w)
        else
          let metadata :=
            [("campaign_id", JString (uuid_text campaignId));
             ("campaign_name", JString (cp_name c));
             ("campaign_type", JString (cp_campaign_type c))] in
          let row :=
            Reward.new_row (uuid_supply w) (clock w)
              {| wd_user_id := userId;
                 wd_user_type := userType;
                 wd_reward_type := campaign_bonus;
                 wd_amount := optnum_or customAmount (cp_bonus_amount c);
                 wd_currency := None;
                 wd_expiry_date := None;
                 wd_source_id := Some campaignId;
                 wd_source_type := src_campaign;
                 wd_description :=
                   Some (optstr_or customDescription ("Campaign bonus: " ++ cp_name c));
                 wd_metadata := Some metadata |} in
          (Normal (Some (Reward.set_metadata (MetaObject metadata) row)),
           with_campaigns
             (map (fun c => if Nat.eqb (cp_id c) campaignId
                            then Campaign.bump_participants c else c)
                  (campaigns w))
             (with_rewards (row :: rewards w)
                (with_uuid_supply (S (uuid_supply w)) w)))
    end.
Proof.
  unfold RewardService.processCampaignReward, try_catch, Campaign.findById.
  unfold bind at 1. unfold gets at 1.
  destruct (find (fun c => Nat.eqb (cp_id c) campaignId) (campaigns w)) as [c|];
    [|reflexivity].
  destruct (cp_is_active c); simpl; [|reflexivity].
  unfold bind at 1. unfold now, gets.
  destruct ((clock w <? cp_start_date c) || (cp_end_date c <? clock w)); simpl;
    [reflexivity|].
  match goal with
  | |- context [if ?b then ret None else _] => destruct b
  end; [reflexivity|].
  unfold bind at 1. rewrite Reward_create_spec.
  unfold bind, Campaign.incrementParticipants, modify, Campaign.findById, gets,
    sync, ret. simpl.
  reflexivity.
Qed.

(** No write of the Campaign model, and no settlement, stores a maximum of
    0 participants: a store without one stays without one. *)
Lemma campaign_writes_keep_no_zero_maximum (w : world) :
  no_zero_maximum w ->
  (forall campaignData, no_zero_maximum (snd (Campaign.create campaignData w)))
  /\ (forall id campaignData, no_zero_maximum (snd (Campaign.update id campaignData w)))
  /\ (forall id, no_zero_maximum (snd (Campaign.incrementParticipants id w)))
  /\ (forall id, no_zero_maximum (snd (Campaign.decrementParticipants id w)))
  /\ (forall id, no_zero_maximum (snd (Campaign.activateCampaign id w)))
  /\ (forall id, no_zero_maximum (snd (Campaign.deactivateCampaign id w)))
  /\ (forall id, no_zero_maximum (snd (Campaign.delete id w)))
  /\ (forall userId userType campaignId customAmount customDescription,
        no_zero_maximum
          (snd (RewardService.processCampaignReward userId userType campaignId
                  customAmount customDescription w))).
Proof.
  unfold no_zero_maximum. intros Hw.
  assert (Hmap : forall (p : campaign_row -> bool) (f : campaign_row -> campaign_row),
            (forall c, cp_max_participants c <> Some 0 ->
                       cp_max_participants (f c) <> Some 0) ->
            Forall (fun c => cp_max_participants c <> Some 0)
                   (map (fun c => if p c then f c else c) (campaigns w))).
  { intros p f Hf. rewrite Forall_forall in *. intros x Hx.
    apply in_map_iff in Hx. destruct Hx as [c [<- Hc]].
    destruct (p c); [apply Hf|]; now apply Hw. }
  assert (Hnew : forall m : option Z,
            match m with
            | Some m => if m =? 0 then None else Some m
            | None => None
            end <> Some 0).
  { intros [m|]; [|discriminate]. destruct (m =? 0) eqn:E; [discriminate|].
    intros H. injection H as ->. discriminate. }
  split; [|split; [|split; [|split; [|split; [|split; [|split]]]]]].
  - intros campaignData. simpl. constructor; [apply Hnew|exact Hw].
  - intros id campaignData. simpl. apply Hmap. intros c _. apply Hnew.
  - intros id. simpl. apply Hmap. intros c Hc. exact Hc.
  - intros id. simpl. apply Hmap. intros c Hc. exact Hc.
  - intros id. simpl. apply Hmap. intros c Hc. exact Hc.
  - intros id. simpl. apply Hmap. intros c Hc. exact Hc.
  - intros id. simpl. rewrite Forall_forall in *. intros x Hx.
    apply filter_In in Hx. apply Hw. tauto.
  - intros userId userType campaignId customAmount customDescription.
    rewrite processCampaignReward_run.
    destruct (find _ (campaigns w)) as [c|]; [|exact Hw].
    destruct (_ || _); [exact Hw|].
    simpl. apply Hmap. intros c0 Hc0. exact Hc0.
Qed.

(** C7. On a store whose campaigns are as the program writes them (none
    with a maximum of 0 participants), a settlement request for a
    campaign that is missing, inactive, outside its window (ends
    included), or whose count of participants has reached its maximum,
    returns null and leaves the world as it was: no reward, no increment.
    Any other request creates a pending campaign_bonus reward for the
    user, with the campaign as its source, and adds one to the campaign's
    count of participants. *)
Theorem campaign_settlement_guard :
  forall (userId userType : string) (campaignId : uuid) (customAmount : option Q)
         (customDescription : option string) (w : world),
    no_zero_maximum w ->
    match find (fun c => Nat.eqb (cp_id c) campaignId) (campaigns w) with
    | None =>
        RewardService.processCampaignReward userId userType campaignId
          customAmount customDescription w = (Normal None, w)
    | Some c =>
        (cp_is_active c = false \/ clock w < cp_start_date c \/ cp_end_date c < clock w
         \/ (exists m, cp_max_participants c = Some m
                       /\ m <= cp_current_participants c) ->
         RewardService.processCampaignReward userId userType campaignId
           customAmount customDescription w = (Normal None, w))
        /\ (cp_is_active c = true ->
            cp_start_date c <= clock w <= cp_end_date c ->
            (forall m, cp_max_participants c = Some m -> cp_current_participants c < m) ->
            exists stored returned c',
              fst (RewardService.processCampaignReward userId userType campaignId
                     customAmount customDescription w) = Normal (Some returned)
              /\ rewards (snd (RewardService.processCampaignReward userId userType
                                 campaignId customAmount customDescription w))
                 = stored :: rewards w
              /\ rw_id returned = rw_id stored
              /\ rw_reward_type stored = campaign_bonus
              /\ rw_status stored = pending
              /\ rw_user_id stored = userId
              /\ rw_source_id stored = Some campaignId
              /\ find (fun c => Nat.eqb (cp_id c) campaignId)
                      (campaigns (snd (RewardService.processCampaignReward userId userType
                                         campaignId customAmount customDescription w)))
                 = Some c'
              /\ cp_current_participants c' = cp_current_participants c + 1)
    end.
Proof.
  intros userId userType campaignId customAmount customDescription w Hstore.
  rewrite processCampaignReward_run.
  destruct (find (fun c => Nat.eqb (cp_id c) campaignId) (campaigns w)) as [c|] eqn:Hfind;
    [|reflexivity].
  assert (Hnz : forall m, cp_max_participants c = Some m -> (m =? 0) = false).
  { intros m Hm. apply Z.eqb_neq. intros ->.
    apply find_some in Hfind. destruct Hfind as [Hin _].
    unfold no_zero_maximum in Hstore. rewrite Forall_forall in Hstore.
    now apply (Hstore c Hin). }
  split.
  - intros Hrefused.
    destruct Hrefused as [Hin|[Hearly|[Hlate|[m [Hmax Hfull]]]]].
    + rewrite Hin. reflexivity.
    + apply Z.ltb_lt in Hearly. rewrite Hearly, orb_true_r. reflexivity.
    + apply Z.ltb_lt in Hlate. rewrite Hlate, orb_true_r. reflexivity.
    + rewrite Hmax, (Hnz m Hmax). apply Z.leb_le in Hfull.
      rewrite Hfull, orb_true_r. reflexivity.
  - intros Hact [Hstart Hend] Hroom.
    assert (Hs : (clock w <? cp_start_date c) = false) by (apply Z.ltb_ge; lia).
    assert (He : (cp_end_date c <? clock w) = false) by (apply Z.ltb_ge; lia).
    assert (Hcap : match cp_max_participants c with
                   | Some m => negb (m =? 0) && (m <=? cp_current_participants c)
                   | None => false
                   end = false).
    { destruct (cp_max_participants c) as [m|]; [|reflexivity].
      specialize (Hroom m eq_refl). apply Z.leb_gt in Hroom.
      rewrite Hroom. apply andb_false_r. }
    rewrite Hact, Hs, He, Hcap. simpl.
    eexists. eexists. eexists.
    split; [reflexivity|]. split; [reflexivity|].
    repeat (split; [reflexivity|]).
    rewrite find_bumped_campaign, Hfind. simpl. split; reflexivity.
Qed.

(** The scenario: a campaign with a maximum of 1 participant that has 1
    returns null; with a maximum of 5 it is settled. *)
Lemma campaign_settlement_guard_witness :
  RewardService.processCampaignReward bob "customer" 3%nat None None
    (campaign_world (Some 1) 1)
  = (Normal None, campaign_world (Some 1) 1)
  /\ exists stored returned c',
       fst (RewardService.processCampaignReward bob "customer" 3%nat None None
              (campaign_world (Some 5) 1)) = Normal (Some returned)
       /\ rewards (snd (RewardService.processCampaignReward bob "customer" 3%nat None None
                          (campaign_world (Some 5) 1)))
          = stored :: rewards (campaign_world (Some 5) 1)
       /\ rw_id returned = rw_id stored
       /\ rw_reward_type stored = campaign_bonus
       /\ rw_status stored = pending
       /\ rw_user_id stored = bob
       /\ rw_source_id stored = Some 3%nat
       /\ find (fun c => Nat.eqb (cp_id c) 3%nat)
               (campaigns (snd (RewardService.processCampaignReward bob "customer" 3%nat
                                  None None (campaign_world (Some 5) 1))))
          = Some c'
       /\ cp_current_participants c' = cp_current_participants (sample_campaign (Some 5) 1) + 1.
Proof.
  split.
  - apply (proj1 (campaign_settlement_guard bob "customer" 3%nat None None
                    (campaign_world (Some 1) 1)
                    ltac:(repeat constructor; discriminate))).
    right. right. right. exists 1. simpl. split; [reflexivity|lia].
  - apply (proj2 (campaign_settlement_guard bob "customer" 3%nat None None
                    (campaign_world (Some 5) 1)
                    ltac:(repeat constructor; discriminate))).
    + reflexivity.
    + simpl. lia.
    + simpl. intros m Hm. injection Hm as <-. lia.
Defined.

(** ** Milestone rewards *)

(** A row that a reader has parsed holds no JSON text any more. *)
Lemma parse_row_parsed (r r' : reward_row) :
  Reward.parse_row r = Normal r' ->
  match rw_metadata r' with MetaText _ => False | _ => True end.
Proof.
  unfold Reward.parse_row. destruct (rw_metadata r) as [|doc|doc] eqn:E; simpl.
  - intros H. injection H as <-. rewrite E. exact I.
  - intros H. injection H as <-. exact I.
  - discriminate.
Qed.

Lemma map_sync_parsed (rows rows' : list reward_row) :
  map_sync Reward.parse_row rows = Normal rows' ->
  Forall (fun r' => match rw_metadata r' with MetaText _ => False | _ => True end) rows'.
Proof.
  revert rows'. induction rows as [|r rows IH]; simpl; intros rows' H.
  - injection H as <-. constructor.
  - destruct (Reward.parse_row r) as [r'|e] eqn:Hr; [|discriminate].
    destruct (map_sync Reward.parse_row rows) as [rs|e]; [|discriminate].
    injection H as <-. constructor; [now apply parse_row_parsed in Hr|now apply IH].
Qed.

(** On the rows [Reward.findByUser] returns, the scan for an existing
    milestone reward never answers yes: on a milestone reward with
    metadata it parses the parsed metadata again, and throws. *)
Lemma milestone_scan_never_finds (userId : string) (status : option reward_status)
  (limit offset : nat) (w : world) (rows : list reward_row) (milestone : Z) :
  fst (Reward.findByUser userId status limit offset w) = Normal rows ->
  some_sync (RewardService.is_milestone_reward milestone) rows <> Normal true.
Proof.
  unfold Reward.findByUser, bind, gets, sync. simpl. intros H.
  apply map_sync_parsed in H.
  induction H as [|r rows Hr _ IH]; simpl; [discriminate|].
  unfold RewardService.is_milestone_reward.
  destruct (reward_type_eqb (rw_reward_type r) milestone_bonus); [|exact IH].
  destruct (rw_metadata r) as [|doc|doc]; simpl; [exact IH|contradiction|discriminate].
Qed.

(** C3 (the code departs from the claim). With the milestone reward among
    the user's rewards, a repeated [processMilestoneReward] does not find
    it by its key: the scan throws on it, and the call fails.  And once a
    thousand newer rewards stand before it, the scan (the 1000 most recent
    rewards) does not reach it: the repeated check, at the same count of
    five completed referrals, stores a second milestone reward for the
    same threshold. *)
Theorem milestone_reward_granted_twice :
  fst (RewardService.processMilestoneReward alice "customer" 5 [] milestone_world)
    = Thrown (SyntaxError "Unexpected token o in JSON at position 1")
  /\ rewards (snd (RewardService.processMilestoneReward alice "customer" 5 []
                     milestone_world))
     = rewards milestone_world
  /\ (exists stats,
        fst (Referral.getReferralStats alice crowded_world) = Normal stats
        /\ completed_referrals stats = 5)
  /\ List.length (milestone_rewards alice 5 crowded_world) = 1%nat
  /\ fst (RewardService.checkMilestoneAchievements alice "customer" crowded_world)
     = Normal []
  /\ List.length
       (milestone_rewards alice 5
          (snd (RewardService.checkMilestoneAchievements alice "customer" crowded_world)))
     = 2%nat.
Proof.
  split; [vm_compute; reflexivity|].
  split; [vm_compute; reflexivity|].
  split; [eexists; split; vm_compute; reflexivity|].
  split; [vm_compute; reflexivity|].
  split; vm_compute; reflexivity.
Qed.

(** ** Creating a referral *)

Lemma Referral_create_run (referralData : referral_data) (w : world) :
  Referral.create referralData w =
    let row := Referral.new_row (uuid_supply w) (clock w) (env w) referralData in
    if existsb (Referral.same_unique_referral row) (referrals w)
    then (Thrown (ER_DUP_ENTRY "unique_referral"), with_uuid_supply (S (uuid_supply w)) w)
    else (Normal (Some (Referral.set_metadata
                          (MetaObject (match rd_metadata referralData with
                                       | Some o => o | None => [] end)) row)),
          with_referrals (row :: referrals w) (with_uuid_supply (S (uuid_supply w)) w)).
Proof.
  unfold Referral.create, Referral.insert, Referral.findById.
  unfold bind, uuidv4, now, gets, ret, sync. simpl.
  destruct (existsb _ (referrals w)); [reflexivity|].
  simpl. rewrite Nat.eqb_refl. reflexivity.
Qed.

(** Notifications never fail their caller and touch nothing but the list
    of requests sent. *)
Lemma sendNotification_run (userId type : string) (w : world) :
  ExternalServices.sendNotification userId type w
    = (Normal tt, with_requests (PostNotification userId type :: requests w) w).
Proof.
  unfold ExternalServices.sendNotification, ExternalServices.makeRequest, try_catch, ret.
  destruct (axios w (List.length (requests w))); reflexivity.
Qed.

Lemma sendReferralNotifications_run (referral : referral_row) (w : world) :
  ReferralController.sendReferralNotifications referral w
    = (Normal tt,
       with_requests
         (PostNotification (rf_referee_id referral) "referral_received"
            :: PostNotification (rf_referrer_id referral) "referral_created"
            :: requests w) w).
Proof.
  unfold ReferralController.sendReferralNotifications, try_catch, bind.
  rewrite sendNotification_run. rewrite sendNotification_run. reflexivity.
Qed.

(** [createReferral], as a function of the world: a request is refused
    with 400 or 409, or the handler fails at [Campaign.findActive] and
    answers 500; in every case nothing is written. *)
Lemma createReferral_run (body : Validator.referral_body) (w : world) :
  ReferralController.createReferral body w =
    match Validator.validateReferral body with
    | Validator.JoiError _ _ => (Normal (refuse 400 "Validation error"), w)
    | Validator.JoiValue value =>
        match find (fun c => String.eqb (rc_code c) (Validator.rv_referral_code value)
                             && ReferralCode.usable (clock w) c)
                   (referral_codes w) with
        | None => (Normal (refuse 400 "Invalid or expired referral code"), w)
        | Some referralCode =>
            if String.eqb (rc_owner_id referralCode) (Validator.rv_referee_id value)
            then (Normal (refuse 400 "Cannot refer yourself"), w)
            else
              match map_sync Referral.parse_row
                      (filter (fun r => String.eqb (rf_referee_id r)
                                          (Validator.rv_referee_id value))
                              (referrals w)) with
              | Thrown _ => (Normal (refuse 500 "Internal server error"), w)
              | Normal existingReferrals =>
                  match find (fun r =>
                                String.eqb (rf_referrer_id r) (rc_owner_id referralCode)
                                && String.eqb (rf_referrer_type r)
                                     (rc_owner_type referralCode))
                             existingReferrals with
                  | Some _ =>
                      (Normal (refuse 409 "Referral already exists between these users"), w)
                  | None => (Normal (refuse 500 "Internal server error"), w)
                  end
              end
        end
    end.
Proof.
  unfold ReferralController.createReferral, try_catch.
  destruct (Validator.validateReferral body) as [key rule|value]; [reflexivity|].
  unfold bind at 1. unfold ReferralCode.validateCode at 1. unfold gets at 1.
  destruct (find _ (referral_codes w)) as [referralCode|]; [|reflexivity].
  destruct (String.eqb (rc_owner_id referralCode) (Validator.rv_referee_id value));
    [reflexivity|].
  unfold bind at 1. unfold Referral.findByReferee at 1.
  unfold bind at 1. unfold gets at 1. unfold sync at 1.
  destruct (map_sync Referral.parse_row _) as [existingReferrals|e]; [|reflexivity].
  destruct (find _ existingReferrals) as [r|]; [reflexivity|].
  unfold bind at 1. unfold Campaign.findActive at 1. unfold throw at 1.
  reflexivity.
Qed.

Lemma same_unique_referral_spec (a b : referral_row) :
  Referral.same_unique_referral a b = true
  <-> Referral.unique_referral a = Referral.unique_referral b.
Proof.
  unfold Referral.same_unique_referral, Referral.unique_referral.
  rewrite !andb_true_iff, !String.eqb_eq. split.
  - intros [[[H1 H2] H3] H4]. now rewrite H1, H2, H3, H4.
  - intros H. injection H as H1 H2 H3 H4. auto.
Qed.

Lemma unique_referral_fresh (row : referral_row) (l : list referral_row) :
  existsb (Referral.same_unique_referral row) l = false ->
  ~ In (Referral.unique_referral row) (map Referral.unique_referral l).
Proof.
  intros H Hin. apply in_map_iff in Hin. destruct Hin as [r [Hkey Hr]].
  assert (Ht : existsb (Referral.same_unique_referral row) l = true).
  { apply existsb_exists. exists r. split; [exact Hr|].
    apply same_unique_referral_spec. now symmetry. }
  congruence.
Qed.

Lemma map_sync_parse_stored (l : list referral_row) :
  Forall held_as_text l ->
  map_sync Referral.parse_row l = Normal (map parsed_referral l).
Proof.
  induction 1 as [|r l Hr _ IH]; [reflexivity|]. simpl. rewrite IH.
  unfold held_as_text in Hr. unfold Referral.parse_row, parsed_referral.
  destruct (rf_metadata r); simpl; [reflexivity|reflexivity|contradiction].
Qed.

Lemma find_some_of_In {A} (p : A -> bool) (l : list A) (x : A) :
  In x l -> p x = true -> find p l <> None.
Proof.
  intros Hin Hp Hnone. apply (find_none p l Hnone) in Hin. congruence.
Qed.

(** The writes on the status of a referral leave the columns of the
    unique key alone. *)
Lemma status_writes_keep_unique_referral (id : uuid) (status : referral_status)
  (completionData : trigger_data) (w : world) :
  map Referral.unique_referral (referrals (snd (Referral.updateStatus id status w)))
    = map Referral.unique_referral (referrals w)
  /\ map Referral.unique_referral
       (referrals (snd (Referral.completeReferral id completionData w)))
     = map Referral.unique_referral (referrals w).
Proof.
  rewrite Referral_updateStatus_writes, Referral_completeReferral_writes, !map_map.
  split; apply map_ext; intros r.
  - destruct (Nat.eqb (rf_id r) id); reflexivity.
  - destruct (Nat.eqb (rf_id r) id && referral_status_eqb (rf_status r) RefPending);
      reflexivity.
Qed.

(** C4. Creating referrals keeps the referrals distinct on (referrer_id,
    referee_id, referrer_type, referee_type).  And a valid request, whose
    code resolves to an owner other than the referee, is answered 409 and
    changes nothing whenever the store holds a referral of that referee
    by that owner in that role, whatever code that referral was made
    with. *)
Theorem one_referral_per_pair :
  forall (body : Validator.referral_body) (w : world),
    (NoDup (map Referral.unique_referral (referrals w)) ->
     NoDup (map Referral.unique_referral
              (referrals (snd (ReferralController.createReferral body w)))))
    /\ (forall value referralCode existing,
          Validator.validateReferral body = Validator.JoiValue value ->
          fst (ReferralCode.validateCode (Validator.rv_referral_code value) w)
            = Normal (Some referralCode) ->
          rc_owner_id referralCode <> Validator.rv_referee_id value ->
          Forall held_as_text (referrals w) ->
          In existing (referrals w) ->
          rf_referee_id existing = Validator.rv_referee_id value ->
          rf_referrer_id existing = rc_owner_id referralCode ->
          rf_referrer_type existing = rc_owner_type referralCode ->
          ReferralController.createReferral body w
            = (Normal (refuse 409 "Referral already exists between these users"), w)).
Proof.
  intros body w. rewrite createReferral_run. split.
  - intros Hnodup.
    destruct (Validator.validateReferral body) as [key rule|value]; [exact Hnodup|].
    destruct (find _ (referral_codes w)) as [referralCode|]; [|exact Hnodup].
    destruct (String.eqb _ _); [exact Hnodup|].
    destruct (map_sync _ _) as [existingReferrals|e]; [|exact Hnodup].
    destruct (find _ existingReferrals); exact Hnodup.
  - intros value referralCode existing Hvalid Hcode Hself Hstore Hin Hee Her Hrt.
    rewrite Hvalid.
    unfold ReferralCode.validateCode, gets in Hcode. simpl in Hcode.
    injection Hcode as Hcode. rewrite Hcode.
    apply String.eqb_neq in Hself. rewrite Hself.
    rewrite map_sync_parse_stored.
    2:{ apply Forall_forall. intros r Hr. apply filter_In in Hr.
        rewrite Forall_forall in Hstore. apply Hstore. tauto. }
    destruct (find _ (map parsed_referral _)) eqn:Hfind; [reflexivity|exfalso].
    revert Hfind. apply find_some_of_In with (x := parsed_referral existing).
    + apply in_map. apply filter_In. split; [exact Hin|].
      rewrite Hee. apply String.eqb_refl.
    + unfold parsed_referral. destruct (rf_metadata existing); simpl;
        rewrite Her, Hrt, !String.eqb_refl; reflexivity.
Qed.

Lemma one_referral_per_pair_witness :
  NoDup (map Referral.unique_referral
           (referrals (snd (ReferralController.createReferral sample_referral_request
                              (code_world [] [])))))
  /\ ReferralController.createReferral sample_referral_request
       (code_world [] [sample_referral None])
     = (Normal (refuse 409 "Referral already exists between these users"),
        code_world [] [sample_referral None]).
Proof.
  split.
  - apply (proj1 (one_referral_per_pair sample_referral_request (code_world [] []))).
    constructor.
  - apply (proj2 (one_referral_per_pair sample_referral_request
                    (code_world [] [sample_referral None]))
             sample_referral_value sample_code (sample_referral None)).
    + reflexivity.
    + reflexivity.
    + vm_compute. discriminate.
    + repeat constructor.
    + left. reflexivity.
    + reflexivity.
    + reflexivity.
    + reflexivity.
Defined.

(** The same referee cannot be referred again by the same owner through
    another of the owner's codes: the existing referral was made with
    code CUSOLD001 and is completed, the request presents CUS7F3K2A. *)
Example second_code_same_owner_conflict :
  fst (ReferralController.createReferral sample_referral_request
         (code_world [] [Referral.set_status RefCompleted
                           (sample_referral_via "CUSOLD001" None)]))
  = Normal (refuse 409 "Referral already exists between these users").
Proof. reflexivity. Qed.

Lemma validateReferral_value (body : Validator.referral_body)
  (value : Validator.referral_value) :
  Validator.validateReferral body = Validator.JoiValue value ->
  Validator.rb_referral_code body = Some (Validator.rv_referral_code value)
  /\ Validator.rb_referee_id body = Some (Validator.rv_referee_id value)
  /\ Validator.rb_referee_type body = Some (Validator.rv_referee_type value).
Proof.
  unfold Validator.validateReferral. intros H.
  destruct (Validator.rb_referral_code body) as [c|]; [|discriminate].
  destruct (Validator.rb_referee_id body) as [i|]; simpl in H.
  2:{ destruct (Validator.string_max _ _ _); discriminate. }
  destruct (Validator.rb_referee_type body) as [t|]; simpl in H.
  2:{ destruct (Validator.string_max _ _ _); [discriminate|]. simpl in H.
      destruct (Validator.string_uuid _ _); discriminate. }
  unfold Validator.string_max, Validator.string_uuid, Validator.string_valid,
    Validator.rule in H.
  repeat match type of H with
         | context [if ?b then _ else _] => destruct b; simpl in H; try discriminate
         end.
  injection H as <-. simpl. auto.
Qed.

(** C6 (the code departs from the claim). The scenario: the code
    CUS7F3K2A of [alice], unused out of 50 uses, presented by [bob], a
    customer.  The request is valid and the code resolves to its owner,
    who is not the referee, and no referral exists between them; the
    handler then calls [Campaign.findActive], which the Campaign model
    does not define, and answers 500 Internal server error, whatever
    campaigns the store holds.  No referral is stored, the code is not
    used and no notification is sent.  No request at all is answered
    201, and none changes the world. *)
Theorem referral_creation_answers_500 :
  Validator.validateReferral sample_referral_request
    = Validator.JoiValue sample_referral_value
  /\ fst (ReferralCode.validateCode "CUS7F3K2A" (code_world [] []))
     = Normal (Some sample_code)
  /\ (forall campaigns,
        ReferralController.createReferral sample_referral_request (code_world campaigns [])
        = (Normal (refuse 500 "Internal server error"), code_world campaigns []))
  /\ (forall body w,
        exists resp,
          ReferralController.createReferral body w = (Normal resp, w)
          /\ status_code resp <> 201).
Proof.
  split; [reflexivity|]. split; [reflexivity|]. split.
  - intros campaigns. reflexivity.
  - intros body w. rewrite createReferral_run.
    destruct (Validator.validateReferral body) as [key rule|value].
    { eexists. split; [reflexivity|discriminate]. }
    destruct (find _ (referral_codes w)) as [referralCode|].
    2:{ eexists. split; [reflexivity|discriminate]. }
    destruct (String.eqb _ _).
    { eexists. split; [reflexivity|discriminate]. }
    destruct (map_sync _ _) as [existingReferrals|e].
    2:{ eexists. split; [reflexivity|discriminate]. }
    destruct (find _ existingReferrals); eexists; (split; [reflexivity|discriminate]).
Qed.

(** ** The compare-and-set writes of the models *)

Lemma with_rewards_same (w : world) : with_rewards (rewards w) w = w.
Proof. destruct w; reflexivity. Qed.

Lemma with_referrals_same (w : world) : with_referrals (referrals w) w = w.
Proof. destruct w; reflexivity. Qed.

Lemma with_referral_codes_same (w : world) : with_referral_codes (referral_codes w) w = w.
Proof. destruct w; reflexivity. Qed.

Lemma with_campaigns_same (w : world) : with_campaigns (campaigns w) w = w.
Proof. destruct w; reflexivity. Qed.

Lemma map_if_false {A} (p : A -> bool) (f : A -> A) (l : list A) :
  filter p l = [] -> map (fun x => if p x then f x else x) l = l.
Proof.
  induction l as [|x l IH]; [reflexivity|]. simpl.
  destruct (p x); [discriminate|]. intros H. now rewrite IH.
Qed.

Lemma filter_map_if_none {A} (p : A -> bool) (f : A -> A) (l : list A) :
  (forall x, p x = true -> p (f x) = false) ->
  filter p (map (fun x => if p x then f x else x) l) = [].
Proof.
  intros Hf. induction l as [|x l IH]; [reflexivity|]. simpl.
  destruct (p x) eqn:E.
  - rewrite (Hf x E). exact IH.
  - rewrite E. exact IH.
Qed.

(** The state [Reward.creditReward] leaves: the pending rows of that id
    are credited at the time of the call. *)
Lemma Reward_creditReward_writes (id : uuid) (w : world) :
  snd (Reward.creditReward id w)
  = with_rewards
      (map (fun r => if Nat.eqb (rw_id r) id && reward_status_eqb (rw_status r) pending
                     then Reward.set_credited (clock w) r else r)
           (rewards w)) w.
Proof.
  unfold Reward.creditReward, bind, modify, gets, now, ret. simpl.
  match goal with
  | |- context [Nat.ltb 0 ?n] => destruct (Nat.ltb 0 n)
  end; [|reflexivity].
  apply Reward_findById_reads.
Qed.

(** X1. [Reward.creditReward] is a compare-and-set on the status: after
    one call on an id, whatever it found, a second call on that id answers
    [null] and leaves the world as it is.  The call leaves alone every
    reward that is not pending, and leaves no reward of that id pending. *)
Theorem Reward_creditReward_at_most_once :
  forall (id : uuid) (w : world),
    let w1 := snd (Reward.creditReward id w) in
    Reward.creditReward id w1 = (Normal None, w1)
    /\ (forall r, In r (rewards w) -> rw_status r <> pending -> In r (rewards w1))
    /\ (forall r, In r (rewards w1) -> rw_id r = id -> rw_status r <> pending).
Proof.
  intros id w w1. subst w1. rewrite Reward_creditReward_writes.
  set (p := fun r => Nat.eqb (rw_id r) id && reward_status_eqb (rw_status r) pending).
  set (f := Reward.set_credited (clock w)).
  assert (Hpf : forall x, p x = true -> p (f x) = false).
  { intros x _. unfold p, f. simpl. apply andb_false_r. }
  split; [|split].
  - unfold Reward.creditReward, bind, modify, gets, now, ret. simpl.
    fold p. rewrite (filter_map_if_none p f _ Hpf). simpl.
    rewrite map_if_false; [reflexivity|]. apply filter_map_if_none, Hpf.
  - intros r Hin Hst. simpl. apply in_map_iff. exists r. split; [|exact Hin].
    assert (E : p r = false).
    { unfold p. apply andb_false_iff. right.
      apply not_true_is_false. intros E. apply reward_status_eqb_eq in E. contradiction. }
    change ((if p r then f r else r) = r). rewrite E. reflexivity.
  - intros r Hin Hid Hst. simpl in Hin. apply in_map_iff in Hin.
    destruct Hin as [x [Hx _]].
    assert (Hx' : (if p x then f x else x) = r) by exact Hx. clear Hx.
    destruct (p x) eqn:E.
    + subst r. unfold f in Hst. simpl in Hst. discriminate.
    + subst r. unfold p in E. rewrite Hst in E.
      apply Nat.eqb_eq in Hid. rewrite Hid in E. discriminate.
Qed.

(** The state [Referral.completeReferral] leaves and what it answers when
    no pending row has that id. *)
Lemma Referral_completeReferral_settled (id : uuid) (completionData : trigger_data)
  (w : world) :
  filter (fun r => Nat.eqb (rf_id r) id && referral_status_eqb (rf_status r) RefPending)
         (referrals w) = [] ->
  Referral.completeReferral id completionData w = (Normal None, w).
Proof.
  intros H. unfold Referral.completeReferral, bind, modify, gets, now, ret. simpl.
  rewrite H. simpl. rewrite map_if_false; [|exact H].
  now rewrite with_referrals_same.
Qed.

(** X2. [Referral.completeReferral] writes on pending referrals only: a
    referral that is completed, expired or cancelled stays as it is, no
    referral of that id is pending afterwards, and a second completion of
    the same id, with whatever evidence, answers [null] and changes
    nothing. *)
Theorem Referral_completeReferral_only_pending :
  forall (id : uuid) (completionData again : trigger_data) (w : world),
    let w1 := snd (Referral.completeReferral id completionData w) in
    Referral.completeReferral id again w1 = (Normal None, w1)
    /\ (forall r, In r (referrals w) -> rf_status r <> RefPending -> In r (referrals w1))
    /\ (forall r, In r (referrals w1) -> rf_id r = id -> rf_status r <> RefPending).
Proof.
  intros id completionData again w w1.
  set (p := fun r => Nat.eqb (rf_id r) id && referral_status_eqb (rf_status r) RefPending).
  set (f := Referral.set_completed (clock w)
              (optstr_or_null (td_order_id completionData))
              (optstr_or_null (td_delivery_id completionData))).
  assert (Hw1 : referrals w1 = map (fun r => if p r then f r else r) (referrals w)).
  { subst w1. apply Referral_completeReferral_writes. }
  assert (Hpf : forall x, p x = true -> p (f x) = false).
  { intros x _. unfold p, f. simpl. apply andb_false_r. }
  split; [|split].
  - apply Referral_completeReferral_settled. rewrite Hw1.
    apply filter_map_if_none, Hpf.
  - intros r Hin Hst. rewrite Hw1. apply in_map_iff. exists r. split; [|exact Hin].
    assert (E : p r = false).
    { unfold p. apply andb_false_iff. right.
      apply not_true_is_false. intros E. apply referral_status_eqb_eq in E. contradiction. }
    change ((if p r then f r else r) = r). rewrite E. reflexivity.
  - intros r Hin Hid Hst. rewrite Hw1 in Hin. apply in_map_iff in Hin.
    destruct Hin as [x [Hx _]].
    assert (Hx' : (if p x then f x else x) = r) by exact Hx. clear Hx.
    destruct (p x) eqn:E.
    + subst r. unfold f in Hst. simpl in Hst. discriminate.
    + subst r. unfold p in E. rewrite Hst in E.
      apply Nat.eqb_eq in Hid. rewrite Hid in E. discriminate.
Qed.

Lemma Reward_parse_row_held (r : reward_row) :
  reward_held_as_text r -> exists r', Reward.parse_row r = Normal r'.
Proof.
  unfold reward_held_as_text, Reward.parse_row.
  destruct (rw_metadata r); simpl; intros H; [eexists; reflexivity..|contradiction].
Qed.

Lemma Reward_updateStatus_run (id : uuid) (status : reward_status) (w : world) :
  Forall reward_held_as_text (rewards w) ->
  exists r,
    Reward.updateStatus id status w
    = (Normal r,
       with_rewards
         (map (fun r => if Nat.eqb (rw_id r) id then Reward.set_status status r else r)
              (rewards w)) w).
Proof.
  intros Hheld.
  unfold Reward.updateStatus, bind, modify. simpl.
  unfold Reward.findById, bind, gets, ret, sync. simpl.
  match goal with
  | |- context [filter ?f ?l] => destruct (filter f l) as [|r l'] eqn:Hf
  end; [eexists; reflexivity|].
  assert (Hr : In r (filter (fun r => Nat.eqb (rw_id r) id)
                        (map (fun r => if Nat.eqb (rw_id r) id
                                       then Reward.set_status status r else r)
                             (rewards w)))).
  { rewrite Hf. now left. }
  apply filter_In in Hr. destruct Hr as [Hr _].
  apply in_map_iff in Hr. destruct Hr as [r0 [Hr0 Hin]].
  rewrite Forall_forall in Hheld. specialize (Hheld r0 Hin).
  assert (Hheld' : reward_held_as_text r).
  { subst r. destruct (Nat.eqb (rw_id r0) id); exact Hheld. }
  destruct (Reward_parse_row_held r Hheld') as [r' Hr']. rewrite Hr'.
  eexists. reflexivity.
Qed.

Lemma swept_reward_step (row : reward_row) (rows : list reward_row) (l : list reward_row) :
  map (swept_reward rows)
      (map (fun r => if Nat.eqb (rw_id r) (rw_id row)
                     then Reward.set_status expired r else r) l)
  = map (swept_reward (row :: rows)) l.
Proof.
  rewrite map_map. apply map_ext. intros x. unfold swept_reward. simpl.
  destruct (Nat.eqb (rw_id x) (rw_id row)) eqn:E; simpl.
  - destruct (existsb _ rows); reflexivity.
  - reflexivity.
Qed.

Lemma swept_keeps_held (f : reward_row -> reward_row) (l : list reward_row) :
  (forall r, rw_metadata (f r) = rw_metadata r) ->
  Forall reward_held_as_text l -> Forall reward_held_as_text (map f l).
Proof.
  intros Hf H. rewrite Forall_forall in *. intros x Hx.
  apply in_map_iff in Hx. destruct Hx as [x0 [<- Hin]].
  unfold reward_held_as_text. rewrite Hf. now apply H.
Qed.

(** The loop of the reward expiry job, as a function of the world. *)
Lemma expireRewards_run (rows : list reward_row) (w : world) :
  Forall reward_held_as_text (rewards w) ->
  CronJobService.expireRewards rows w
  = (Normal tt, with_rewards (map (swept_reward rows) (rewards w)) w).
Proof.
  revert w. induction rows as [|row rows IH]; intros w Hheld.
  - unfold CronJobService.expireRewards. simpl. unfold ret.
    unfold swept_reward. simpl. rewrite map_id. now rewrite with_rewards_same.
  - destruct (Reward_updateStatus_run (rw_id row) expired w Hheld) as [r Hrun].
    set (w1 := with_rewards _ w) in Hrun.
    assert (Hstep : CronJobService.expireRewards (row :: rows) w
                    = CronJobService.expireRewards rows w1).
    { unfold CronJobService.expireRewards. simpl. unfold bind.
      rewrite Hrun. reflexivity. }
    rewrite Hstep, IH.
    + subst w1. simpl. rewrite swept_reward_step. reflexivity.
    + subst w1. simpl. apply swept_keeps_held; [|exact Hheld].
      intros x. destruct (Nat.eqb (rw_id x) (rw_id row)); reflexivity.
Qed.

Lemma overdue_not_after_sweep (w : world) :
  filter (overdue_reward (clock w))
         (map (swept_reward (filter (overdue_reward (clock w)) (rewards w))) (rewards w))
  = [].
Proof.
  set (rows := filter _ (rewards w)).
  assert (Hrows : forall x, In x (rewards w) -> overdue_reward (clock w) x = true ->
                            In x rows).
  { intros x Hin Hx. apply filter_In. now split. }
  clearbody rows. induction (rewards w) as [|x l IH]; [reflexivity|]. simpl.
  replace (overdue_reward (clock w) (swept_reward rows x)) with false.
  - apply IH. intros y Hy. apply Hrows. now right.
  - symmetry. unfold swept_reward.
    destruct (existsb _ rows) eqn:E; [reflexivity|].
    apply not_true_is_false. intros Hx.
    assert (Ht : existsb (fun row => Nat.eqb (rw_id x) (rw_id row)) rows = true).
    { apply existsb_exists. exists x. split; [|apply Nat.eqb_refl].
      apply Hrows; [now left|exact Hx]. }
    congruence.
Qed.

Lemma getExpiredRewards_run (w : world) :
  Reward.getExpiredRewards w
  = (Normal (filter (overdue_reward (clock w)) (rewards w)), w).
Proof. reflexivity. Qed.

Lemma rewardExpiryJob_run (w : world) :
  Forall reward_held_as_text (rewards w) ->
  CronJobService.rewardExpiryJob w
  = (Normal tt,
     with_rewards
       (map (swept_reward (filter (overdue_reward (clock w)) (rewards w))) (rewards w)) w).
Proof.
  intros Hheld. unfold CronJobService.rewardExpiryJob, try_catch, bind.
  rewrite getExpiredRewards_run, expireRewards_run; [reflexivity|exact Hheld].
Qed.

Lemma same_id_same_row (l : list reward_row) (a b : reward_row) :
  NoDup (map rw_id l) -> In a l -> In b l -> rw_id a = rw_id b -> a = b.
Proof.
  induction l as [|x l IH]; [contradiction|].
  simpl. intros Hids Ha Hb Hid. inversion Hids as [|? ? Hnotin Hnodup]; subst.
  destruct Ha as [Ha|Ha], Hb as [Hb|Hb].
  - congruence.
  - subst x. exfalso. apply Hnotin. rewrite Hid. now apply in_map.
  - subst x. exfalso. apply Hnotin. rewrite <- Hid. now apply in_map.
  - now apply IH.
Qed.

(** X3. The reward expiry job, run on a store that holds metadata as
    text: afterwards no reward is pending past its expiry date, every
    reward that was is stored expired, no request has been sent, and, ids
    being unique, every other reward is as it was. *)
Theorem reward_expiry_job_sweeps_overdue :
  forall (w : world),
    Forall reward_held_as_text (rewards w) ->
    let w' := snd (CronJobService.rewardExpiryJob w) in
    fst (Reward.getExpiredRewards w') = Normal []
    /\ requests w' = requests w
    /\ (forall r, In r (rewards w) -> overdue_reward (clock w) r = true ->
                  In (Reward.set_status expired r) (rewards w'))
    /\ (NoDup (map rw_id (rewards w)) ->
        forall r, In r (rewards w) -> overdue_reward (clock w) r = false ->
                  In r (rewards w')).
Proof.
  intros w Hheld w'. subst w'. rewrite (rewardExpiryJob_run w Hheld). simpl.
  split; [|split; [reflexivity|split]].
  - unfold Reward.getExpiredRewards, gets. simpl.
    change (Normal (filter (overdue_reward (clock w))
                      (map (swept_reward (filter (overdue_reward (clock w)) (rewards w)))
                           (rewards w))) = Normal []).
    now rewrite overdue_not_after_sweep.
  - intros r Hin Hov. apply in_map_iff. exists r. split; [|exact Hin].
    unfold swept_reward.
    replace (existsb _ _) with true; [reflexivity|].
    symmetry. apply existsb_exists. exists r. split; [|apply Nat.eqb_refl].
    apply filter_In. now split.
  - intros Hids r Hin Hov. apply in_map_iff. exists r. split; [|exact Hin].
    unfold swept_reward.
    destruct (existsb _ _) eqn:E; [exfalso|reflexivity].
    apply existsb_exists in E. destruct E as [row [Hrow Hid]].
    apply Nat.eqb_eq in Hid. apply filter_In in Hrow. destruct Hrow as [Hrow Hsel].
    rewrite (same_id_same_row _ r row Hids Hin Hrow Hid) in Hov. congruence.
Qed.

Lemma reward_expiry_job_sweeps_overdue_witness :
  fst (Reward.getExpiredRewards (snd (CronJobService.rewardExpiryJob sweep_world)))
    = Normal []
  /\ map rw_status (rewards (snd (CronJobService.rewardExpiryJob sweep_world)))
     = [expired; pending; credited].
Proof.
  destruct (reward_expiry_job_sweeps_overdue sweep_world) as [H _].
  - repeat constructor.
  - split; [exact H|reflexivity].
Defined.

(** The loop of [expireOldRewards], as a function of the world. *)
Lemma expireEach_run (rows : list reward_row) (w : world) :
  Forall reward_held_as_text (rewards w) ->
  RewardService.expireEach rows w
  = (Normal tt,
     with_requests
       (rev (map (fun r => PostNotification (rw_user_id r) "reward_expired") rows)
          ++ requests w)%list
       (with_rewards (map (swept_reward rows) (rewards w)) w)).
Proof.
  revert w. induction rows as [|row rows IH]; intros w Hheld.
  - unfold RewardService.expireEach. simpl. unfold ret.
    unfold swept_reward. simpl. rewrite map_id. destruct w; reflexivity.
  - destruct (Reward_updateStatus_run (rw_id row) expired w Hheld) as [r Hrun].
    set (w1 := with_rewards _ w) in Hrun.
    set (w2 := with_requests (PostNotification (rw_user_id row) "reward_expired"
                                :: requests w1) w1).
    assert (Hstep : RewardService.expireEach (row :: rows) w
                    = RewardService.expireEach rows w2).
    { unfold RewardService.expireEach. simpl. unfold bind.
      rewrite Hrun. rewrite sendNotification_run. reflexivity. }
    rewrite Hstep, IH.
    + subst w2 w1. simpl. rewrite swept_reward_step.
      unfold with_requests, with_rewards. simpl.
      rewrite <- app_assoc. reflexivity.
    + subst w2 w1. simpl. apply swept_keeps_held; [|exact Hheld].
      intros x. destruct (Nat.eqb (rw_id x) (rw_id row)); reflexivity.
Qed.

(** X4. [expireOldRewards] answers the number of rewards that were
    pending past their expiry date, sends one [reward_expired]
    notification to the user of each, in the order read, whether or not
    the notification service answers, leaves the rewards as the expiry
    job does, and answers 0 without a change when run again. *)
Theorem expireOldRewards_counts_and_notifies :
  forall (w : world),
    Forall reward_held_as_text (rewards w) ->
    let overdue := filter (overdue_reward (clock w)) (rewards w) in
    let w' := snd (RewardService.expireOldRewards w) in
    fst (RewardService.expireOldRewards w) = Normal (List.length overdue)
    /\ requests w'
       = (rev (map (fun r => PostNotification (rw_user_id r) "reward_expired") overdue)
            ++ requests w)%list
    /\ rewards w' = rewards (snd (CronJobService.rewardExpiryJob w))
    /\ RewardService.expireOldRewards w' = (Normal 0%nat, w').
Proof.
  intros w Hheld overdue w'.
  assert (Hrun : RewardService.expireOldRewards w
                 = (Normal (List.length overdue),
                    with_requests
                      (rev (map (fun r => PostNotification (rw_user_id r) "reward_expired")
                                overdue) ++ requests w)%list
                      (with_rewards (map (swept_reward overdue) (rewards w)) w))).
  { unfold RewardService.expireOldRewards, try_catch, bind.
    rewrite getExpiredRewards_run. fold overdue.
    rewrite expireEach_run; [reflexivity|exact Hheld]. }
  subst w'. rewrite Hrun. simpl.
  split; [reflexivity|]. split; [reflexivity|].
  split; [rewrite (rewardExpiryJob_run w Hheld); reflexivity|].
  set (w' := with_requests _ _).
  assert (Hnone : filter (overdue_reward (clock w')) (rewards w') = []).
  { subst w'. simpl. apply overdue_not_after_sweep. }
  unfold RewardService.expireOldRewards, try_catch, bind.
  rewrite getExpiredRewards_run, Hnone.
  reflexivity.
Qed.

Lemma expireOldRewards_counts_and_notifies_witness :
  fst (RewardService.expireOldRewards sweep_world) = Normal 1%nat
  /\ requests (snd (RewardService.expireOldRewards sweep_world))
     = [PostNotification alice "reward_expired"].
Proof.
  destruct (expireOldRewards_counts_and_notifies sweep_world) as [H1 [H2 _]].
  - repeat constructor.
  - split; [exact H1|exact H2].
Defined.

(** ** Claiming a reward, continued *)

Lemma filter_id_map {A} (q : A -> bool) (f : A -> A) (l : list A) :
  (forall x, q (f x) = q x) -> filter q (map f l) = map f (filter q l).
Proof.
  intros Hq. induction l as [|x l IH]; [reflexivity|]. simpl.
  rewrite Hq. destruct (q x); simpl; now rewrite IH.
Qed.

(** What [Reward.findById] found is the first row of that id, parsed. *)
Lemma Reward_findById_found (id : uuid) (w : world) (reward : reward_row) :
  fst (Reward.findById id w) = Normal (Some reward) ->
  exists r0 rest,
    filter (fun r => Nat.eqb (rw_id r) id) (rewards w) = r0 :: rest
    /\ Reward.parse_row r0 = Normal reward.
Proof.
  unfold Reward.findById, bind, gets, ret, sync. simpl.
  destruct (filter _ (rewards w)) as [|r0 rest]; [discriminate|].
  destruct (Reward.parse_row r0) as [r|e] eqn:E; simpl; [|discriminate].
  intros H. injection H as <-. now exists r0, rest.
Qed.

Lemma Reward_parse_row_columns (r0 reward : reward_row) :
  Reward.parse_row r0 = Normal reward ->
  rw_id reward = rw_id r0 /\ rw_status reward = rw_status r0
  /\ rw_user_id reward = rw_user_id r0 /\ rw_amount reward = rw_amount r0.
Proof.
  unfold Reward.parse_row.
  destruct (meta_truthy (rw_metadata r0)).
  - destruct (JSON_parse (rw_metadata r0)); [|discriminate].
    intros H. injection H as <-. simpl. auto.
  - intros H. injection H as <-. auto.
Qed.

Lemma Reward_parse_row_credited (t : Z) (r0 reward : reward_row) :
  Reward.parse_row r0 = Normal reward ->
  Reward.parse_row (Reward.set_credited t r0) = Normal (Reward.set_credited t reward).
Proof.
  unfold Reward.parse_row. simpl.
  destruct (meta_truthy (rw_metadata r0)).
  - destruct (JSON_parse (rw_metadata r0)); [|discriminate].
    intros H. injection H as <-. reflexivity.
  - intros H. injection H as <-. reflexivity.
Qed.

(** [Reward.creditReward] on a reward found pending: the pending rows of
    that id are credited and the row found is handed back, credited. *)
Lemma Reward_creditReward_run (id : uuid) (w : world) (reward : reward_row) :
  fst (Reward.findById id w) = Normal (Some reward) ->
  rw_status reward = pending ->
  Reward.creditReward id w
  = (Normal (Some (Reward.set_credited (clock w) reward)),
     with_rewards
       (map (fun r => if Nat.eqb (rw_id r) id && reward_status_eqb (rw_status r) pending
                      then Reward.set_credited (clock w) r else r)
            (rewards w)) w).
Proof.
  intros Hfind Hst.
  destruct (Reward_findById_found id w reward Hfind) as [r0 [rest [Hf Hparse]]].
  destruct (Reward_parse_row_columns r0 reward Hparse) as [_ [Hst0 _]].
  rewrite Hst in Hst0.
  assert (Hid0 : Nat.eqb (rw_id r0) id = true).
  { assert (Hin : In r0 (filter (fun r => Nat.eqb (rw_id r) id) (rewards w))).
    { rewrite Hf. now left. }
    apply filter_In in Hin. tauto. }
  assert (Hin0 : In r0 (rewards w)).
  { assert (Hin : In r0 (filter (fun r => Nat.eqb (rw_id r) id) (rewards w))).
    { rewrite Hf. now left. }
    apply filter_In in Hin. tauto. }
  unfold Reward.creditReward, bind, modify, gets, now, ret. simpl.
  match goal with
  | |- context [filter ?p (rewards w)] =>
      destruct (filter p (rewards w)) as [|x xs] eqn:Hp
  end.
  { exfalso.
    assert (Hin : In r0 []).
    { rewrite <- Hp. apply filter_In. split; [exact Hin0|].
      rewrite Hid0, <- Hst0. reflexivity. }
    contradiction. }
  simpl.
  unfold Reward.findById, bind, gets, ret, sync. simpl.
  rewrite filter_id_map.
  2:{ intros x0. destruct (_ && _); reflexivity. }
  rewrite Hf. simpl. rewrite Hid0, <- Hst0. simpl.
  rewrite (Reward_parse_row_credited (clock w) r0 reward Hparse). reflexivity.
Qed.

(** A claim by the recipient of a pending reward, as a function of the
    world. *)
Lemma claimReward_run (id : uuid) (caller : string) (w : world) (reward : reward_row) :
  fst (Reward.findById id w) = Normal (Some reward) ->
  rw_user_id reward = caller ->
  rw_status reward = pending ->
  RewardController.claimReward id caller w
  = let w1 :=
      with_rewards
        (map (fun r => if Nat.eqb (rw_id r) id && reward_status_eqb (rw_status r) pending
                       then Reward.set_credited (clock w) r else r)
             (rewards w)) w in
    let w2 :=
      with_requests
        (PostCredit (rw_user_id reward) (rw_amount reward) (rw_id reward) :: requests w) w1 in
    if axios w (List.length (requests w))
    then (Normal (accept 200 "Reward claimed successfully"
                    (Reward.set_credited (clock w) reward)),
          with_requests
            (PostNotification (rw_user_id reward) "reward_credited" :: requests w2) w2)
    else (Normal (refuse 500 "Internal server error"), w2).
Proof.
  intros Hfind Hcaller Hst.
  unfold RewardController.claimReward, try_catch.
  unfold bind at 1. rewrite Reward_findById_run, Hfind.
  apply String.eqb_eq in Hcaller. rewrite Hcaller, Hst. cbn [negb reward_status_eqb].
  unfold bind at 1. rewrite (Reward_creditReward_run id w reward Hfind Hst).
  unfold bind at 1.
  unfold ExternalServices.creditUserAccount, ExternalServices.makeRequest,
    try_catch, bind, throw, ret. simpl.
  destruct (axios w (List.length (requests w))); simpl.
  - rewrite sendNotification_run. reflexivity.
  - reflexivity.
Qed.

Lemma Reward_findById_after_credit (id : uuid) (w w1 : world) (reward : reward_row) :
  fst (Reward.findById id w) = Normal (Some reward) ->
  rw_status reward = pending ->
  rewards w1 = map (fun r => if Nat.eqb (rw_id r) id
                                && reward_status_eqb (rw_status r) pending
                             then Reward.set_credited (clock w) r else r)
                   (rewards w) ->
  fst (Reward.findById id w1) = Normal (Some (Reward.set_credited (clock w) reward)).
Proof.
  intros Hfind Hst Hw1.
  destruct (Reward_findById_found id w reward Hfind) as [r0 [rest [Hf Hparse]]].
  destruct (Reward_parse_row_columns r0 reward Hparse) as [_ [Hst0 _]].
  rewrite Hst in Hst0.
  assert (Hid0 : Nat.eqb (rw_id r0) id = true).
  { assert (Hin : In r0 (filter (fun r => Nat.eqb (rw_id r) id) (rewards w))).
    { rewrite Hf. now left. }
    apply filter_In in Hin. tauto. }
  unfold Reward.findById, bind, gets, ret, sync. simpl. rewrite Hw1.
  rewrite filter_id_map.
  2:{ intros x0. destruct (_ && _); reflexivity. }
  rewrite Hf. simpl. rewrite Hid0, <- Hst0. simpl.
  rewrite (Reward_parse_row_credited (clock w) r0 reward Hparse). reflexivity.
Qed.

(** X5. A reward is claimed at most once: after the claim of a pending
    reward by its recipient, whatever that claim was answered, the reward
    is stored credited, exactly one more credit request has been sent, and
    the same claim again is answered 400 and changes nothing. *)
Theorem claim_reward_at_most_once :
  forall (id : uuid) (caller : string) (w : world) (reward : reward_row),
    fst (Reward.findById id w) = Normal (Some reward) ->
    rw_user_id reward = caller ->
    rw_status reward = pending ->
    let w1 := snd (RewardController.claimReward id caller w) in
    fst (Reward.findById id w1) = Normal (Some (Reward.set_credited (clock w) reward))
    /\ RewardController.claimReward id caller w1
       = (Normal (refuse 400 "Reward cannot be claimed"), w1)
    /\ List.length
         (filter (fun q => match q with PostCredit _ _ _ => true | _ => false end)
                 (requests w1))
       = S (List.length
              (filter (fun q => match q with PostCredit _ _ _ => true | _ => false end)
                      (requests w))).
Proof.
  intros id caller w reward Hfind Hcaller Hst w1.
  assert (Hrw : rewards w1
                = map (fun r => if Nat.eqb (rw_id r) id
                                   && reward_status_eqb (rw_status r) pending
                                then Reward.set_credited (clock w) r else r)
                      (rewards w)).
  { subst w1. rewrite (claimReward_run id caller w reward Hfind Hcaller Hst). cbv zeta.
    destruct (axios w (List.length (requests w))); reflexivity. }
  assert (Hfind1 : fst (Reward.findById id w1)
                   = Normal (Some (Reward.set_credited (clock w) reward))).
  { exact (Reward_findById_after_credit id w w1 reward Hfind Hst Hrw). }
  split; [exact Hfind1|]. split.
  - unfold RewardController.claimReward, try_catch, bind.
    rewrite Reward_findById_run, Hfind1. simpl.
    apply String.eqb_eq in Hcaller. rewrite Hcaller. reflexivity.
  - subst w1. rewrite (claimReward_run id caller w reward Hfind Hcaller Hst). cbv zeta.
    destruct (axios w (List.length (requests w))); reflexivity.
Qed.

Lemma claim_reward_at_most_once_witness :
  RewardController.claimReward 0%nat bob
    (snd (RewardController.claimReward 0%nat bob pending_reward_world))
  = (Normal (refuse 400 "Reward cannot be claimed"),
     snd (RewardController.claimReward 0%nat bob pending_reward_world)).
Proof.
  apply (claim_reward_at_most_once 0%nat bob pending_reward_world
           (Reward.set_metadata (MetaObject [("referrer_id", JString alice)])
              sample_pending_reward)); reflexivity.
Defined.

(** X6. When the credit ledger does not answer, the claim of a pending
    reward by its recipient is answered 500, and yet the reward is stored
    credited: the status is written before the ledger is called, and is
    not taken back. *)
Theorem claim_reward_ledger_down :
  forall (id : uuid) (caller : string) (w : world) (reward : reward_row),
    fst (Reward.findById id w) = Normal (Some reward) ->
    rw_user_id reward = caller ->
    rw_status reward = pending ->
    axios w (List.length (requests w)) = false ->
    exists w',
      RewardController.claimReward id caller w
        = (Normal (refuse 500 "Internal server error"), w')
      /\ fst (Reward.findById id w')
         = Normal (Some (Reward.set_credited (clock w) reward))
      /\ requests w'
         = PostCredit (rw_user_id reward) (rw_amount reward) (rw_id reward) :: requests w.
Proof.
  intros id caller w reward Hfind Hcaller Hst Hdown.
  rewrite (claimReward_run id caller w reward Hfind Hcaller Hst). cbv zeta.
  rewrite Hdown. eexists. split; [reflexivity|]. split; [|reflexivity].
  apply (Reward_findById_after_credit id w _ reward Hfind Hst). reflexivity.
Qed.

Lemma claim_reward_ledger_down_witness :
  exists w',
    RewardController.claimReward 1%nat alice sweep_world
      = (Normal (refuse 500 "Internal server error"), w')
    /\ fst (Reward.findById 1%nat w')
       = Normal (Some (Reward.set_credited (clock sweep_world)
                         (Reward.set_metadata (MetaObject []) sample_overdue_reward)))
    /\ requests w'
       = PostCredit alice 10 1%nat :: requests sweep_world.
Proof.
  apply (claim_reward_ledger_down 1%nat alice sweep_world
           (Reward.set_metadata (MetaObject []) sample_overdue_reward)); reflexivity.
Defined.

(** X7. [claimReward] always answers, and never with "Failed to claim
    reward"; an answer of 404, 403 or 400 leaves the world as it was; the
    answer is 404 exactly when no reward has the id. *)
Theorem claim_reward_answers :
  forall (id : uuid) (caller : string) (w : world),
    exists resp,
      fst (RewardController.claimReward id caller w) = Normal resp
      /\ message resp <> "Failed to claim reward"
      /\ (status_code resp = 404 \/ status_code resp = 403 \/ status_code resp = 400 ->
          snd (RewardController.claimReward id caller w) = w)
      /\ (status_code resp = 404 <-> fst (Reward.findById id w) = Normal None).
Proof.
  intros id caller w.
  destruct (fst (Reward.findById id w)) as [[reward|]|e] eqn:Hfind.
  - destruct (String.eqb (rw_user_id reward) caller) eqn:Hc.
    + destruct (reward_status_eqb (rw_status reward) pending) eqn:Hs.
      * apply String.eqb_eq in Hc. apply reward_status_eqb_eq in Hs.
        rewrite (claimReward_run id caller w reward Hfind Hc Hs). cbv zeta.
        destruct (axios w (List.length (requests w))); eexists;
          (split; [reflexivity|]); simpl;
          (split; [discriminate|]);
          (split; [intros [H|[H|H]]; discriminate|]);
          split; discriminate.
      * exists (refuse 400 "Reward cannot be claimed").
        unfold RewardController.claimReward, try_catch, bind.
        rewrite Reward_findById_run, Hfind, Hc, Hs. simpl.
        split; [reflexivity|]. split; [discriminate|]. split; [reflexivity|].
        split; discriminate.
    + exists (refuse 403 "Access denied").
      unfold RewardController.claimReward, try_catch, bind.
      rewrite Reward_findById_run, Hfind, Hc. simpl.
      split; [reflexivity|]. split; [discriminate|]. split; [reflexivity|].
      split; discriminate.
  - exists (refuse 404 "Reward not found").
    unfold RewardController.claimReward, try_catch, bind.
    rewrite Reward_findById_run, Hfind. simpl.
    split; [reflexivity|]. split; [discriminate|]. split; [reflexivity|].
    split; intros _; reflexivity.
  - exists (refuse 500 "Internal server error").
    unfold RewardController.claimReward, try_catch, bind.
    rewrite Reward_findById_run, Hfind. simpl.
    split; [reflexivity|]. split; [discriminate|]. split; [reflexivity|].
    split; discriminate.
Qed.

(** ** The rewards of a completed referral *)

(** The two rows [processReferralRewards] stores. *)
Lemma processReferralRewards_run (referral : referral_row) (w : world) :
  let row1 := Reward.new_row (uuid_supply w) (clock w)
                (RewardService.referrer_reward_data referral) in
  let row2 := Reward.new_row (S (uuid_supply w)) (clock w)
                (RewardService.referee_reward_data referral) in
  exists e,
    RewardService.processReferralRewards referral w
    = (Thrown e,
       with_requests
         (PostCredit (rf_referee_id referral) (rf_referee_bonus referral)
            (S (uuid_supply w)) :: requests w)
         (with_rewards (row2 :: row1 :: rewards w)
            (with_uuid_supply (S (S (uuid_supply w))) w))).
Proof.
  intros row1 row2.
  unfold RewardService.processReferralRewards, try_catch.
  unfold bind at 1. rewrite Reward_create_spec.
  unfold bind at 1. rewrite Reward_create_spec.
  unfold bind at 1. unfold sync at 1. cbn [RewardService.read_id].
  unfold bind at 1.
  match goal with
  | |- context [RewardService.creditReward ?i ?w2] =>
      destruct (creditReward_pending i w2
                  (Reward.set_metadata
                     (MetaObject
                        (match wd_metadata (RewardService.referee_reward_data referral) with
                         | Some o => o | None => [] end))
                     row2)) as [e He]
  end.
  - unfold Reward.findById, bind, gets, ret, sync. simpl.
    rewrite Nat.eqb_refl. reflexivity.
  - reflexivity.
  - simpl in He. simpl. rewrite He. exists e. reflexivity.
Qed.

(** X8. [processReferralRewards] never returns: it stores the two
    referral bonuses, both pending, asks the ledger to credit the
    referee's, and throws in [creditReward].  The milestones of the
    referrer are not checked and no reward notification is sent. *)
Theorem referral_rewards_always_fail :
  forall (referral : referral_row) (w : world),
    let w' := snd (RewardService.processReferralRewards referral w) in
    (exists e, fst (RewardService.processReferralRewards referral w) = Thrown e)
    /\ (exists referee_row referrer_row,
          rewards w' = referee_row :: referrer_row :: rewards w
          /\ rw_user_id referee_row = rf_referee_id referral
          /\ rw_user_id referrer_row = rf_referrer_id referral
          /\ rw_status referee_row = pending
          /\ rw_status referrer_row = pending
          /\ requests w'
             = PostCredit (rf_referee_id referral) (rf_referee_bonus referral)
                 (rw_id referee_row) :: requests w).
Proof.
  intros referral w w'. subst w'.
  destruct (processReferralRewards_run referral w) as [e He]. rewrite He. simpl.
  split; [now exists e|].
  eexists. eexists. split; [reflexivity|]. repeat split.
Qed.

(** ** Completing a referral through the controller *)

Lemma Referral_findById_reads (id : uuid) (w : world) :
  snd (Referral.findById id w) = w.
Proof.
  unfold Referral.findById. unfold_async.
  destruct (filter (fun r => Nat.eqb (rf_id r) id) (referrals w)) as [|r l]; [reflexivity|].
  destruct (Referral.parse_row r); reflexivity.
Qed.

Lemma Referral_findById_run (id : uuid) (w : world) :
  Referral.findById id w = (fst (Referral.findById id w), w).
Proof.
  rewrite <- (Referral_findById_reads id w) at 3.
  destruct (Referral.findById id w); reflexivity.
Qed.

Lemma Referral_findById_found (id : uuid) (w : world) (referral : referral_row) :
  fst (Referral.findById id w) = Normal (Some referral) ->
  exists r0 rest,
    filter (fun r => Nat.eqb (rf_id r) id) (referrals w) = r0 :: rest
    /\ Referral.parse_row r0 = Normal referral.
Proof.
  unfold Referral.findById, bind, gets, ret, sync. simpl.
  destruct (filter _ (referrals w)) as [|r0 rest]; [discriminate|].
  destruct (Referral.parse_row r0) as [r|e] eqn:E; simpl; [|discriminate].
  intros H. injection H as <-. now exists r0, rest.
Qed.

Lemma Referral_parse_row_status (r0 referral : referral_row) :
  Referral.parse_row r0 = Normal referral -> rf_status referral = rf_status r0.
Proof.
  unfold Referral.parse_row.
  destruct (meta_truthy (rf_metadata r0)).
  - destruct (JSON_parse (rf_metadata r0)); [|discriminate].
    intros H. injection H as <-. reflexivity.
  - intros H. injection H as <-. reflexivity.
Qed.

Lemma Referral_parse_row_completed (t : Z) (o d : option string)
  (r0 referral : referral_row) :
  Referral.parse_row r0 = Normal referral ->
  Referral.parse_row (Referral.set_completed t o d r0)
  = Normal (Referral.set_completed t o d referral).
Proof.
  unfold Referral.parse_row. simpl.
  destruct (meta_truthy (rf_metadata r0)).
  - destruct (JSON_parse (rf_metadata r0)); [|discriminate].
    intros H. injection H as <-. reflexivity.
  - intros H. injection H as <-. reflexivity.
Qed.

(** [Referral.completeReferral] on a referral found pending. *)
Lemma Referral_completeReferral_run (id : uuid) (completionData : trigger_data)
  (w : world) (referral : referral_row) :
  fst (Referral.findById id w) = Normal (Some referral) ->
  rf_status referral = RefPending ->
  Referral.completeReferral id completionData w
  = (Normal (Some (Referral.set_completed (clock w)
                     (optstr_or_null (td_order_id completionData))
                     (optstr_or_null (td_delivery_id completionData)) referral)),
     with_referrals
       (map (fun r =>
               if Nat.eqb (rf_id r) id && referral_status_eqb (rf_status r) RefPending
               then Referral.set_completed (clock w)
                      (optstr_or_null (td_order_id completionData))
                      (optstr_or_null (td_delivery_id completionData)) r
               else r)
            (referrals w)) w).
Proof.
  intros Hfind Hst.
  destruct (Referral_findById_found id w referral Hfind) as [r0 [rest [Hf Hparse]]].
  pose proof (Referral_parse_row_status r0 referral Hparse) as Hst0.
  rewrite Hst in Hst0.
  assert (Hin : In r0 (filter (fun r => Nat.eqb (rf_id r) id) (referrals w))).
  { rewrite Hf. now left. }
  apply filter_In in Hin. destruct Hin as [Hin0 Hid0].
  unfold Referral.completeReferral, bind, modify, gets, now, ret. simpl.
  match goal with
  | |- context [filter ?p (referrals w)] =>
      destruct (filter p (referrals w)) as [|x xs] eqn:Hp
  end.
  { exfalso.
    assert (Hin : In r0 []).
    { rewrite <- Hp. apply filter_In. split; [exact Hin0|].
      rewrite Hid0, <- Hst0. reflexivity. }
    contradiction. }
  simpl.
  unfold Referral.findById, bind, gets, ret, sync. simpl.
  rewrite filter_id_map.
  2:{ intros x0. destruct (_ && _); reflexivity. }
  rewrite Hf. simpl. rewrite Hid0, <- Hst0. simpl.
  rewrite (Referral_parse_row_completed _ _ _ r0 referral Hparse). reflexivity.
Qed.

(** When [Referral.completeReferral] answers [null], it has written
    nothing. *)
Lemma Referral_completeReferral_null (id : uuid) (completionData : trigger_data)
  (w w1 : world) :
  Referral.completeReferral id completionData w = (Normal None, w1) -> w1 = w.
Proof.
  unfold Referral.completeReferral, bind, modify, gets, now, ret. simpl.
  match goal with
  | |- context [filter ?p (referrals w)] =>
      destruct (filter p (referrals w)) as [|x xs] eqn:Hp
  end; simpl.
  - intros H. injection H as <-. rewrite map_if_false; [|exact Hp].
    apply with_referrals_same.
  - assert (Hin : In x (x :: xs)) by now left.
    rewrite <- Hp in Hin. apply filter_In in Hin. destruct Hin as [Hin Hx].
    apply andb_true_iff in Hx. destruct Hx as [Hid _].
    unfold Referral.findById, bind, gets, ret, sync. simpl.
    rewrite filter_id_map.
    2:{ intros x0. destruct (_ && _); reflexivity. }
    destruct (filter (fun r => Nat.eqb (rf_id r) id) (referrals w)) as [|y ys] eqn:Hf.
    + exfalso. assert (Hin' : In x []).
      { rewrite <- Hf. apply filter_In. now split. }
      contradiction.
    + simpl. destruct (Referral.parse_row _); simpl; discriminate.
Qed.

(** X9. The completion of a pending referral through the controller is
    answered 500, after the referral has been stored completed: the call
    of [rewardService.processReferralRewards] throws, so that no reward
    is stored, no request is sent to another service and no completion
    notification goes out.  The same request again is answered 400 and
    changes nothing. *)
Theorem complete_referral_answers_500 :
  forall (id : uuid) (order_id delivery_id : option string) (w : world)
         (referral : referral_row),
    fst (Referral.findById id w) = Normal (Some referral) ->
    rf_status referral = RefPending ->
    let body := {| ReferralController.cm_referral_id := Some id;
                   ReferralController.cm_order_id := order_id;
                   ReferralController.cm_delivery_id := delivery_id |} in
    let w' := snd (ReferralController.completeReferral body w) in
    fst (ReferralController.completeReferral body w)
      = Normal (refuse 500 "Internal server error")
    /\ fst (Referral.findById id w')
       = Normal (Some (Referral.set_completed (clock w) (optstr_or_null order_id)
                         (optstr_or_null delivery_id) referral))
    /\ rewards w' = rewards w
    /\ requests w' = requests w
    /\ ReferralController.completeReferral body w'
       = (Normal (refuse 400 "Referral is not in pending status"), w').
Proof.
  intros id order_id delivery_id w referral Hfind Hst body w'.
  set (completed := Referral.set_completed (clock w) (optstr_or_null order_id)
                      (optstr_or_null delivery_id) referral).
  set (w1 := with_referrals
               (map (fun r =>
                       if Nat.eqb (rf_id r) id
                          && referral_status_eqb (rf_status r) RefPending
                       then Referral.set_completed (clock w) (optstr_or_null order_id)
                              (optstr_or_null delivery_id) r
                       else r)
                    (referrals w)) w).
  assert (Hrun : ReferralController.completeReferral body w
                 = (Normal (refuse 500 "Internal server error"), w1)).
  { unfold ReferralController.completeReferral, try_catch. subst body.
    cbn [ReferralController.cm_referral_id].
    unfold bind at 1. rewrite Referral_findById_run, Hfind, Hst.
    cbn [negb referral_status_eqb].
    unfold bind at 1.
    rewrite (Referral_completeReferral_run id _ w referral Hfind Hst).
    reflexivity. }
  assert (Hfind' : fst (Referral.findById id w')
                   = Normal (Some completed)).
  { subst w'. rewrite Hrun. simpl snd.
    destruct (Referral_findById_found id w referral Hfind) as [r0 [rest [Hf Hparse]]].
    pose proof (Referral_parse_row_status r0 referral Hparse) as Hst0.
    rewrite Hst in Hst0.
    assert (Hin : In r0 (filter (fun r => Nat.eqb (rf_id r) id) (referrals w))).
    { rewrite Hf. now left. }
    apply filter_In in Hin. destruct Hin as [_ Hid0].
    unfold Referral.findById, bind, gets, ret, sync. simpl.
    rewrite filter_id_map.
    2:{ intros x0. destruct (_ && _); reflexivity. }
    rewrite Hf. simpl. rewrite Hid0, <- Hst0. simpl.
    rewrite (Referral_parse_row_completed _ _ _ r0 referral Hparse). reflexivity. }
  split; [now rewrite Hrun|].
  split; [exact Hfind'|].
  split; [subst w'; rewrite Hrun; reflexivity|].
  split; [subst w'; rewrite Hrun; reflexivity|].
  unfold ReferralController.completeReferral, try_catch. subst body.
  cbn [ReferralController.cm_referral_id].
  unfold bind at 1. rewrite Referral_findById_run, Hfind'. reflexivity.
Qed.

Lemma complete_referral_answers_500_witness :
  fst (ReferralController.completeReferral
         {| ReferralController.cm_referral_id := Some 1%nat;
            ReferralController.cm_order_id := Some "order-1";
            ReferralController.cm_delivery_id := None |}
         overdue_world)
  = Normal (refuse 500 "Internal server error").
Proof.
  apply (complete_referral_answers_500 1%nat (Some "order-1") None overdue_world
           (Referral.set_metadata (MetaObject []) overdue_referral)); reflexivity.
Defined.

(** X10. The handler [completeReferral] always answers, never with
    success, and every answer other than 500 leaves the world as it
    was. *)
Theorem complete_referral_never_succeeds :
  forall (body : ReferralController.completion_body) (w : world),
    exists resp,
      fst (ReferralController.completeReferral body w) = Normal resp
      /\ success resp = false
      /\ (status_code resp <> 500 ->
          snd (ReferralController.completeReferral body w) = w).
Proof.
  intros body w.
  assert (H : exists resp w',
            ReferralController.completeReferral body w = (Normal resp, w')
            /\ success resp = false
            /\ (status_code resp <> 500 -> w' = w)).
  2:{ destruct H as [resp [w' [Hrun [Hs Hw]]]]. rewrite Hrun. now exists resp. }
  unfold ReferralController.completeReferral, try_catch.
  destruct (ReferralController.cm_referral_id body) as [id|].
  2:{ eexists. eexists. split; [reflexivity|]. split; reflexivity. }
  unfold bind at 1. rewrite Referral_findById_run.
  destruct (fst (Referral.findById id w)) as [[referral|]|e] eqn:Hfind.
  - destruct (referral_status_eqb (rf_status referral) RefPending) eqn:Hst.
    + apply referral_status_eqb_eq in Hst. cbn [negb].
      unfold bind at 1.
      rewrite (Referral_completeReferral_run id _ w referral Hfind Hst).
      eexists. eexists. split; [reflexivity|]. split; [reflexivity|].
      intros H. exfalso. apply H. reflexivity.
    + eexists. eexists. split; [reflexivity|]. split; reflexivity.
  - eexists. eexists. split; [reflexivity|]. split; reflexivity.
  - eexists. eexists. split; [reflexivity|]. split; [reflexivity|].
    intros H. exfalso. apply H. reflexivity.
Qed.

(** ** Triggers *)

(** The loop ends normally only on an empty list: at the first pending
    referral it reads [shouldCompleteReferral] off [this] and throws. *)
Lemma triggerLoop_normal (pendingReferrals : list referral_row) (triggerType : string)
  (triggerData : option trigger_data) (acc : list referral_row) (w w' : world)
  (res : list referral_row) :
  ReferralController.triggerLoop pendingReferrals triggerType triggerData acc w
    = (Normal res, w') ->
  res = acc /\ w' = w.
Proof.
  destruct pendingReferrals as [|referral rest].
  - simpl. unfold ret. intros H. injection H as <- <-. split; reflexivity.
  - simpl. unfold bind at 1. unfold sync at 1.
    unfold ReferralController.on_this. discriminate.
Qed.

(** X11. [processReferralTrigger] always answers, with 500 or with
    "Processed 0 referrals": it never reports a completed referral, and
    when it answers 200 nothing has changed. *)
Theorem trigger_never_reports_a_completion :
  forall (body : ReferralController.trigger_body) (w : world),
    exists resp,
      fst (ReferralController.processReferralTrigger body w) = Normal resp
      /\ (resp = refuse 500 "Internal server error"
          \/ (resp = accept 200 "Processed 0 referrals"
                       {| ReferralController.completed_count := 0;
                          ReferralController.completed_referrals_list := [] |}
              /\ snd (ReferralController.processReferralTrigger body w) = w)).
Proof.
  intros body w.
  assert (H : exists resp w',
            ReferralController.processReferralTrigger body w = (Normal resp, w')
            /\ (resp = refuse 500 "Internal server error"
                \/ (resp = accept 200 "Processed 0 referrals"
                             {| ReferralController.completed_count := 0;
                                ReferralController.completed_referrals_list := [] |}
                    /\ w' = w))).
  2:{ destruct H as [resp [w' [Hrun H]]]. rewrite Hrun. now exists resp. }
  unfold ReferralController.processReferralTrigger, try_catch.
  unfold bind at 1. unfold Referral.findByReferee at 1.
  unfold bind at 1. unfold gets at 1. unfold sync at 1.
  destruct (map_sync Referral.parse_row _) as [refereeReferrals|e].
  2:{ eexists. eexists. split; [reflexivity|]. left. reflexivity. }
  unfold bind at 1.
  destruct (ReferralController.triggerLoop _ _ _ [] w) as [[res|e] w'] eqn:Hloop.
  - apply triggerLoop_normal in Hloop. destruct Hloop as [-> ->].
    eexists. eexists. split; [reflexivity|]. right. split; reflexivity.
  - eexists. eexists. split; [reflexivity|]. left. reflexivity.
Qed.

(** ** Refusals of createReferral *)

(** X12. [createReferral] always answers; an answer of 400 or 409 leaves
    the world as it was; and a valid request whose code belongs to the
    referee is answered 400 "Cannot refer yourself". *)
Theorem create_referral_refusals :
  forall (body : Validator.referral_body) (w : world),
    exists resp,
      fst (ReferralController.createReferral body w) = Normal resp
      /\ (status_code resp = 400 \/ status_code resp = 409 ->
          snd (ReferralController.createReferral body w) = w)
      /\ (forall value referralCode,
            Validator.validateReferral body = Validator.JoiValue value ->
            fst (ReferralCode.validateCode (Validator.rv_referral_code value) w)
              = Normal (Some referralCode) ->
            rc_owner_id referralCode = Validator.rv_referee_id value ->
            resp = refuse 400 "Cannot refer yourself").
Proof.
  intros body w.
  assert (P1 : exists resp w',
            ReferralController.createReferral body w = (Normal resp, w')
            /\ (status_code resp = 400 \/ status_code resp = 409 -> w' = w)).
  { rewrite createReferral_run.
    destruct (Validator.validateReferral body) as [key rule|value].
    { eexists. eexists. split; reflexivity. }
    destruct (find _ (referral_codes w)) as [referralCode|].
    2:{ eexists. eexists. split; reflexivity. }
    destruct (String.eqb (rc_owner_id referralCode) (Validator.rv_referee_id value)).
    { eexists. eexists. split; reflexivity. }
    destruct (map_sync _ _) as [existingReferrals|e].
    2:{ eexists. eexists. split; reflexivity. }
    destruct (find _ existingReferrals).
    { eexists. eexists. split; reflexivity. }
    eexists. eexists. split; [reflexivity|]. simpl. intros [H|H]; discriminate. }
  assert (P2 : forall value referralCode,
            Validator.validateReferral body = Validator.JoiValue value ->
            fst (ReferralCode.validateCode (Validator.rv_referral_code value) w)
              = Normal (Some referralCode) ->
            rc_owner_id referralCode = Validator.rv_referee_id value ->
            ReferralController.createReferral body w
              = (Normal (refuse 400 "Cannot refer yourself"), w)).
  { intros value referralCode Hv Hc Ho. rewrite createReferral_run, Hv.
    unfold ReferralCode.validateCode, gets in Hc. simpl in Hc.
    injection Hc as Hc. rewrite Hc.
    apply String.eqb_eq in Ho. rewrite Ho. reflexivity. }
  destruct P1 as [resp [w' [Hrun Hsame]]].
  exists resp. rewrite Hrun. split; [reflexivity|]. split; [exact Hsame|].
  intros value referralCode Hv Hc Ho.
  rewrite (P2 value referralCode Hv Hc Ho) in Hrun. now injection Hrun.
Qed.

(** ** The usage cap of a code *)

Lemma find_code_in (code : string) (t : Z) (l : list referral_code_row)
  (c : referral_code_row) :
  find (fun c => String.eqb (rc_code c) code && ReferralCode.usable t c) l = Some c ->
  In c l /\ rc_code c = code /\ ReferralCode.usable t c = true.
Proof.
  intros H. apply find_some in H. destruct H as [Hin Hc].
  apply andb_true_iff in Hc. destruct Hc as [Hcode Hu].
  apply String.eqb_eq in Hcode. auto.
Qed.

Lemma same_code_same_row (l : list referral_code_row) (a b : referral_code_row) :
  NoDup (map rc_code l) -> In a l -> In b l -> rc_code a = rc_code b -> a = b.
Proof.
  induction l as [|x l IH]; [contradiction|].
  simpl. intros Hcodes Ha Hb Hc. inversion Hcodes as [|? ? Hnotin Hnodup]; subst.
  destruct Ha as [Ha|Ha], Hb as [Hb|Hb].
  - congruence.
  - subst x. exfalso. apply Hnotin. rewrite Hc. now apply in_map.
  - subst x. exfalso. apply Hnotin. rewrite <- Hc. now apply in_map.
  - now apply IH.
Qed.

(** After a write [f] on the rows of one id that leaves the row of a code
    unusable, the code validates no more. *)
Lemma validateCode_after_write (f : referral_code_row -> referral_code_row)
  (c : referral_code_row) (t : Z) (l : list referral_code_row) :
  NoDup (map rc_code l) -> In c l ->
  (forall x, rc_code (f x) = rc_code x) ->
  ReferralCode.usable t (f c) = false ->
  find (fun x => String.eqb (rc_code x) (rc_code c) && ReferralCode.usable t x)
       (map (fun x => if Nat.eqb (rc_id x) (rc_id c) then f x else x) l)
  = None.
Proof.
  intros Hcodes Hin Hf Hu.
  destruct (find _ _) as [y|] eqn:Hfind; [exfalso|reflexivity].
  apply find_some in Hfind. destruct Hfind as [Hy Hsel].
  apply andb_true_iff in Hsel. destruct Hsel as [Hcode Husable].
  apply String.eqb_eq in Hcode.
  apply in_map_iff in Hy. destruct Hy as [x [Hx Hxin]].
  assert (Hxc : rc_code x = rc_code c).
  { rewrite <- Hcode, <- Hx. destruct (Nat.eqb (rc_id x) (rc_id c)); [now rewrite Hf|reflexivity]. }
  assert (x = c) by (eapply same_code_same_row; eauto). subst x.
  rewrite Nat.eqb_refl in Hx. subst y. congruence.
Qed.

(** A use that leaves the code usable: the code validates to its row
    with one use more. *)
Lemma validateCode_after_use (c : referral_code_row) (code : string) (t : Z)
  (l : list referral_code_row) :
  NoDup (map rc_code l) ->
  find (fun x => String.eqb (rc_code x) code && ReferralCode.usable t x) l = Some c ->
  ReferralCode.usable t (ReferralCode.bump_usage c) = true ->
  find (fun x => String.eqb (rc_code x) code && ReferralCode.usable t x)
       (map (fun x => if Nat.eqb (rc_id x) (rc_id c) then ReferralCode.bump_usage x else x) l)
  = Some (ReferralCode.bump_usage c).
Proof.
  intros Hcodes Hfind Hu.
  pose proof (find_code_in code t l c Hfind) as [Hcin [Hcc _]].
  revert Hcodes Hfind Hcin.
  induction l as [|x l IH]; [discriminate|].
  intros Hcodes Hfind Hcin. inversion Hcodes as [|? ? Hnotin Hnodup]; subst.
  cbn [find map] in Hfind |- *.
  destruct (String.eqb (rc_code x) (rc_code c) && ReferralCode.usable t x) eqn:Hx.
  - injection Hfind as ->. rewrite Nat.eqb_refl.
    change (rc_code (ReferralCode.bump_usage c)) with (rc_code c).
    rewrite String.eqb_refl, Hu. reflexivity.
  - assert (Hin : In c l).
    { apply find_some in Hfind. tauto. }
    assert (Hne : String.eqb (rc_code x) (rc_code c) = false).
    { apply String.eqb_neq. intros E. apply Hnotin. rewrite E. now apply in_map. }
    assert (Hx' : (String.eqb
                     (rc_code (if Nat.eqb (rc_id x) (rc_id c)
                               then ReferralCode.bump_usage x else x))
                     (rc_code c)
                   && ReferralCode.usable t
                        (if Nat.eqb (rc_id x) (rc_id c)
                         then ReferralCode.bump_usage x else x)) = false).
    { destruct (Nat.eqb (rc_id x) (rc_id c)); [|exact Hx].
      change (rc_code (ReferralCode.bump_usage x)) with (rc_code x).
      now rewrite Hne. }
    rewrite Hx'. now apply IH.
Qed.

(** X13. One use of a code that validates adds one to the usage count of
    the rows of its id.  Codes being unique, the code then validates to
    its row with one use more while uses are left; once the use was the
    last the code allows, it validates no more: the validation endpoint
    answers 404, and every creation of a referral with that code is
    answered 400 and changes nothing. *)
Theorem code_exhausted_after_last_use :
  forall (code : string) (c : referral_code_row) (w : world),
    fst (ReferralCode.validateCode code w) = Normal (Some c) ->
    NoDup (map rc_code (referral_codes w)) ->
    let w' := snd (ReferralCode.incrementUsage (rc_id c) w) in
    referral_codes w'
      = map (fun x => if Nat.eqb (rc_id x) (rc_id c) then ReferralCode.bump_usage x else x)
            (referral_codes w)
    /\ (rc_usage_count c + 1 < rc_max_usage c ->
        fst (ReferralCode.validateCode code w')
          = Normal (Some (ReferralCode.bump_usage c)))
    /\ (rc_usage_count c + 1 = rc_max_usage c ->
        fst (ReferralCode.validateCode code w') = Normal None
        /\ fst (ReferralCodeController.validateReferralCode code w')
           = Normal (refuse 404 "Invalid or expired referral code")
        /\ forall body,
             Validator.rb_referral_code body = Some code ->
             exists resp,
               ReferralController.createReferral body w' = (Normal resp, w')
               /\ status_code resp = 400).
Proof.
  intros code c w Hvalid Hcodes w'.
  assert (Hcodes' : referral_codes w'
                    = map (fun x => if Nat.eqb (rc_id x) (rc_id c)
                                    then ReferralCode.bump_usage x else x)
                          (referral_codes w)) by reflexivity.
  assert (Hclock : clock w' = clock w) by reflexivity.
  clearbody w'.
  split; [exact Hcodes'|].
  unfold ReferralCode.validateCode, gets in Hvalid. simpl in Hvalid.
  injection Hvalid as Hvalid.
  pose proof (find_code_in code (clock w) (referral_codes w) c Hvalid)
    as [Hin [Hcc Husable]].
  split.
  - intros Hleft.
    unfold ReferralCode.validateCode, gets. cbn [fst].
    rewrite Hcodes', Hclock.
    rewrite (validateCode_after_use c code (clock w) (referral_codes w) Hcodes Hvalid);
      [reflexivity|].
    unfold ReferralCode.usable in Husable |- *. cbn [ReferralCode.bump_usage
      rc_is_active rc_usage_count rc_max_usage rc_expiry_date].
    apply andb_true_iff in Husable. destruct Husable as [Hau Hexp].
    apply andb_true_iff in Hau. destruct Hau as [Hact _].
    rewrite Hact, Hexp. apply Z.ltb_lt in Hleft. now rewrite Hleft.
  - intros Hlast.
    assert (Hnone : find (fun x => String.eqb (rc_code x) code
                                   && ReferralCode.usable (clock w') x)
                         (referral_codes w') = None).
    { rewrite Hcodes', Hclock, <- Hcc.
      apply validateCode_after_write; [exact Hcodes|exact Hin|reflexivity|].
      unfold ReferralCode.usable. simpl. rewrite Hlast, Z.ltb_irrefl.
      now rewrite andb_false_r. }
    split; [|split].
    + unfold ReferralCode.validateCode, gets. simpl. now rewrite Hnone.
    + unfold ReferralCodeController.validateReferralCode, try_catch, bind,
        ReferralCode.validateCode, gets. simpl. now rewrite Hnone.
    + intros body Hbody. rewrite createReferral_run.
      destruct (Validator.validateReferral body) as [key rule|value] eqn:Hv.
      { eexists. split; reflexivity. }
      apply validateReferral_value in Hv. destruct Hv as [Hc _].
      rewrite Hbody in Hc. injection Hc as Hc. rewrite <- Hc, Hnone.
      eexists. split; reflexivity.
Qed.

(** The scenario: a code with 1 use left out of 50 validates no more
    after that use. *)
Lemma code_exhausted_after_last_use_witness :
  fst (ReferralCode.validateCode "CUS7F3K2A"
         (snd (ReferralCode.incrementUsage (rc_id nearly_used_code) last_use_world)))
  = Normal None.
Proof.
  destruct (code_exhausted_after_last_use "CUS7F3K2A" nearly_used_code last_use_world)
    as [_ [_ H]].
  - reflexivity.
  - repeat constructor. simpl. tauto.
  - apply H. reflexivity.
Defined.

(** ** Creating, validating and deactivating a code *)

(** X14. [ReferralCode.create] with a code that a stored row has throws
    the duplicate-entry error of the store, and a creation that throws
    adds no row.  A creation that returns has added one row, unused and
    active, and hands that row back; when the row allows at least one
    use and its expiry date, if any, lies ahead, [validateCode] finds
    that row by its code. *)
Theorem referral_code_create_then_validate :
  forall (suffix : string) (codeData : ReferralCode.code_data) (w : world),
    let row := ReferralCode.new_row (uuid_supply w) (env w) suffix codeData in
    let w' := snd (ReferralCode.create suffix codeData w) in
    ((exists c, In c (referral_codes w) /\ rc_code c = rc_code row) ->
     fst (ReferralCode.create suffix codeData w) = Thrown (ER_DUP_ENTRY "code"))
    /\ (forall e, fst (ReferralCode.create suffix codeData w) = Thrown e ->
                  referral_codes w' = referral_codes w)
    /\ (forall created,
          fst (ReferralCode.create suffix codeData w) = Normal created ->
          created = Some row
          /\ referral_codes w' = row :: referral_codes w
          /\ rc_usage_count row = 0
          /\ rc_is_active row = true
          /\ (0 < rc_max_usage row ->
              (forall e, ReferralCode.cd_expiry_date codeData = Some e -> clock w < e) ->
              fst (ReferralCode.validateCode (rc_code row) w') = Normal (Some row))).
Proof.
  intros suffix codeData w row w'.
  assert (Hrun : ReferralCode.create suffix codeData w
                 = if existsb (fun c => String.eqb (rc_code c) (rc_code row))
                              (referral_codes w)
                   then (Thrown (ER_DUP_ENTRY "code"),
                         with_uuid_supply (S (uuid_supply w)) w)
                   else (Normal (Some row),
                         with_referral_codes (row :: referral_codes w)
                           (with_uuid_supply (S (uuid_supply w)) w))).
  { unfold ReferralCode.create, ReferralCode.insert, ReferralCode.findById.
    unfold bind, uuidv4, gets, ret. simpl. fold row.
    destruct (existsb _ (referral_codes w)); [reflexivity|].
    simpl. rewrite Nat.eqb_refl. reflexivity. }
  subst w'. rewrite Hrun. split; [|split].
  - intros [c [Hin Hc]].
    assert (Hdup : existsb (fun c => String.eqb (rc_code c) (rc_code row))
                           (referral_codes w) = true).
    { apply existsb_exists. exists c. split; [exact Hin|]. now apply String.eqb_eq. }
    rewrite Hdup. reflexivity.
  - intros e. destruct (existsb _ (referral_codes w)); [reflexivity|discriminate].
  - intros created. destruct (existsb _ (referral_codes w)); [discriminate|].
    simpl. intros H. injection H as <-.
    split; [reflexivity|]. split; [reflexivity|]. split; [reflexivity|].
    split; [reflexivity|].
    intros Hmax Hexp.
    unfold ReferralCode.validateCode, gets. simpl.
    rewrite String.eqb_refl. simpl.
    assert (Hu : ReferralCode.usable (clock w) row = true).
    { unfold ReferralCode.usable. cbn [rc_is_active rc_usage_count row ReferralCode.new_row].
      apply Z.ltb_lt in Hmax. simpl andb.
      change (rc_usage_count row) with 0. rewrite Hmax. simpl.
      change (rc_expiry_date row) with (ReferralCode.cd_expiry_date codeData).
      destruct (ReferralCode.cd_expiry_date codeData) as [e|]; [|reflexivity].
      apply Z.ltb_lt. now apply Hexp. }
    rewrite Hu. reflexivity.
Qed.

Lemma referral_code_create_then_validate_witness :
  fst (ReferralCode.create "7F3K2A" sample_code_data
         (snd (ReferralCode.create "7F3K2A" sample_code_data (code_world [] []))))
    = Thrown (ER_DUP_ENTRY "code")
  /\ fst (ReferralCode.validateCode "ALICE2026"
            (snd (ReferralCode.create "7F3K2A" sample_code_data (code_world [] []))))
     = Normal (Some (ReferralCode.new_row 10%nat no_env "7F3K2A" sample_code_data)).
Proof.
  destruct (referral_code_create_then_validate "7F3K2A" sample_code_data
              (code_world [] [])) as [_ [_ Hnew]].
  destruct (referral_code_create_then_validate "7F3K2A" sample_code_data
              (snd (ReferralCode.create "7F3K2A" sample_code_data (code_world [] []))))
    as [Hdup _].
  destruct (Hnew _ eq_refl) as [_ [_ [_ [_ H2]]]].
  split.
  - apply Hdup.
    exists (ReferralCode.new_row 10%nat no_env "7F3K2A" sample_code_data).
    split; [now left|reflexivity].
  - apply H2; [reflexivity|discriminate].
Defined.

Lemma deactivateCode_run (id : uuid) (w : world) :
  ReferralCode.deactivateCode id w
  = (Normal (Nat.ltb 0 (List.length
                          (filter (fun c => Nat.eqb (rc_id c) id) (referral_codes w)))),
     with_referral_codes
       (map (fun c => if Nat.eqb (rc_id c) id then ReferralCode.switch_off c else c)
            (referral_codes w)) w).
Proof. reflexivity. Qed.

Lemma ReferralCode_findById_in (id : uuid) (w : world) (code : referral_code_row) :
  fst (ReferralCode.findById id w) = Normal (Some code) ->
  In code (referral_codes w) /\ rc_id code = id.
Proof.
  unfold ReferralCode.findById, gets. simpl. intros H. injection H as H.
  apply find_some in H. destruct H as [Hin Hid]. apply Nat.eqb_eq in Hid. auto.
Qed.

(** X15. Deactivating a code that exists: a caller who is neither the
    owner nor admin or sales is answered 403 and nothing changes; the
    owner, or admin or sales, is answered 200, every code of that id is
    inactive afterwards, and, codes being unique, the code validates no
    more and deactivating it again is answered 200 without a change. *)
Theorem deactivate_code_only_by_owner_or_staff :
  forall (id : uuid) (u : user) (w : world) (code : referral_code_row),
    fst (ReferralCode.findById id w) = Normal (Some code) ->
    let w' := snd (ReferralCodeController.deactivateReferralCode id u w) in
    (rc_owner_id code <> user_id u -> ReferralCodeController.is_staff u = false ->
     ReferralCodeController.deactivateReferralCode id u w
       = (Normal (refuse 403 "Access denied"), w))
    /\ (rc_owner_id code = user_id u \/ ReferralCodeController.is_staff u = true ->
        (exists resp,
           fst (ReferralCodeController.deactivateReferralCode id u w) = Normal resp
           /\ status_code resp = 200 /\ success resp = true)
        /\ (forall c, In c (referral_codes w') -> rc_id c = id -> rc_is_active c = false)
        /\ (NoDup (map rc_code (referral_codes w)) ->
            fst (ReferralCodeController.validateReferralCode (rc_code code) w')
              = Normal (refuse 404 "Invalid or expired referral code")
            /\ ReferralCodeController.deactivateReferralCode id u w'
               = (Normal {| status_code := 200; success := true;
                            message := "Referral code deactivated successfully";
                            data := None |}, w'))).
Proof.
  intros id u w code Hfind w'.
  assert (Hrun : ReferralCodeController.deactivateReferralCode id u w
                 = if negb (String.eqb (rc_owner_id code) (user_id u))
                      && negb (ReferralCodeController.is_staff u)
                   then (Normal (refuse 403 "Access denied"), w)
                   else (Normal {| status_code := 200; success := true;
                                   message := "Referral code deactivated successfully";
                                   data := None |},
                         with_referral_codes
                           (map (fun c => if Nat.eqb (rc_id c) id
                                          then ReferralCode.switch_off c else c)
                                (referral_codes w)) w)).
  { unfold ReferralCodeController.deactivateReferralCode, try_catch.
    unfold bind at 1.
    unfold ReferralCode.findById, gets in Hfind |- *. simpl in Hfind |- *.
    injection Hfind as Hfind. rewrite Hfind.
    destruct (negb _ && negb _); [reflexivity|].
    unfold bind. rewrite deactivateCode_run. reflexivity. }
  split.
  - intros Hne Hstaff. rewrite Hrun.
    apply String.eqb_neq in Hne. rewrite Hne, Hstaff. reflexivity.
  - intros Hallowed.
    assert (Hcond : negb (String.eqb (rc_owner_id code) (user_id u))
                    && negb (ReferralCodeController.is_staff u) = false).
    { destruct Hallowed as [Ho|Hs].
      - apply String.eqb_eq in Ho. now rewrite Ho.
      - rewrite Hs. apply andb_false_r. }
    subst w'. rewrite Hrun, Hcond. simpl.
    split; [eexists; split; [reflexivity|split; reflexivity]|].
    split.
    + intros c Hin Hid. apply in_map_iff in Hin. destruct Hin as [x [Hx _]].
      destruct (Nat.eqb (rc_id x) id) eqn:E.
      * subst c. reflexivity.
      * subst c. apply Nat.eqb_neq in E. contradiction.
    + intros Hcodes.
      destruct (ReferralCode_findById_in id w code Hfind) as [Hin Hid].
      set (w' := with_referral_codes _ w).
      split.
      * unfold ReferralCodeController.validateReferralCode, try_catch, bind,
          ReferralCode.validateCode, gets. simpl.
        rewrite <- Hid.
        rewrite (validateCode_after_write ReferralCode.switch_off code (clock w)
                   (referral_codes w) Hcodes Hin); [reflexivity|reflexivity|].
        reflexivity.
      * assert (Hfind' : fst (ReferralCode.findById id w')
                         = Normal (Some (ReferralCode.switch_off code))).
        { unfold ReferralCode.findById, gets. subst w'. simpl.
          unfold ReferralCode.findById, gets in Hfind. simpl in Hfind.
          injection Hfind as Hfind. f_equal.
          clear - Hfind. induction (referral_codes w) as [|x l IH]; [discriminate|].
          simpl in *. destruct (Nat.eqb (rc_id x) id) eqn:E.
          - injection Hfind as <-. simpl. rewrite E. reflexivity.
          - rewrite E. now apply IH. }
        unfold ReferralCodeController.deactivateReferralCode, try_catch.
        unfold bind at 1.
        unfold ReferralCode.findById, gets in Hfind' |- *. simpl in Hfind' |- *.
        injection Hfind' as Hfind'. rewrite Hfind'.
        change (rc_owner_id (ReferralCode.switch_off code)) with (rc_owner_id code).
        rewrite Hcond.
        unfold bind. rewrite deactivateCode_run. simpl.
        f_equal. subst w'. unfold with_referral_codes. simpl. f_equal.
        rewrite ?map_map. apply map_ext. intros x.
        destruct (Nat.eqb (rc_id x) id) eqn:E; simpl; rewrite ?E; reflexivity.
Qed.

Lemma deactivate_code_only_by_owner_or_staff_witness :
  ReferralCodeController.deactivateReferralCode 9%nat bob_user (code_world [] [])
    = (Normal (refuse 403 "Access denied"), code_world [] [])
  /\ fst (ReferralCodeController.validateReferralCode "CUS7F3K2A"
            (snd (ReferralCodeController.deactivateReferralCode 9%nat alice_user
                    (code_world [] []))))
     = Normal (refuse 404 "Invalid or expired referral code").
Proof.
  destruct (deactivate_code_only_by_owner_or_staff 9%nat bob_user (code_world [] [])
              sample_code eq_refl) as [Hdenied _].
  destruct (deactivate_code_only_by_owner_or_staff 9%nat alice_user (code_world [] [])
              sample_code eq_refl) as [_ Hallowed].
  split.
  - apply Hdenied; [vm_compute; discriminate|reflexivity].
  - destruct (Hallowed (or_introl eq_refl)) as [_ [_ H]].
    apply H. repeat constructor. simpl. tauto.
Defined.

(** X16. The validation endpoint writes nothing and answers 200 or the
    one 404, which does not tell an unknown code from one that is
    inactive, used up or expired.  An answer of 200 shows a stored code
    that is active, used fewer times than its maximum and not past its
    expiry date; and a stored code of the text asked for that is active,
    under its maximum and unexpired is answered 200. *)
Theorem validate_referral_code_endpoint :
  forall (code : string) (w : world),
    snd (ReferralCodeController.validateReferralCode code w) = w
    /\ exists resp,
         fst (ReferralCodeController.validateReferralCode code w) = Normal resp
         /\ (resp = refuse 404 "Invalid or expired referral code"
             \/ status_code resp = 200)
         /\ (status_code resp = 200 ->
             exists c shown,
               In c (referral_codes w)
               /\ rc_is_active c = true
               /\ rc_usage_count c < rc_max_usage c
               /\ (forall e, rc_expiry_date c = Some e -> clock w < e)
               /\ data resp = Some shown
               /\ ReferralCodeController.cs_code shown = rc_code c
               /\ ReferralCodeController.cs_usage_count shown = rc_usage_count c
               /\ ReferralCodeController.cs_max_usage shown = rc_max_usage c)
         /\ ((exists c, In c (referral_codes w) /\ rc_code c = code
                        /\ rc_is_active c = true
                        /\ rc_usage_count c < rc_max_usage c
                        /\ (forall e, rc_expiry_date c = Some e -> clock w < e)) ->
             status_code resp = 200).
Proof.
  intros code w.
  unfold ReferralCodeController.validateReferralCode, try_catch, bind,
    ReferralCode.validateCode, gets. simpl.
  destruct (find _ (referral_codes w)) as [c|] eqn:Hfind; simpl.
  - split; [reflexivity|]. eexists. split; [reflexivity|]. split; [right; reflexivity|].
    split; [intros _|reflexivity].
    apply find_code_in in Hfind. destruct Hfind as [Hin [Hc Hu]].
    exists c. eexists. split; [exact Hin|].
    unfold ReferralCode.usable in Hu.
    apply andb_true_iff in Hu. destruct Hu as [Hu He].
    apply andb_true_iff in Hu. destruct Hu as [Ha Hn].
    split; [exact Ha|]. split; [now apply Z.ltb_lt|].
    split; [intros e Hexp; rewrite Hexp in He; now apply Z.ltb_lt|].
    split; [reflexivity|]. repeat split.
  - split; [reflexivity|]. eexists. split; [reflexivity|]. split; [left; reflexivity|].
    split; [discriminate|].
    intros [c [Hin [Hc [Ha [Hn Hexp]]]]]. exfalso.
    apply (find_some_of_In _ _ c Hin) in Hfind; [exact Hfind|].
    rewrite Hc, String.eqb_refl. unfold ReferralCode.usable.
    rewrite Ha. apply Z.ltb_lt in Hn. rewrite Hn. simpl.
    destruct (rc_expiry_date c) as [e|]; [|reflexivity].
    apply Z.ltb_lt. now apply Hexp.
Qed.

(** ** Campaigns *)

Lemma Campaign_update_where_id_run (id : uuid) (f : campaign_row -> campaign_row)
  (w : world) :
  (forall c, cp_id (f c) = cp_id c) ->
  Campaign.update_where_id id f w
  = (Normal (option_map f (find (fun c => Nat.eqb (cp_id c) id) (campaigns w))),
     with_campaigns (map (fun c => if Nat.eqb (cp_id c) id then f c else c) (campaigns w)) w).
Proof.
  intros Hf. unfold Campaign.update_where_id, bind, modify, Campaign.findById, gets.
  simpl. f_equal. f_equal.
  induction (campaigns w) as [|c l IH]; [reflexivity|]. simpl.
  destruct (Nat.eqb (cp_id c) id) eqn:E; simpl.
  - rewrite Hf, E. reflexivity.
  - rewrite E. exact IH.
Qed.

(** X17. [Campaign.create] adds one campaign and hands it back: active,
    with no participants, under the identifier drawn, and never with a
    maximum of 0 participants (a maximum of 0 is stored as none).
    Deleting it by its id, no other campaign having that id, gives back
    the campaigns as they were. *)
Theorem campaign_create_then_delete :
  forall (campaignData : Campaign.campaign_data) (w : world),
    let w' := snd (Campaign.create campaignData w) in
    exists row,
      fst (Campaign.create campaignData w) = Normal (Some row)
      /\ campaigns w' = row :: campaigns w
      /\ cp_id row = uuid_supply w
      /\ cp_is_active row = true
      /\ cp_current_participants row = 0
      /\ cp_max_participants row <> Some 0
      /\ (Forall (fun c => cp_id c <> uuid_supply w) (campaigns w) ->
          campaigns (snd (Campaign.delete (cp_id row) w')) = campaigns w).
Proof.
  intros campaignData w w'.
  assert (Hrun : Campaign.create campaignData w
                 = (Normal (Some (Campaign.new_row (uuid_supply w) campaignData)),
                    with_campaigns
                      (Campaign.new_row (uuid_supply w) campaignData :: campaigns w)
                      (with_uuid_supply (S (uuid_supply w)) w))).
  { unfold Campaign.create, bind, uuidv4, modify, Campaign.findById, gets. simpl.
    rewrite Nat.eqb_refl. reflexivity. }
  subst w'. rewrite Hrun. simpl.
  exists (Campaign.new_row (uuid_supply w) campaignData).
  split; [reflexivity|]. split; [reflexivity|]. split; [reflexivity|].
  split; [reflexivity|]. split; [reflexivity|]. split.
  - simpl. destruct (Campaign.pd_max_participants campaignData) as [m|]; [|discriminate].
    destruct (m =? 0) eqn:E; [discriminate|].
    intros H. injection H as ->. discriminate.
  - intros Hfresh. rewrite Nat.eqb_refl. simpl. clear Hrun.
    induction Hfresh as [|c l Hc _ IH]; [reflexivity|]. simpl.
    apply Nat.eqb_neq in Hc. rewrite Hc. simpl. now rewrite IH.
Qed.

(** X18. [decrementParticipants] leaves no campaign of that id with a
    negative count; at a count of 0 or less it answers the campaign with
    a count of 0; and after an increment it gives back the campaigns as
    they were, provided no count of that id was negative. *)
Theorem campaign_participants_never_negative :
  forall (id : uuid) (w : world),
    (forall c, In c (campaigns (snd (Campaign.decrementParticipants id w))) ->
               cp_id c = id -> 0 <= cp_current_participants c)
    /\ (Forall (fun c => cp_id c = id -> 0 <= cp_current_participants c) (campaigns w) ->
        campaigns (snd (Campaign.decrementParticipants id
                          (snd (Campaign.incrementParticipants id w))))
          = campaigns w)
    /\ (forall c, fst (Campaign.findById id w) = Normal (Some c) ->
                  cp_current_participants c <= 0 ->
                  exists c',
                    fst (Campaign.decrementParticipants id w) = Normal (Some c')
                    /\ cp_current_participants c' = 0).
Proof.
  intros id w. unfold Campaign.decrementParticipants.
  rewrite !Campaign_update_where_id_run by reflexivity.
  split; [|split].
  - simpl. intros c Hin Hid. apply in_map_iff in Hin. destruct Hin as [x [Hx _]].
    destruct (Nat.eqb (cp_id x) id) eqn:E.
    + subst c. simpl. lia.
    + subst c. apply Nat.eqb_neq in E. contradiction.
  - intros Hpos. simpl.
    unfold Campaign.incrementParticipants, bind, modify, Campaign.findById, gets. simpl.
    rewrite map_map.
    induction Hpos as [|c l Hc _ IH]; [reflexivity|]. simpl. rewrite IH. f_equal.
    destruct (Nat.eqb (cp_id c) id) eqn:E; simpl; rewrite E; [|reflexivity].
    apply Nat.eqb_eq in E. specialize (Hc E).
    destruct c; simpl in *.
    unfold Campaign.set_participants, Campaign.bump_participants. simpl.
    f_equal. lia.
  - intros c Hfind Hc. unfold Campaign.findById, gets in Hfind. simpl in Hfind.
    injection Hfind as Hfind. simpl. rewrite Hfind. simpl.
    eexists. split; [reflexivity|]. simpl. lia.
Qed.

(** X19. After [deactivateCampaign], a settlement request for that
    campaign returns [null] and changes nothing, whoever asks and with
    whatever amount. *)
Theorem deactivated_campaign_grants_nothing :
  forall (id : uuid) (userId userType : string) (customAmount : option Q)
         (customDescription : option string) (w : world),
    let w1 := snd (Campaign.deactivateCampaign id w) in
    RewardService.processCampaignReward userId userType id customAmount
      customDescription w1
    = (Normal None, w1)
    /\ rewards w1 = rewards w.
Proof.
  intros id userId userType customAmount customDescription w w1.
  subst w1. unfold Campaign.deactivateCampaign.
  rewrite Campaign_update_where_id_run by reflexivity. simpl snd.
  split; [|reflexivity].
  rewrite processCampaignReward_run. simpl campaigns.
  destruct (find _ _) as [c|] eqn:Hfind; [|reflexivity].
  apply find_some in Hfind. destruct Hfind as [Hin Hid].
  apply in_map_iff in Hin. destruct Hin as [x [Hx _]].
  assert (Hoff : cp_is_active c = false).
  { destruct (Nat.eqb (cp_id x) id) eqn:E.
    - subst c. reflexivity.
    - subst c. congruence. }
  rewrite Hoff. reflexivity.
Qed.

(** ** The campaign schema *)

Lemma string_valid_value (key : string) (allowed : list string) (s v : string) :
  Validator.string_valid key allowed s = Validator.JoiValue v -> v = s /\ In s allowed.
Proof.
  unfold Validator.string_valid. intros H.
  apply jbind_value in H. destruct H as [? [Hrule H]]. injection H as <-.
  apply rule_value in Hrule. apply existsb_exists in Hrule.
  destruct Hrule as [y [Hin Hy]]. apply String.eqb_eq in Hy. subst y. auto.
Qed.

Lemma number_precision2_value (key : string) (q v : Q) :
  Validator.number_precision2 key q = Validator.JoiValue v -> v = Validator.round2 q.
Proof.
  unfold Validator.number_precision2. intros H.
  apply jbind_value in H. destruct H as [? [_ H]]. now injection H as <-.
Qed.

Lemma required_value {A} (key : string) (x : option A) (a : A) :
  Validator.required key x = Validator.JoiValue a -> x = Some a.
Proof. destruct x; simpl; intros H; [now injection H as <-|discriminate]. Qed.

Lemma Qlt_bool_true (a b : Q) : Validator.Qlt_bool a b = true -> (a < b)%Q.
Proof.
  unfold Validator.Qlt_bool. intros H. apply negb_true_iff in H.
  now apply Qle_bool_false in H.
Qed.

(** X20. A campaign request that validation accepts ends later than it
    starts; it asked for a bonus, and both the bonus asked for and the
    bonus validation hands on are strictly positive; its minimum
    requirement is not negative; its maximum of participants, when
    given, is a strictly positive integer; and its type, audience and
    bonus type are among the listed ones, the defaults included. *)
Theorem campaign_request_accepted :
  forall (data : Validator.campaign_body) (value : Validator.campaign_value),
    Validator.validateCampaign data = Validator.JoiValue value ->
    Validator.mb_start_date data = Some (Validator.mv_start_date value)
    /\ Validator.mv_start_date value < Validator.mv_end_date value
    /\ (exists b, Validator.mb_bonus_amount data = Some b /\ (0 < b)%Q)
    /\ (0 < Validator.mv_bonus_amount value)%Q
    /\ (0 <= Validator.mv_minimum_requirement value)%Q
    /\ (forall m, Validator.mv_max_participants value = Some m ->
                  (0 < m)%Q /\ exists z : Z, m == inject_Z z)
    /\ In (Validator.mv_campaign_type value)
          ["referral"; "milestone"; "seasonal"; "promotional"]
    /\ In (Validator.mv_target_audience value) ["customer"; "driver"; "restaurant"; "all"]
    /\ In (Validator.mv_bonus_type value) ["cash"; "credit"; "percentage"].
Proof.
  intros data value H. unfold Validator.validateCampaign in H.
  apply jbind_value in H. destruct H as [name [_ H]].
  apply jbind_value in H. destruct H as [description [_ H]].
  apply jbind_value in H. destruct H as [campaign_type [Htype H]].
  apply jbind_value in H. destruct H as [target_audience [Haud H]].
  apply jbind_value in H. destruct H as [bonus_amount [Hbonus H]].
  apply jbind_value in H. destruct H as [bonus_type [Hbt H]].
  apply jbind_value in H. destruct H as [minimum [Hmin H]].
  apply jbind_value in H. destruct H as [max_participants [Hmax H]].
  apply jbind_value in H. destruct H as [start_date [Hstart H]].
  apply jbind_value in H. destruct H as [end_date [Hend H]].
  apply jbind_value in H. destruct H as [terms [_ H]].
  injection H as <-. simpl.
  apply optional_value in Haud, Hbt, Hmin, Hmax.
  apply required_value in Hstart.
  split; [exact Hstart|]. split.
  { apply jbind_value in Hend. destruct Hend as [d [_ Hend]].
    apply jbind_value in Hend. destruct Hend as [? [Hgt Hend]].
    injection Hend as <-. apply rule_value in Hgt. now apply Z.ltb_lt. }
  apply jbind_value in Hbonus. destruct Hbonus as [b [Hb Hbonus]].
  apply required_value in Hb.
  apply jbind_value in Hbonus. destruct Hbonus as [q [Hround Hbonus]].
  apply number_precision2_value in Hround. subst q.
  apply jbind_value in Hbonus. destruct Hbonus as [? [Hpos Hbonus]].
  injection Hbonus as <-. apply rule_value, Qlt_bool_true in Hpos.
  split.
  { exists b. split; [exact Hb|]. now apply round2_positive. }
  split; [exact Hpos|]. split.
  { destruct (Validator.mb_minimum_requirement data) as [m|].
    - destruct Hmin as [m' [Hk ->]]. simpl.
      apply jbind_value in Hk. destruct Hk as [q [_ Hk]].
      apply jbind_value in Hk. destruct Hk as [? [Hge Hk]].
      injection Hk as <-. apply rule_value in Hge. now apply Qle_bool_iff.
    - subst minimum. simpl. apply Qle_refl. }
  split.
  { intros m Hm. subst max_participants.
    destruct (Validator.mb_max_participants data) as [m0|]; [|discriminate].
    destruct Hmax as [m' [Hk Hm']]. injection Hm' as <-.
    unfold Validator.number_positive_integer in Hk.
    apply jbind_value in Hk. destruct Hk as [q [Hsafe Hk]].
    unfold Validator.number_safe in Hsafe.
    apply jbind_value in Hsafe. destruct Hsafe as [? [_ Hsafe]].
    injection Hsafe as <-.
    apply jbind_value in Hk. destruct Hk as [? [Hint Hk]].
    apply jbind_value in Hk. destruct Hk as [? [Hp Hk]].
    injection Hk as <-. apply rule_value in Hint. apply rule_value, Qlt_bool_true in Hp.
    split; [exact Hp|now apply is_integer_spec]. }
  split.
  { apply jbind_value in Htype. destruct Htype as [s0 [_ Htype]].
    apply string_valid_value in Htype. destruct Htype as [-> Hin]. exact Hin. }
  split.
  { destruct (Validator.mb_target_audience data) as [a|].
    - destruct Haud as [a' [Hk ->]]. simpl.
      apply string_valid_value in Hk. destruct Hk as [-> Hin]. exact Hin.
    - subst target_audience. simpl. tauto. }
  destruct (Validator.mb_bonus_type data) as [a|].
  - destruct Hbt as [a' [Hk ->]]. simpl.
    apply string_valid_value in Hk. destruct Hk as [-> Hin]. exact Hin.
  - subst bonus_type. simpl. tauto.
Qed.

Lemma campaign_request_accepted_witness :
  exists value,
    Validator.validateCampaign sample_campaign_request = Validator.JoiValue value
    /\ Validator.mv_start_date value < Validator.mv_end_date value
    /\ (0 < Validator.mv_bonus_amount value)%Q
    /\ Validator.mv_target_audience value = "all".
Proof.
  eexists. split; [vm_compute; reflexivity|].
  destruct (campaign_request_accepted sample_campaign_request _ eq_refl)
    as [_ [Hdates [_ [Hbonus _]]]].
  split; [exact Hdates|]. split; [exact Hbonus|]. reflexivity.
Defined.

(** ** The first-time bonus *)

Lemma Reward_parse_row_type (r r' : reward_row) :
  Reward.parse_row r = Normal r' -> rw_reward_type r' = rw_reward_type r.
Proof.
  unfold Reward.parse_row.
  destruct (meta_truthy (rw_metadata r)).
  - destruct (JSON_parse (rw_metadata r)); [|discriminate].
    intros H. injection H as <-. reflexivity.
  - intros H. injection H as <-. reflexivity.
Qed.

Lemma map_sync_parse_rewards (l : list reward_row) :
  Forall reward_held_as_text l ->
  exists l', map_sync Reward.parse_row l = Normal l'
             /\ map rw_reward_type l' = map rw_reward_type l.
Proof.
  induction 1 as [|r l Hr _ IH].
  - exists []. split; reflexivity.
  - destruct IH as [l' [Hl' Ht]].
    destruct (Reward_parse_row_held r Hr) as [r' Hr'].
    exists (r' :: l'). simpl. rewrite Hr', Hl'. split; [reflexivity|].
    simpl. rewrite Ht. f_equal. now apply Reward_parse_row_type.
Qed.

Lemma existsb_type (t : reward_type) (l : list reward_row) :
  existsb (fun r => reward_type_eqb (rw_reward_type r) t) l
  = existsb (fun x => reward_type_eqb x t) (map rw_reward_type l).
Proof. induction l as [|r l IH]; [reflexivity|]. simpl. now rewrite IH. Qed.

Lemma In_firstn_In {A} (n : nat) (l : list A) (x : A) :
  In x (firstn n l) -> In x l.
Proof.
  revert l. induction n as [|n IH]; intros [|y l]; simpl; try contradiction.
  intros [H|H]; [now left|right; now apply IH].
Qed.

Lemma Forall_firstn_filter {A} (P : A -> Prop) (n : nat) (p : A -> bool) (l : list A) :
  Forall P l -> Forall P (firstn n (filter p l)).
Proof.
  intros H. rewrite Forall_forall in *. intros x Hx. apply H.
  apply In_firstn_In in Hx. apply filter_In in Hx. tauto.
Qed.

(** What [Reward.findByUser] answers on a store held as text: the rows
    selected, parsed, with their types as stored. *)
Lemma Reward_findByUser_run (userId : string) (limit : nat) (w : world) :
  Forall reward_held_as_text (rewards w) ->
  exists rows,
    Reward.findByUser userId None limit 0 w = (Normal rows, w)
    /\ map_sync Reward.parse_row
         (firstn limit (filter (fun r => String.eqb (rw_user_id r) userId) (rewards w)))
       = Normal rows
    /\ map rw_reward_type rows
       = map rw_reward_type
           (firstn limit (filter (fun r => String.eqb (rw_user_id r) userId) (rewards w))).
Proof.
  intros Hheld.
  destruct (map_sync_parse_rewards
              (firstn limit (filter (fun r => String.eqb (rw_user_id r) userId) (rewards w))))
    as [rows [Hrows Htypes]].
  { now apply Forall_firstn_filter. }
  exists rows. split; [|split; [exact Hrows|exact Htypes]].
  unfold Reward.findByUser, bind, gets, sync. simpl.
  replace (filter (fun r => String.eqb (rw_user_id r) userId && true) (rewards w))
    with (filter (fun r => String.eqb (rw_user_id r) userId) (rewards w)).
  - rewrite Hrows. reflexivity.
  - apply filter_ext. intros r. now rewrite andb_true_r.
Qed.

(** X21. [processFirstTimeBonus], on a store that holds metadata as
    text, never hands a reward to its caller.  When a loyalty bonus is
    among the 100 most recent rewards of the user it returns [null] and
    changes nothing; otherwise it stores a pending loyalty bonus of the
    setting FIRST_ORDER_BONUS, or 5 when that is missing or zero, sends
    one credit request and throws, and a second call returns [null] and
    changes nothing. *)
Theorem first_time_bonus_at_most_once :
  forall (FIRST_ORDER_BONUS : option Q) (userId userType triggerType : string) (w : world),
    Forall reward_held_as_text (rewards w) ->
    let newest :=
      firstn 100 (filter (fun r => String.eqb (rw_user_id r) userId) (rewards w)) in
    let run := RewardService.processFirstTimeBonus FIRST_ORDER_BONUS userId userType
                 triggerType in
    (forall r, fst (run w) <> Normal (Some r))
    /\ (existsb (fun r => reward_type_eqb (rw_reward_type r) loyalty_bonus) newest = true ->
        run w = (Normal None, w))
    /\ (existsb (fun r => reward_type_eqb (rw_reward_type r) loyalty_bonus) newest = false ->
        exists e stored,
          fst (run w) = Thrown e
          /\ rewards (snd (run w)) = stored :: rewards w
          /\ rw_user_id stored = userId
          /\ rw_reward_type stored = loyalty_bonus
          /\ rw_status stored = pending
          /\ rw_amount stored = optnum_or FIRST_ORDER_BONUS 5
          /\ requests (snd (run w))
             = PostCredit userId (optnum_or FIRST_ORDER_BONUS 5) (rw_id stored) :: requests w
          /\ run (snd (run w)) = (Normal None, snd (run w))).
Proof.
  intros FIRST_ORDER_BONUS userId userType triggerType w Hheld newest run.
  destruct (Reward_findByUser_run userId 100 w Hheld) as [rows [Hfind [_ Htypes]]].
  fold newest in Htypes.
  assert (Hsame : existsb (fun r => reward_type_eqb (rw_reward_type r) loyalty_bonus) rows
                  = existsb (fun r => reward_type_eqb (rw_reward_type r) loyalty_bonus)
                            newest).
  { now rewrite !existsb_type, Htypes. }
  set (data := {| wd_user_id := userId;
                  wd_user_type := userType;
                  wd_reward_type := loyalty_bonus;
                  wd_amount := optnum_or FIRST_ORDER_BONUS 5;
                  wd_currency := None;
                  wd_expiry_date := None;
                  wd_source_id := None;
                  wd_source_type := src_manual;
                  wd_description := Some "Welcome bonus for joining our platform!";
                  wd_metadata :=
                    Some [("trigger_type", JString triggerType);
                          ("first_time_bonus", JBool true)] |}).
  set (stored := Reward.new_row (uuid_supply w) (clock w) data).
  set (w1 := with_rewards (stored :: rewards w) (with_uuid_supply (S (uuid_supply w)) w)).
  assert (Hcredit : exists e,
            RewardService.creditReward (uuid_supply w) w1
            = (Thrown e,
               with_requests
                 (PostCredit userId (optnum_or FIRST_ORDER_BONUS 5) (uuid_supply w)
                    :: requests w) w1)).
  { destruct (creditReward_pending (uuid_supply w) w1
                (Reward.set_metadata
                   (MetaObject [("trigger_type", JString triggerType);
                                ("first_time_bonus", JBool true)]) stored))
      as [e He].
    - unfold Reward.findById, bind, gets, ret, sync. simpl.
      rewrite Nat.eqb_refl. reflexivity.
    - reflexivity.
    - exists e. exact He. }
  destruct Hcredit as [e He].
  assert (Hrun : run w
                 = (if existsb (fun r => reward_type_eqb (rw_reward_type r) loyalty_bonus)
                               newest
                    then (Normal None, w)
                    else (Thrown e,
                          with_requests
                            (PostCredit userId (optnum_or FIRST_ORDER_BONUS 5) (uuid_supply w)
                               :: requests w) w1))).
  { subst run. unfold RewardService.processFirstTimeBonus, try_catch.
    unfold bind at 1. rewrite Hfind. cbv zeta. rewrite Hsame.
    destruct (existsb _ newest); [reflexivity|].
    unfold bind at 1. rewrite Reward_create_spec. fold data. cbv zeta. fold stored. fold w1.
    unfold bind at 1. unfold sync at 1. cbn [RewardService.read_id].
    change (rw_id (Reward.set_metadata _ stored)) with (uuid_supply w).
    unfold bind at 1. rewrite He. reflexivity. }
  split; [|split].
  - intros r. rewrite Hrun.
    destruct (existsb _ newest); discriminate.
  - intros Hhas. now rewrite Hrun, Hhas.
  - intros Hnone. rewrite Hrun, Hnone. cbn [fst snd].
    exists e, stored. repeat (split; [reflexivity|]).
    set (w2 := with_requests _ w1).
    assert (Hheld2 : Forall reward_held_as_text (rewards w2)).
    { subst w2 w1. simpl. constructor; [exact I|exact Hheld]. }
    destruct (Reward_findByUser_run userId 100 w2 Hheld2) as [rows2 [Hfind2 [_ Htypes2]]].
    subst run. unfold RewardService.processFirstTimeBonus, try_catch.
    unfold bind at 1. rewrite Hfind2. cbv zeta.
    rewrite existsb_type, Htypes2. subst w2 w1. simpl.
    rewrite String.eqb_refl. simpl. reflexivity.
Qed.

Lemma first_time_bonus_at_most_once_witness :
  (exists e stored,
     fst (RewardService.processFirstTimeBonus None bob "customer" "registration"
            empty_world) = Thrown e
     /\ rewards (snd (RewardService.processFirstTimeBonus None bob "customer"
                        "registration" empty_world)) = stored :: rewards empty_world
     /\ rw_user_id stored = bob
     /\ rw_reward_type stored = loyalty_bonus
     /\ rw_status stored = pending
     /\ rw_amount stored = optnum_or None 5
     /\ requests (snd (RewardService.processFirstTimeBonus None bob "customer"
                         "registration" empty_world))
        = PostCredit bob (optnum_or None 5) (rw_id stored) :: requests empty_world
     /\ RewardService.processFirstTimeBonus None bob "customer" "registration"
          (snd (RewardService.processFirstTimeBonus None bob "customer"
                  "registration" empty_world))
        = (Normal None,
           snd (RewardService.processFirstTimeBonus None bob "customer"
                  "registration" empty_world))).
Proof.
  destruct (first_time_bonus_at_most_once None bob "customer" "registration" empty_world)
    as [_ [_ H]].
  - constructor.
  - apply H. reflexivity.
Defined.

(** ** Batches *)

Lemma processRequest_known (FIRST_ORDER_BONUS : option Q)
  (request : RewardService.reward_request) :
  match RewardService.processRequest FIRST_ORDER_BONUS request with
  | Some _ => known_type request = true
  | None => known_type request = false
  end.
Proof.
  unfold RewardService.processRequest, known_type. simpl.
  destruct (String.eqb (RewardService.rq_type request) "referral"); [reflexivity|].
  destruct (String.eqb (RewardService.rq_type request) "milestone"); [reflexivity|].
  destruct (String.eqb (RewardService.rq_type request) "campaign"); [reflexivity|].
  destruct (String.eqb (RewardService.rq_type request) "first_time"); reflexivity.
Qed.

Lemma processReferralRequest_throws (data : option referral_row) (w : world) :
  exists e w', RewardService.processReferralRequest data w = (Thrown e, w').
Proof.
  destruct data as [referral|]; simpl.
  - destruct (processReferralRewards_run referral w) as [e He]. cbv zeta in He.
    rewrite He. eexists. eexists. reflexivity.
  - eexists. eexists. reflexivity.
Qed.

(** One turn of the loop of [bulkProcessRewards]. *)
Lemma bulk_step (FIRST_ORDER_BONUS : option Q) (request : RewardService.reward_request)
  (process : async RewardService.processed) (w : world) :
  RewardService.processRequest FIRST_ORDER_BONUS request = Some process ->
  exists result w1,
    try_catch
      (reward <- process ;;
       ret {| RewardService.br_success := true; RewardService.br_request := request;
              RewardService.br_reward := Some reward;
              RewardService.br_error := None |})
      (fun error =>
         ret {| RewardService.br_success := false; RewardService.br_request := request;
                RewardService.br_reward := None;
                RewardService.br_error := Some error |}) w
    = (Normal result, w1)
    /\ RewardService.br_request result = request
    /\ (RewardService.rq_type request = "referral" ->
        RewardService.br_success result = false).
Proof.
  intros Hp. unfold try_catch, bind.
  destruct (process w) as [[v|e] w1] eqn:Hrun.
  - eexists. eexists. split; [reflexivity|]. split; [reflexivity|].
    intros Htype. exfalso.
    unfold RewardService.processRequest in Hp. rewrite Htype in Hp. simpl in Hp.
    injection Hp as <-. unfold bind in Hrun.
    destruct (processReferralRequest_throws (RewardService.rq_data request) w)
      as [e [w' He]].
    rewrite He in Hrun. discriminate.
  - eexists. eexists. split; [reflexivity|]. split; reflexivity.
Qed.

Lemma bulkLoop_run (FIRST_ORDER_BONUS : option Q)
  (rewardRequests : list RewardService.reward_request)
  (acc : list RewardService.bulk_result) (w : world) :
  exists results w',
    RewardService.bulkLoop FIRST_ORDER_BONUS rewardRequests acc w
      = (Normal (acc ++ results)%list, w')
    /\ map RewardService.br_request results = filter known_type rewardRequests
    /\ Forall (fun result =>
                 RewardService.rq_type (RewardService.br_request result) = "referral" ->
                 RewardService.br_success result = false) results.
Proof.
  revert acc w. induction rewardRequests as [|request rest IH]; intros acc w.
  - exists [], w. simpl. rewrite app_nil_r. repeat split. constructor.
  - simpl. pose proof (processRequest_known FIRST_ORDER_BONUS request) as Hknown.
    destruct (RewardService.processRequest FIRST_ORDER_BONUS request) as [process|] eqn:Hp.
    + destruct (bulk_step FIRST_ORDER_BONUS request process w Hp)
        as [result [w1 [Hstep [Hreq Hfail]]]].
      unfold bind at 1. rewrite Hstep.
      destruct (IH (acc ++ [result])%list w1) as [results [w' [Hrun [Hmap Hall]]]].
      exists (result :: results), w'. rewrite Hrun, Hknown.
      split; [now rewrite <- app_assoc|]. split.
      * simpl. now rewrite Hreq, Hmap.
      * constructor; [|exact Hall]. now rewrite Hreq.
    + rewrite Hknown. apply IH.
Qed.

(** X22. [bulkProcessRewards] never throws: it answers one result for
    each request of a known type, in the order of the requests, requests
    of another type being passed over; and every result for a request of
    type referral is a failure. *)
Theorem bulk_rewards_never_throw :
  forall (FIRST_ORDER_BONUS : option Q)
         (rewardRequests : list RewardService.reward_request) (w : world),
    exists results,
      fst (RewardService.bulkProcessRewards FIRST_ORDER_BONUS rewardRequests w)
        = Normal results
      /\ map RewardService.br_request results = filter known_type rewardRequests
      /\ Forall (fun result =>
                   RewardService.rq_type (RewardService.br_request result) = "referral" ->
                   RewardService.br_success result = false) results.
Proof.
  intros FIRST_ORDER_BONUS rewardRequests w.
  destruct (bulkLoop_run FIRST_ORDER_BONUS rewardRequests [] w)
    as [results [w' [Hrun H]]].
  exists results. split; [|exact H].
  unfold RewardService.bulkProcessRewards, try_catch. now rewrite Hrun.
Qed.

(** ** Milestones *)

Lemma milestoneAmounts_of (e : process_env) (milestone : Z) :
  In milestone RewardService.milestones ->
  exists amount, RewardService.milestoneAmounts e milestone = Some amount
                 /\ Qeq_bool amount 0 = false.
Proof.
  unfold RewardService.milestones, RewardService.milestoneAmounts.
  assert (Hnz : forall x d, ~ d == 0 -> Qeq_bool (optnum_or x d) 0 = false).
  { intros x d Hd. apply not_true_is_false. intros H. apply Qeq_bool_eq in H.
    revert H. now apply optnum_or_nonzero. }
  intros [<-|[<-|[<-|[<-|[<-|[]]]]]]; simpl; eexists; (split; [reflexivity|]);
    apply Hnz; discriminate.
Qed.

Lemma milestoneAmounts_none (e : process_env) (milestone : Z) :
  ~ In milestone RewardService.milestones ->
  RewardService.milestoneAmounts e milestone = None.
Proof.
  unfold RewardService.milestones, RewardService.milestoneAmounts. simpl. intros H.
  repeat match goal with
         | |- context [?a =? ?b] =>
             destruct (Z.eqb_spec a b); [exfalso; apply H; subst; tauto|]
         end.
  reflexivity.
Qed.

(** The scan for an existing milestone reward, on parsed rows among which
    is a milestone reward with metadata: it throws. *)
Lemma milestone_scan_throws (milestone : Z) (rows : list reward_row) :
  Forall (fun r' => match rw_metadata r' with MetaText _ => False | _ => True end) rows ->
  (exists r, In r rows /\ rw_reward_type r = milestone_bonus
             /\ rw_metadata r <> MetaNull) ->
  some_sync (RewardService.is_milestone_reward milestone) rows
  = Thrown (SyntaxError "Unexpected token o in JSON at position 1").
Proof.
  induction 1 as [|x rows Hx Hrows IH]; intros [r [Hin [Htype Hmeta]]]; [contradiction|].
  simpl. unfold RewardService.is_milestone_reward at 1.
  destruct Hin as [->|Hin].
  - rewrite Htype. simpl.
    destruct (rw_metadata r) as [|doc|doc]; [contradiction|contradiction|reflexivity].
  - assert (Hrest : some_sync (RewardService.is_milestone_reward milestone) rows
                    = Thrown (SyntaxError "Unexpected token o in JSON at position 1")).
    { apply IH. now exists r. }
    destruct (reward_type_eqb (rw_reward_type x) milestone_bonus); [|exact Hrest].
    destruct (rw_metadata x) as [|doc|doc]; simpl; [exact Hrest|contradiction|reflexivity].
Qed.

Lemma map_sync_parse_in (l l' : list reward_row) (r : reward_row) :
  map_sync Reward.parse_row l = Normal l' ->
  In r l -> rw_reward_type r = milestone_bonus -> rw_metadata r <> MetaNull ->
  exists r', In r' l' /\ rw_reward_type r' = milestone_bonus /\ rw_metadata r' <> MetaNull.
Proof.
  revert l'. induction l as [|x l IH]; intros l' Hl' Hin Htype Hmeta; [contradiction|].
  simpl in Hl'.
  destruct (Reward.parse_row x) as [x'|e] eqn:Hx; [|discriminate].
  destruct (map_sync Reward.parse_row l) as [xs|e]; [|discriminate].
  injection Hl' as <-.
  destruct Hin as [->|Hin].
  - exists x'. split; [now left|].
    split; [now rewrite (Reward_parse_row_type r x' Hx)|].
    unfold Reward.parse_row in Hx.
    destruct (rw_metadata r) as [|doc|doc] eqn:E; simpl in Hx.
    + contradiction.
    + injection Hx as <-. simpl. discriminate.
    + discriminate.
  - destruct (IH xs eq_refl Hin Htype Hmeta) as [r' [Hr' H]].
    exists r'. split; [now right|exact H].
Qed.

Lemma processMilestoneReward_blocked (userId userType : string) (milestone : Z)
  (metadata : json_object) (w : world) (blocker : reward_row) :
  Forall reward_held_as_text (rewards w) ->
  In blocker (firstn 1000 (filter (fun r => String.eqb (rw_user_id r) userId) (rewards w))) ->
  rw_reward_type blocker = milestone_bonus ->
  rw_metadata blocker <> MetaNull ->
  In milestone RewardService.milestones ->
  RewardService.processMilestoneReward userId userType milestone metadata w
  = (Thrown (SyntaxError "Unexpected token o in JSON at position 1"), w).
Proof.
  intros Hheld Hin Htype Hmeta Hm.
  destruct (milestoneAmounts_of (env w) milestone Hm) as [amount [Hamount Hnz]].
  destruct (Reward_findByUser_run userId 1000 w Hheld) as [rows [Hfind [Hparse _]]].
  unfold RewardService.processMilestoneReward, try_catch.
  unfold bind at 1. unfold gets at 1. rewrite Hamount, Hnz.
  unfold bind at 1. rewrite Hfind.
  unfold bind at 1. unfold sync at 1.
  rewrite milestone_scan_throws; [reflexivity| |].
  - now apply map_sync_parsed in Hparse.
  - now apply (map_sync_parse_in _ _ blocker Hparse).
Qed.

Lemma milestone_loop_blocked (userId userType : string) (completedReferrals : Z)
  (todo : list Z) (acc : list reward_row) (w : world) :
  (forall milestone, In milestone todo ->
     RewardService.processMilestoneReward userId userType milestone [] w
     = (Thrown (SyntaxError "Unexpected token o in JSON at position 1"), w)) ->
  RewardService.milestone_loop userId userType completedReferrals todo acc w
    = (Normal acc, w)
  \/ RewardService.milestone_loop userId userType completedReferrals todo acc w
     = (Thrown (SyntaxError "Unexpected token o in JSON at position 1"), w).
Proof.
  revert acc. induction todo as [|milestone todo IH]; intros acc Hblocked.
  - left. reflexivity.
  - simpl. destruct (milestone <=? completedReferrals).
    + right. unfold bind. rewrite Hblocked; [reflexivity|now left].
    + apply IH. intros m Hm. apply Hblocked. now right.
Qed.

(** X23. Once a milestone reward with metadata is among the 1000 most
    recent rewards of a user, on a store that holds metadata as text,
    [processMilestoneReward] throws for every threshold of the table and
    changes nothing, so that [checkMilestoneAchievements] grants nothing
    and answers the empty list, whatever the count of completed
    referrals.  For a threshold outside the table the answer is [null]
    and nothing changes. *)
Theorem milestone_reward_blocks_the_next :
  forall (userId userType : string) (w : world) (blocker : reward_row),
    Forall reward_held_as_text (rewards w) ->
    In blocker
       (firstn 1000 (filter (fun r => String.eqb (rw_user_id r) userId) (rewards w))) ->
    rw_reward_type blocker = milestone_bonus ->
    rw_metadata blocker <> MetaNull ->
    (forall milestone metadata,
       In milestone RewardService.milestones ->
       RewardService.processMilestoneReward userId userType milestone metadata w
       = (Thrown (SyntaxError "Unexpected token o in JSON at position 1"), w))
    /\ (forall milestone metadata,
          ~ In milestone RewardService.milestones ->
          RewardService.processMilestoneReward userId userType milestone metadata w
          = (Normal None, w))
    /\ RewardService.checkMilestoneAchievements userId userType w = (Normal [], w).
Proof.
  intros userId userType w blocker Hheld Hin Htype Hmeta.
  split; [|split].
  - intros milestone metadata Hm.
    now apply (processMilestoneReward_blocked _ _ _ _ _ blocker).
  - intros milestone metadata Hm.
    unfold RewardService.processMilestoneReward, try_catch, bind, gets. simpl.
    now rewrite (milestoneAmounts_none _ _ Hm).
  - unfold RewardService.checkMilestoneAchievements, try_catch.
    unfold bind at 1. unfold Referral.getReferralStats at 1. unfold gets at 1.
    cbv zeta.
    match goal with
    | |- context [RewardService.milestone_loop ?u ?t ?c ?todo ?acc w] =>
        destruct (milestone_loop_blocked u t c todo acc w) as [H|H]
    end.
    + intros milestone Hm.
      now apply (processMilestoneReward_blocked _ _ _ _ _ blocker).
    + rewrite H. reflexivity.
    + rewrite H. reflexivity.
Qed.

Lemma milestone_reward_blocks_the_next_witness :
  RewardService.processMilestoneReward alice "customer" 10 [] milestone_world
    = (Thrown (SyntaxError "Unexpected token o in JSON at position 1"), milestone_world)
  /\ RewardService.checkMilestoneAchievements alice "customer" milestone_world
     = (Normal [], milestone_world).
Proof.
  destruct (milestone_reward_blocks_the_next alice "customer" milestone_world
              milestone_5_reward) as [H1 [_ H2]].
  - repeat constructor.
  - left. reflexivity.
  - reflexivity.
  - discriminate.
  - split; [|exact H2]. apply H1. right. left. reflexivity.
Defined.

(** ** The expiry date of a referral *)

Lemma all_days_from_spec (n : nat) (z0 : Z) (p : Z -> bool) :
  all_days_from n z0 p = true -> forall z, z0 <= z < z0 + Z.of_nat n -> p z = true.
Proof.
  revert z0. induction n as [|n IH]; simpl all_days_from; intros z0 H z Hz; [lia|].
  apply andb_true_iff in H. destruct H as [Hn Hrest].
  destruct (Z.eq_dec z z0) as [->|Hne]; [exact Hn|].
  apply (IH (z0 + 1)); [exact Hrest|lia].
Qed.

Lemma civil_round_trip_until_2100 :
  all_days_from (Z.to_nat days_to_2100) 0 civil_round_trip = true.
Proof. vm_compute. reflexivity. Qed.

(** [setDate] moves a date by whole days: to day [day] of the month from
    day [getDate]. *)
Lemma Date_setDate_moves (ms day : Z) :
  0 <= ms < days_to_2100 * ms_per_day ->
  Date_setDate ms day = ms + (day - Date_getDate ms) * ms_per_day.
Proof.
  intros Hms.
  assert (Hz : 0 <= ms / ms_per_day < Z.of_nat (Z.to_nat days_to_2100)).
  { rewrite Z2Nat.id by (unfold days_to_2100; lia). split.
    - apply Z.div_pos; [lia|unfold ms_per_day; lia].
    - apply Z.div_lt_upper_bound; [unfold ms_per_day; lia|]. lia. }
  pose proof (all_days_from_spec _ _ _ civil_round_trip_until_2100 _ Hz) as Hrt.
  unfold civil_round_trip in Hrt. unfold Date_setDate, Date_getDate.
  destruct (civil_from_days (ms / ms_per_day)) as [[y m] d].
  apply Z.eqb_eq in Hrt.
  pose proof (Z.div_mod ms ms_per_day) as Hdm.
  assert (Hne : ms_per_day <> 0) by (unfold ms_per_day; lia).
  specialize (Hdm Hne).
  set (q := ms / ms_per_day) in *. set (r := ms mod ms_per_day) in *.
  set (f := days_from_civil y m 1) in *.
  nia.
Qed.

(** X24. The expiry date [Referral.create] stores, for a creation before
    the year 2100.  With REFERRAL_EXPIRY_DAYS unset it is day 30 of the
    month of creation counted from its first day, at the time of day of
    the creation, so that a referral created on the 30th or the 31st is
    stored with an expiry date that is not in the future.  With
    REFERRAL_EXPIRY_DAYS = n it is n days after the creation, unless n
    and the day of the month add up to zero. *)
Theorem referral_expiry_date :
  forall (referralData : referral_data) (w : world) (created : referral_row),
    0 <= clock w < days_to_2100 * ms_per_day ->
    fst (Referral.create referralData w) = Normal (Some created) ->
    (REFERRAL_EXPIRY_DAYS (env w) = None ->
     rf_expiry_date created = clock w + (30 - Date_getDate (clock w)) * ms_per_day)
    /\ (REFERRAL_EXPIRY_DAYS (env w) = None -> 30 <= Date_getDate (clock w) ->
        rf_expiry_date created <= clock w)
    /\ (forall n, REFERRAL_EXPIRY_DAYS (env w) = Some n -> Date_getDate (clock w) + n <> 0 ->
                  rf_expiry_date created = clock w + n * ms_per_day).
Proof.
  intros referralData w created Hclock Hrun.
  rewrite Referral_create_run in Hrun. cbv zeta in Hrun.
  destruct (existsb _ (referrals w)); [discriminate|].
  simpl in Hrun. injection Hrun as <-. simpl.
  rewrite (Date_setDate_moves _ _ Hclock).
  unfold Referral.expiry_day.
  split; [|split].
  - intros ->. reflexivity.
  - intros -> Hd. unfold ms_per_day. lia.
  - intros n -> Hn. apply Z.eqb_neq in Hn. rewrite Hn. f_equal. f_equal. lia.
Qed.

Lemma referral_expiry_date_witness :
  exists created,
    fst (Referral.create sample_referral_data month_end_world) = Normal (Some created)
    /\ rf_expiry_date created = 1769860800000 - 86400000
    /\ rf_expiry_date created <= clock month_end_world.
Proof.
  eexists. split; [reflexivity|].
  destruct (referral_expiry_date sample_referral_data month_end_world _
              ltac:(unfold days_to_2100, ms_per_day; simpl; lia) eq_refl)
    as [H1 [H2 _]].
  split.
  - rewrite (H1 eq_refl). reflexivity.
  - apply H2; [reflexivity|vm_compute; discriminate].
Defined.

(** ** The terms of a referral, by role *)

Lemma is_referee_spec (key : option string) (referral : referral_row) :
  ReferralController.is_referee key referral = true
  <-> key = Some (rf_referee_id referral).
Proof.
  unfold ReferralController.is_referee. destruct key as [s|].
  - rewrite String.eqb_eq. split; [intros ->; reflexivity|intros H; now injection H].
  - split; discriminate.
Qed.

(** X25. A referral whose completion condition is the one
    [getCompletionCondition] gives for the role of its referee: that of
    a driver is completed by exactly the triggers delivery_completed
    whose driver is the referee, and the referee bonus of the role is
    25.00 unless DRIVER_REFERRAL_BONUS says otherwise; that of a
    restaurant by exactly the triggers user_verified whose user is the
    referee, with 50.00 unless RESTAURANT_REFERRAL_BONUS says otherwise;
    the minimum order amount and the amount of the trigger play no part
    in either.  Every other role, known or not, waits for a first order,
    and a role that is none of the three has a referee bonus of 10.00
    whatever the settings. *)
Theorem completion_trigger_by_role :
  forall (role : string) (e : process_env) (referral : referral_row),
    rf_completion_condition referral = ReferralController.getCompletionCondition role ->
    (role = "driver" ->
     (DRIVER_REFERRAL_BONUS e = None -> ReferralController.getRefereeBonus e role = 25%Q)
     /\ forall triggerType triggerData,
          ReferralController.shouldCompleteReferral referral triggerType triggerData = true
          <-> triggerType = "delivery_completed"
              /\ td_driver_id triggerData = Some (rf_referee_id referral))
    /\ (role = "restaurant" ->
        (RESTAURANT_REFERRAL_BONUS e = None ->
         ReferralController.getRefereeBonus e role = 50%Q)
        /\ forall triggerType triggerData,
             ReferralController.shouldCompleteReferral referral triggerType triggerData
               = true
             <-> triggerType = "user_verified"
                 /\ td_user_id triggerData = Some (rf_referee_id referral))
    /\ (role <> "driver" -> role <> "restaurant" ->
        rf_completion_condition referral = first_order
        /\ (forall triggerType triggerData,
              ReferralController.shouldCompleteReferral referral triggerType triggerData
                = true ->
              triggerType = "order_completed"
              /\ td_customer_id triggerData = Some (rf_referee_id referral))
        /\ (role <> "customer" -> ReferralController.getRefereeBonus e role = 10%Q)).
Proof.
  intros role e referral Hcond.
  split; [|split].
  - intros ->. split.
    + intros Henv. unfold ReferralController.getRefereeBonus. simpl.
      rewrite Henv. reflexivity.
    + intros triggerType triggerData.
      unfold ReferralController.shouldCompleteReferral. rewrite Hcond.
      cbn [ReferralController.getCompletionCondition String.eqb Ascii.eqb Bool.eqb].
      rewrite andb_true_iff, String.eqb_eq, is_referee_spec. reflexivity.
  - intros ->. split.
    + intros Henv. unfold ReferralController.getRefereeBonus. simpl.
      rewrite Henv. reflexivity.
    + intros triggerType triggerData.
      unfold ReferralController.shouldCompleteReferral. rewrite Hcond.
      cbn [ReferralController.getCompletionCondition String.eqb Ascii.eqb Bool.eqb].
      rewrite andb_true_iff, String.eqb_eq, is_referee_spec. reflexivity.
  - intros Hd Hr.
    apply String.eqb_neq in Hd, Hr.
    assert (Hfirst : ReferralController.getCompletionCondition role = first_order).
    { unfold ReferralController.getCompletionCondition. rewrite Hd, Hr.
      destruct (String.eqb role "customer"); reflexivity. }
    rewrite Hfirst in Hcond.
    split; [exact Hcond|]. split.
    + intros triggerType triggerData.
      unfold ReferralController.shouldCompleteReferral. rewrite Hcond.
      rewrite !andb_true_iff, String.eqb_eq, is_referee_spec. tauto.
    + intros Hc. apply String.eqb_neq in Hc.
      unfold ReferralController.getRefereeBonus. rewrite Hc, Hd, Hr. reflexivity.
Qed.

(** The delivery of [carol] completes her referral, and her bonus is
    25.00. *)
Lemma completion_trigger_by_role_witness :
  ReferralController.shouldCompleteReferral driver_referral "delivery_completed"
    sample_delivery = true
  /\ rf_referee_bonus driver_referral = 25%Q.
Proof.
  destruct (completion_trigger_by_role "driver" no_env driver_referral eq_refl)
    as [Hdriver _].
  destruct (Hdriver eq_refl) as [Hbonus Htrigger].
  split.
  - apply Htrigger. split; reflexivity.
  - exact (Hbonus eq_refl).
Defined.

(** ** The statistics of a referrer *)

Lemma count_status_partition (l : list referral_row) :
  Z.of_nat (List.length l)
  = Referral.count_status RefCompleted l + Referral.count_status RefPending l
    + Referral.count_status RefExpired l + Referral.count_status RefCancelled l.
Proof.
  unfold Referral.count_status.
  induction l as [|r l IH]; [reflexivity|].
  cbn [List.length filter]. destruct (rf_status r); cbn [referral_status_eqb List.length];
    lia.
Qed.

(** X26. The counts of [getReferralStats]: the total is the sum of the
    completed, pending, expired and cancelled referrals selected, so that
    the completed ones never exceed the total; an empty referrer id
    selects every referral, any other the referrals of that referrer. *)
Theorem referral_stats_partition :
  forall (referrerId : string) (w : world),
    exists stats,
      Referral.getReferralStats referrerId w = (Normal stats, w)
      /\ total_referrals stats
         = completed_referrals stats + pending_referrals stats + expired_referrals stats
           + cancelled_referrals referrerId w
      /\ 0 <= completed_referrals stats <= total_referrals stats
      /\ (referrerId <> "" ->
          total_referrals stats
          = Z.of_nat (List.length
                        (filter (fun r => String.eqb (rf_referrer_id r) referrerId)
                                (referrals w))))
      /\ (referrerId = "" -> total_referrals stats = Z.of_nat (List.length (referrals w))).
Proof.
  intros referrerId w. eexists. split; [reflexivity|]. simpl.
  unfold cancelled_referrals.
  set (rows := if str_truthy referrerId then _ else _).
  pose proof (count_status_partition rows) as Hp.
  assert (Hnn : forall s, 0 <= Referral.count_status s rows).
  { intros s. unfold Referral.count_status. lia. }
  pose proof (Hnn RefCompleted). pose proof (Hnn RefPending).
  pose proof (Hnn RefExpired). pose proof (Hnn RefCancelled).
  split; [exact Hp|]. split; [lia|]. split.
  - intros Hne. subst rows. unfold str_truthy.
    apply String.eqb_neq in Hne. rewrite Hne. reflexivity.
  - intros ->. reflexivity.
Qed.

(** ** A referral created at the end of a month *)

(** X27. A referral created on the 30th or the 31st of a month, with
    REFERRAL_EXPIRY_DAYS unset, is overdue from the next moment on: at any
    later time [getExpiredReferrals] selects it, still pending, and the
    referral expiry job run at that time stores it expired. *)
Theorem referral_born_overdue_is_swept :
  forall (referralData : referral_data) (w : world) (created : referral_row) (t : Z),
    0 <= clock w < days_to_2100 * ms_per_day ->
    REFERRAL_EXPIRY_DAYS (env w) = None ->
    30 <= Date_getDate (clock w) ->
    Forall held_as_text (referrals w) ->
    fst (Referral.create referralData w) = Normal (Some created) ->
    clock w < t ->
    let w1 := at_time t (snd (Referral.create referralData w)) in
    exists stored rows,
      referrals w1 = stored :: referrals w
      /\ rf_id stored = rf_id created
      /\ rf_status stored = RefPending
      /\ fst (Referral.getExpiredReferrals w1) = Normal rows
      /\ In stored rows
      /\ In (Referral.set_status RefExpired stored)
            (referrals (snd (CronJobService.referralExpiryJob w1))).
Proof.
  intros referralData w created t Hclock Henv Hday Hheld Hrun Hlater w1.
  rewrite Referral_create_run in Hrun. cbv zeta in Hrun.
  subst w1. rewrite Referral_create_run. cbv zeta.
  destruct (existsb _ (referrals w)); [discriminate|].
  simpl in Hrun. injection Hrun as <-. cbn [snd].
  set (stored := Referral.new_row (uuid_supply w) (clock w) (env w) referralData).
  set (w1 := at_time t _).
  assert (Hexp : rf_expiry_date stored <= clock w).
  { subst stored. simpl. rewrite (Date_setDate_moves _ _ Hclock).
    unfold Referral.expiry_day. rewrite Henv. unfold ms_per_day. lia. }
  assert (Hsel : referral_status_eqb (rf_status stored) RefPending
                 && (rf_expiry_date stored <? clock w1) = true).
  { subst w1. simpl. apply Z.ltb_lt. simpl in Hexp. lia. }
  set (rows := filter (fun r => referral_status_eqb (rf_status r) RefPending
                                && (rf_expiry_date r <? clock w1))
                      (referrals w1)).
  assert (Hin : In stored rows).
  { subst rows. apply filter_In. split; [|exact Hsel]. subst w1. simpl. now left. }
  assert (Hheld1 : Forall held_as_text (referrals w1)).
  { subst w1. simpl. constructor; [exact I|exact Hheld]. }
  exists stored, rows.
  split; [reflexivity|]. split; [reflexivity|]. split; [reflexivity|].
  split; [reflexivity|]. split; [exact Hin|].
  unfold CronJobService.referralExpiryJob, try_catch, bind.
  unfold Referral.getExpiredReferrals at 1. unfold gets at 1. fold rows.
  destruct (expireReferrals_overwrites rows w1 Hheld1) as [Hok Hrefs].
  destruct (CronJobService.expireReferrals rows w1) as [c w'].
  cbn [fst snd] in Hok, Hrefs. subst c. cbn [snd]. rewrite Hrefs.
  apply in_map_iff. exists stored. split; [|subst w1; simpl; now left].
  replace (existsb _ rows) with true; [reflexivity|].
  symmetry. apply existsb_exists. exists stored. split; [exact Hin|apply Nat.eqb_refl].
Qed.

Lemma referral_born_overdue_is_swept_witness :
  exists stored rows,
    referrals (at_time 1769904000000
                 (snd (Referral.create sample_referral_data month_end_world)))
      = stored :: referrals month_end_world
    /\ rf_id stored
       = rf_id (Referral.set_metadata (MetaObject [])
                  (Referral.new_row 0%nat 1769860800000 no_env sample_referral_data))
    /\ rf_status stored = RefPending
    /\ fst (Referral.getExpiredReferrals
              (at_time 1769904000000
                 (snd (Referral.create sample_referral_data month_end_world))))
       = Normal rows
    /\ In stored rows
    /\ In (Referral.set_status RefExpired stored)
          (referrals (snd (CronJobService.referralExpiryJob
                             (at_time 1769904000000
                                (snd (Referral.create sample_referral_data
                                        month_end_world)))))).
Proof.
  apply (referral_born_overdue_is_swept sample_referral_data month_end_world
           (Referral.set_metadata (MetaObject [])
              (Referral.new_row 0%nat 1769860800000 no_env sample_referral_data))
           1769904000000).
  - unfold days_to_2100, ms_per_day. simpl. lia.
  - reflexivity.
  - vm_compute. discriminate.
  - constructor.
  - reflexivity.
  - simpl. lia.
Defined.
